(** * Drift detection and monitoring cycle: a shallow embedding

    The development follows four source files:
    - [backend/app/ml/drift_detector.py]      (module [DriftDetector])
    - [backend/app/services/monitoring_service.py] (module [MonitoringService])
    - [backend/app/api/monitoring.py]         (module [MonitoringApi])
    - [monitoring-worker/worker.py]           (module [MonitoringWorker])

    Conventions.  A float64 array is a [list (option Q)]: [None] is NaN and
    a finite value is idealised as a rational.  Quantities that go through
    [np.log] (the PSI score) live in [R].  Python exceptions are values of
    [result]. *)

From Stdlib Require Import List String ZArith QArith Qreals Qminmax Qabs.
From Stdlib Require Import Reals Lra Lia Bool.
From Stdlib Require Import DecimalString.
From Stdlib Require Lqa.
Import ListNotations.

Set Implicit Arguments.

(** ** Exceptions *)

Inductive exn : Type :=
| ValueError
| IndexError
| ZeroDivisionError
| ImportError
| DBError
| OtherError.

Inductive result (A : Type) : Type :=
| Ok (a : A)
| Raise (e : exn).

Arguments Ok {A} a.
Arguments Raise {A} e.

(** ** The part of numpy the detector uses *)

Module Numpy.

(** Bin edges: finite numbers and the two infinities written into
    [bins[0]] and [bins[-1]]. *)
Inductive edge : Type :=
| NegInf
| Fin (q : Q)
| PosInf.

(** [a[~np.isnan(a)]] *)
Fixpoint dropna (a : list (option Q)) : list Q :=
  match a with
  | [] => []
  | None :: tl => dropna tl
  | Some v :: tl => v :: dropna tl
  end.

(** [a.min()] and [a.max()] on a non-empty array; an empty one raises. *)
Definition amin (a : list Q) : result Q :=
  match a with
  | [] => Raise ValueError
  | x :: tl => Ok (fold_left Qmin tl x)
  end.

Definition amax (a : list Q) : result Q :=
  match a with
  | [] => Raise ValueError
  | x :: tl => Ok (fold_left Qmax tl x)
  end.

(** [np.linspace(start, stop, num)]: [num] evenly spaced points, the last
    one being [stop]; a negative [num] raises. *)
Definition linspace (start stop : Q) (num : Z) : result (list Q) :=
  if (num <? 0)%Z then Raise ValueError
  else
    let n := Z.to_nat num in
    let step := ((stop - start) / inject_Z (num - 1))%Q in
    Ok (map (fun i => if Nat.eqb (S i) n && negb (Nat.eqb i 0) then stop
                      else (start + inject_Z (Z.of_nat i) * step)%Q)
            (seq 0 n)).

(** [bins[0] = v] and [bins[-1] = v]; both raise on an empty array. *)
Definition set_first (v : edge) (bins : list edge) : result (list edge) :=
  match bins with
  | [] => Raise IndexError
  | _ :: tl => Ok (v :: tl)
  end.

Fixpoint set_last_aux (v : edge) (x : edge) (tl : list edge) : list edge :=
  match tl with
  | [] => [v]
  | y :: tl' => x :: set_last_aux v y tl'
  end.

Definition set_last (v : edge) (bins : list edge) : result (list edge) :=
  match bins with
  | [] => Raise IndexError
  | x :: tl => Ok (set_last_aux v x tl)
  end.

Definition edge_le_val (e : edge) (v : Q) : bool :=
  match e with
  | NegInf => true
  | Fin q => Qle_bool q v
  | PosInf => false
  end.

Definition val_lt_edge (v : Q) (e : edge) : bool :=
  match e with
  | NegInf => false
  | Fin q => negb (Qle_bool q v)
  | PosInf => true
  end.

Definition val_le_edge (v : Q) (e : edge) : bool :=
  match e with
  | NegInf => false
  | Fin q => Qle_bool v q
  | PosInf => true
  end.

Definition count_if (p : Q -> bool) (a : list Q) : nat :=
  List.length (filter p a).

(** [np.histogram(a, bins=bins)[0]]: bin [i] is [bins[i] <= v < bins[i+1]],
    the last bin also holds its right edge. *)
Fixpoint histogram (a : list Q) (bins : list edge) : list nat :=
  match bins with
  | [] => []
  | lo :: tl =>
      match tl with
      | [] => []
      | [hi] =>
          [count_if (fun v => edge_le_val lo v && val_le_edge v hi) a]
      | hi :: _ =>
          count_if (fun v => edge_le_val lo v && val_lt_edge v hi) a
          :: histogram a tl
      end
  end.

End Numpy.

(** ** A small error monad for code that may raise *)

Definition bind {A B : Type} (m : result A) (k : A -> result B) : result B :=
  match m with
  | Ok a => k a
  | Raise e => Raise e
  end.

Notation "x <- m ;; k" := (bind m (fun x => k))
  (at level 61, m at next level, right associativity).

(** [try: body  except Exception: handler] *)
Definition try_except {A : Type} (body : result A) (handler : exn -> A) : A :=
  match body with
  | Ok a => a
  | Raise e => handler e
  end.

(** A Python or numpy float that may be NaN. *)
Definition pyfloat : Type := option R.

(** ** Summary statistics of a column ([np.nanmean] and friends) *)

Module NanStats.
Import Numpy.

Definition qsum (a : list Q) : Q := fold_right Qplus 0%Q a.

Definition qlen (a : list Q) : Q := inject_Z (Z.of_nat (List.length a)).

Definition qmean (a : list Q) : Q := (qsum a / qlen a)%Q.

Fixpoint insert_sorted (x : Q) (l : list Q) : list Q :=
  match l with
  | [] => [x]
  | y :: tl => if Qle_bool x y then x :: l else y :: insert_sorted x tl
  end.

Definition sort (l : list Q) : list Q := fold_right insert_sorted [] l.

(** Non-empty after dropping NaN, else NaN (numpy only warns). *)
Definition on_clean (f : list Q -> R) (a : list (option Q)) : pyfloat :=
  match dropna a with
  | [] => None
  | c => Some (f c)
  end.

Definition nanmean (a : list (option Q)) : pyfloat :=
  on_clean (fun c => Q2R (qmean c)) a.

Definition nanstd (a : list (option Q)) : pyfloat :=
  on_clean (fun c =>
    let m := qmean c in
    sqrt (Q2R (qsum (map (fun x => (x - m) * (x - m))%Q c) / qlen c))) a.

(** [np.nanmin] and [np.nanmax] raise on a zero-size array and give NaN on
    an all-NaN one. *)
Definition nanmin (a : list (option Q)) : result pyfloat :=
  match a with
  | [] => Raise ValueError
  | _ => Ok (on_clean (fun c => match amin c with
                                | Ok m => Q2R m
                                | Raise _ => 0%R
                                end) a)
  end.

Definition nanmax (a : list (option Q)) : result pyfloat :=
  match a with
  | [] => Raise ValueError
  | _ => Ok (on_clean (fun c => match amax c with
                                | Ok m => Q2R m
                                | Raise _ => 0%R
                                end) a)
  end.

Definition nanmedian (a : list (option Q)) : pyfloat :=
  on_clean (fun c =>
    let s := sort c in
    let n := List.length s in
    if Nat.even n
    then Q2R ((nth (n / 2 - 1) s 0 + nth (n / 2) s 0) / 2)%Q
    else Q2R (nth (n / 2) s 0%Q)) a.

End NanStats.

(** ** drift_detector.py *)

Inductive Status : Type := stable | drifted.

Inductive Severity : Type := none | low | medium | high.

Definition Status_eqb (a b : Status) : bool :=
  match a, b with
  | stable, stable | drifted, drifted => true
  | _, _ => false
  end.

Definition Severity_eqb (a b : Severity) : bool :=
  match a, b with
  | none, none | low, low | medium, medium | high, high => true
  | _, _ => false
  end.

(** The order of the severity bands. *)
Definition Severity_rank (s : Severity) : nat :=
  match s with none => 0 | low => 1 | medium => 2 | high => 3 end.

Record Stats : Type := {
  stat_mean : pyfloat;
  stat_std : pyfloat;
  stat_min : pyfloat;
  stat_max : pyfloat;
  stat_median : pyfloat
}.

Record Shift : Type := {
  mean_change_pct : pyfloat;
  std_change_pct : pyfloat
}.

(** One entry of the list [detect_feature_drift] returns. *)
Record FeatureDrift : Type := {
  feature_name : string;
  drift_score : R;
  drift_method : string;
  threshold : R;
  status : Status;
  severity : Severity;
  ks_statistic : R;
  ks_p_value : R;
  baseline_stats : Stats;
  current_stats : Stats;
  distribution_shift : Shift
}.

(** The dictionary [detect_prediction_drift] returns. *)
Record PredictionDrift : Type := {
  pd_method : string;
  pd_statistic : R;
  pd_p_value : R;
  pd_threshold : R;
  pd_status : Status;
  baseline_fraud_rate : pyfloat;
  current_fraud_rate : pyfloat;
  change_pct : pyfloat
}.

(** A [pd.DataFrame] of numeric columns: the number of rows and the columns
    in order. *)
Record DataFrame : Type := {
  index : nat;
  columns : list (string * list (option Q))
}.

Definition column_names (df : DataFrame) : list string :=
  map fst (columns df).

(** [df[feature].values], or [None] when [feature not in df.columns]. *)
Fixpoint lookup_column (cols : list (string * list (option Q))) (f : string)
  : option (list (option Q)) :=
  match cols with
  | [] => None
  | (name, vals) :: tl =>
      if String.eqb name f then Some vals else lookup_column tl f
  end.

(** [feature in df.columns] *)
Definition has_column (df : DataFrame) (f : string) : bool :=
  match lookup_column (columns df) f with Some _ => true | None => false end.

(** The scientific-Python functions the detector calls. *)
Class SciPy : Type := {
  ks_2samp : list Q -> list Q -> result (R * R)
}.

Record DriftDetector : Type := {
  psi_threshold : R;
  ks_threshold : R;
  n_bins : Z
}.

(** [DriftDetector()] with the defaults of [__init__]. *)
Definition default_detector : DriftDetector :=
  {| psi_threshold := 0.25; ks_threshold := 0.05; n_bins := 10 |}.

(** The methods of [DriftDetector].  Their [logger] calls do not affect
    what they return and are left out. *)
Module Detector.
Import Numpy NanStats.

Section WithSciPy.
Context {scipy : SciPy}.

(** [epsilon = 1e-10] *)
Definition epsilon : Q := 1e-10.

(** [counts / len(sample) + epsilon] *)
Definition percents (counts : list nat) (len : nat) : list Q :=
  map (fun c => (inject_Z (Z.of_nat c) / inject_Z (Z.of_nat len) + epsilon)%Q)
      counts.

(** One summand of
    [(current_percents - baseline_percents) * np.log(current_percents / baseline_percents)]. *)
Definition psi_term (bc : Q * Q) : R :=
  let (b, c) := bc in
  ((Q2R c - Q2R b) * ln (Q2R c / Q2R b))%R.

(** [np.sum] over the bins. *)
Definition psi_sum (baseline_percents current_percents : list Q) : R :=
  fold_right Rplus 0%R
    (map psi_term (combine baseline_percents current_percents)).

(** The body of the [try] block of [calculate_psi], on the cleaned arrays. *)
Definition psi_try (baseline current : list Q) (n_bins : Z) : result R :=
  bmin <- amin baseline ;;
  cmin <- amin current ;;
  bmax <- amax baseline ;;
  cmax <- amax current ;;
  let min_val := Qmin bmin cmin in
  let max_val := Qmax bmax cmax in
  if Qeq_bool min_val max_val then Ok 0%R
  else
    bins <- linspace min_val max_val (n_bins + 1) ;;
    bins <- set_first NegInf (map Fin bins) ;;
    bins <- set_last PosInf bins ;;
    let baseline_counts := histogram baseline bins in
    let current_counts := histogram current bins in
    let baseline_percents := percents baseline_counts (List.length baseline) in
    let current_percents := percents current_counts (List.length current) in
    Ok (psi_sum baseline_percents current_percents).

Definition calculate_psi (self : DriftDetector)
  (baseline current : list (option Q)) (n_bins_arg : option Z) : R :=
  let n_bins := match n_bins_arg with
                | None => n_bins self
                | Some n => n
                end in
  let baseline := dropna baseline in
  let current := dropna current in
  if Nat.eqb (List.length baseline) 0 || Nat.eqb (List.length current) 0
  then 0%R
  else try_except (psi_try baseline current n_bins) (fun _ => 0%R).

Definition ks_test (self : DriftDetector)
  (baseline current : list (option Q)) : R * R :=
  let baseline := dropna baseline in
  let current := dropna current in
  if Nat.eqb (List.length baseline) 0 || Nat.eqb (List.length current) 0
  then (0%R, 1%R)
  else try_except (ks_2samp baseline current) (fun _ => (0%R, 1%R)).

(** [a >= b] and [a < b] on floats. *)
Definition Rgeb (a b : R) : bool := if Rle_dec b a then true else false.
Definition Rltb (a b : R) : bool := if Rlt_dec a b then true else false.

(** The [if/elif] chain that turns a PSI score into a severity. *)
Definition severity_of (psi_score : R) : Severity :=
  if Rgeb psi_score 0.5 then high
  else if Rgeb psi_score 0.25 then medium
  else if Rgeb psi_score 0.1 then low
  else none.

Definition column_stats (values : list (option Q)) : result Stats :=
  let mean := nanmean values in
  let std := nanstd values in
  mn <- nanmin values ;;
  mx <- nanmax values ;;
  Ok {| stat_mean := mean; stat_std := std; stat_min := mn; stat_max := mx;
        stat_median := nanmedian values |}.

(** [(cur - base) / (base + 1e-10) * 100] on Python floats: NaN propagates
    and a zero denominator raises. *)
Definition change_percent (cur base : pyfloat) : result pyfloat :=
  match base with
  | None => Ok None
  | Some b =>
      if Req_dec_T (b + Q2R epsilon) 0 then Raise ZeroDivisionError
      else match cur with
           | None => Ok None
           | Some c => Ok (Some ((c - b) / (b + Q2R epsilon) * 100)%R)
           end
  end.

(** The body of the [for] loop of [detect_feature_drift] for one feature
    found on both sides. *)
Definition feature_report (self : DriftDetector) (feature : string)
  (baseline_values current_values : list (option Q)) : result FeatureDrift :=
  let psi_score := calculate_psi self baseline_values current_values None in
  let (ks_stat, ks_p) := ks_test self baseline_values current_values in
  let psi_drifted := Rgeb psi_score (psi_threshold self) in
  let ks_drifted := Rltb ks_p (ks_threshold self) in
  let sev := severity_of psi_score in
  bstats <- column_stats baseline_values ;;
  cstats <- column_stats current_values ;;
  mean_change <- change_percent (stat_mean cstats) (stat_mean bstats) ;;
  std_change <- change_percent (stat_std cstats) (stat_std bstats) ;;
  Ok {| feature_name := feature;
        drift_score := psi_score;
        drift_method := "PSI";
        threshold := psi_threshold self;
        status := if psi_drifted then drifted else stable;
        severity := sev;
        ks_statistic := ks_stat;
        ks_p_value := ks_p;
        baseline_stats := bstats;
        current_stats := cstats;
        distribution_shift := {| mean_change_pct := mean_change;
                                 std_change_pct := std_change |} |}.

Fixpoint detect_loop (self : DriftDetector)
  (baseline_df current_df : DataFrame) (feature_names : list string)
  : result (list FeatureDrift) :=
  match feature_names with
  | [] => Ok []
  | feature :: rest =>
      match lookup_column (columns baseline_df) feature,
            lookup_column (columns current_df) feature with
      | Some baseline_values, Some current_values =>
          report <- feature_report self feature baseline_values current_values ;;
          reports <- detect_loop self baseline_df current_df rest ;;
          Ok (report :: reports)
      | _, _ => detect_loop self baseline_df current_df rest
      end
  end.

Definition detect_feature_drift (self : DriftDetector)
  (baseline_df current_df : DataFrame) (feature_names : option (list string))
  : result (list FeatureDrift) :=
  let feature_names := match feature_names with
                       | None => column_names baseline_df
                       | Some names => names
                       end in
  detect_loop self baseline_df current_df feature_names.

(** [np.mean]: NaN on an empty array or when an element is NaN. *)
Definition np_mean (a : list (option Q)) : pyfloat :=
  if Nat.eqb (List.length a) 0 then None
  else if Nat.eqb (List.length (dropna a)) (List.length a)
       then Some (Q2R (qmean (dropna a)))
       else None.

(** numpy float arithmetic: a zero denominator gives a non-finite value,
    written [None] here, and no exception. *)
Definition np_change_percent (cur base : pyfloat) : pyfloat :=
  match base, cur with
  | Some b, Some c =>
      if Req_dec_T (b + Q2R epsilon) 0 then None
      else Some ((c - b) / (b + Q2R epsilon) * 100)%R
  | _, _ => None
  end.

Definition detect_prediction_drift (self : DriftDetector)
  (baseline_predictions current_predictions : list (option Q))
  : PredictionDrift :=
  let (ks_stat, ks_p) := ks_test self baseline_predictions current_predictions in
  let baseline_rate := np_mean baseline_predictions in
  let current_rate := np_mean current_predictions in
  {| pd_method := "KS_test";
     pd_statistic := ks_stat;
     pd_p_value := ks_p;
     pd_threshold := ks_threshold self;
     pd_status := if Rltb ks_p (ks_threshold self) then drifted else stable;
     baseline_fraud_rate := baseline_rate;
     current_fraud_rate := current_rate;
     change_pct := np_change_percent current_rate baseline_rate |}.

(** [str(n)] for a length, and [sep.join(names)]. *)
Definition str_of_len (n : nat) : string :=
  NilEmpty.string_of_uint (Nat.to_uint n).

Definition names_with_severity (sev : Severity) (drift_reports : list FeatureDrift)
  : list string :=
  map feature_name
      (filter (fun r => Severity_eqb (severity r) sev) drift_reports).

Definition generate_recommendation (self : DriftDetector)
  (drift_reports : list FeatureDrift) : string :=
  let high_drift_features := names_with_severity high drift_reports in
  let medium_drift_features := names_with_severity medium drift_reports in
  match high_drift_features with
  | _ :: _ =>
      ("URGENT: Significant drift detected in "
       ++ str_of_len (List.length high_drift_features) ++ " feature(s): "
       ++ String.concat ", " high_drift_features
       ++ ". Model retraining strongly recommended. "
       ++ "Investigate data quality and feature engineering pipeline.")%string
  | [] =>
      match medium_drift_features with
      | _ :: _ =>
          ("WARNING: Moderate drift detected in "
           ++ str_of_len (List.length medium_drift_features) ++ " feature(s): "
           ++ String.concat ", " medium_drift_features
           ++ ". Monitor closely and plan retraining. "
           ++ "Consider A/B testing new model before deployment.")%string
      | [] => "All features stable. Continue monitoring."%string
      end
  end.

End WithSciPy.
End Detector.

(** ** Effects of the services: a trace of calls and log records over [result] *)

Inductive method : Type :=
| m_get_baseline_features
| m_get_current_features
| m_empty_report
| m_detect_feature_drift
| m_get_predictions
| m_detect_prediction_drift
| m_calculate_performance_metrics
| m_generate_alerts
| m_store_drift_report.

Inductive event : Type :=
| Called (m : method)
| LogError (msg : string).

Definition M (A : Type) : Type := (list event * result A)%type.

Definition ret {A : Type} (a : A) : M A := ([], Ok a).

Definition bindM {A B : Type} (m : M A) (k : A -> M B) : M B :=
  match m with
  | (t, Ok a) => let (t', r) := k a in (t ++ t', r)
  | (t, Raise e) => (t, Raise e)
  end.

Notation "x <~ m ;; k" := (bindM m (fun x => k))
  (at level 61, m at next level, right associativity).

Definition lift {A : Type} (r : result A) : M A := ([], r).

Definition call (m : method) : M unit := ([Called m], Ok tt).

Definition logger_error (msg : string) : M unit := ([LogError msg], Ok tt).

Definition raise {A : Type} (e : exn) : M A := ([], Raise e).

(** [try: body  except Exception as e: handler(e)] *)
Definition tryM {A : Type} (body : M A) (handler : exn -> M A) : M A :=
  match body with
  | (t, Ok a) => (t, Ok a)
  | (t, Raise e) => let (t', r) := handler e in (t ++ t', r)
  end.

Definition trace {A : Type} (m : M A) : list event := fst m.
Definition outcome {A : Type} (m : M A) : result A := snd m.

(** ** monitoring_service.py *)

Inductive Health : Type := healthy | warning | critical | unknown.

Record OverallStatus : Type := {
  health : Health;
  data_drift_detected : bool;
  concept_drift_detected : bool;
  performance_degraded : bool
}.

(** An alert; [message] is the f-string built from the feature name, its
    PSI and the threshold, kept here as the three values. *)
Record Alert : Type := {
  alert_id : Z;
  alert_type : string;
  alert_severity : Severity;
  message : string * R * R;
  triggered_at : Z;
  recommendation : string
}.

Record Report : Type := {
  report_timestamp : Z;
  time_window : Z * Z;
  total_predictions : nat;
  model_version : string;
  overall_status : OverallStatus;
  feature_drift : list FeatureDrift;
  prediction_drift : option PredictionDrift;
  performance_metrics : list (string * pyfloat);
  alerts : list Alert
}.

(** Rows of the [predictions] and [ground_truth] tables. *)
Record Prediction : Type := {
  transaction_id : string;
  features : list (string * Q);
  prediction : Z;
  prediction_proba : Q;
  prediction_timestamp : Z
}.

Record GroundTruth : Type := {
  gt_transaction_id : string;
  actual_label : Z
}.

Record Database : Type := {
  predictions : list Prediction;
  ground_truth : list GroundTruth
}.

(** [app.config.settings] *)
Record Settings : Type := {
  MODEL_VERSION : string;
  DRIFT_WINDOW_HOURS : Z;
  PSI_THRESHOLD : R;
  KS_THRESHOLD : R
}.

(** The values [Settings] takes when the environment sets none of them. *)
Definition default_settings : Settings :=
  {| MODEL_VERSION := "xgb_v1.0.0";
     DRIFT_WINDOW_HOURS := 1;
     PSI_THRESHOLD := 0.25;
     KS_THRESHOLD := 0.05 |}.

(** What the service takes from outside this repository's monitoring code:
    the synthetic baseline generator, scikit-learn's metrics, Python's
    [hash], the clock, and the store operation that [_store_drift_report]
    would perform inside its [try] (the source leaves [pass] there, which
    is [fun _ => Ok tt]).  Every [datetime.utcnow()] is a reading of its
    own: the one that fixes [end_time] is the argument [now] of
    [get_drift_report], and [utcnow k] is the reading number [k] taken
    after it in the same call. *)
Class Collaborators : Type := {
  utcnow : nat -> Z;
  generate_baseline_data : nat -> DataFrame;
  accuracy_score : list Z -> list Z -> result R;
  precision_score : list Z -> list Z -> result R;
  recall_score : list Z -> list Z -> result R;
  f1_score : list Z -> list Z -> result R;
  roc_auc_score : list Z -> list Q -> result R;
  py_hash : string -> Z;
  persist_report : Report -> result unit
}.

(** The same collaborators with another store operation. *)
Definition with_persist (c : Collaborators) (p : Report -> result unit)
  : Collaborators :=
  {| utcnow := @utcnow c;
     generate_baseline_data := @generate_baseline_data c;
     accuracy_score := @accuracy_score c;
     precision_score := @precision_score c;
     recall_score := @recall_score c;
     f1_score := @f1_score c;
     roc_auc_score := @roc_auc_score c;
     py_hash := @py_hash c;
     persist_report := p |}.

(** The same collaborators with another synthetic baseline generator. *)
Definition with_generator (c : Collaborators) (g : nat -> DataFrame)
  : Collaborators :=
  {| utcnow := @utcnow c;
     generate_baseline_data := g;
     accuracy_score := @accuracy_score c;
     precision_score := @precision_score c;
     recall_score := @recall_score c;
     f1_score := @f1_score c;
     roc_auc_score := @roc_auc_score c;
     py_hash := @py_hash c;
     persist_report := @persist_report c |}.

(** The same settings with another [DRIFT_WINDOW_HOURS]. *)
Definition with_window_hours (s : Settings) (h : Z) : Settings :=
  {| MODEL_VERSION := MODEL_VERSION s;
     DRIFT_WINDOW_HOURS := h;
     PSI_THRESHOLD := PSI_THRESHOLD s;
     KS_THRESHOLD := KS_THRESHOLD s |}.

Module MonitoringService.
Import Detector.

Section WithCollaborators.
Context {scipy : SciPy} {collab : Collaborators}.
Variable settings : Settings.

(** [self.drift_detector] as [__init__] builds it; [n_bins] keeps the
    default of [DriftDetector.__init__]. *)
Definition drift_detector : DriftDetector :=
  {| psi_threshold := PSI_THRESHOLD settings;
     ks_threshold := KS_THRESHOLD settings;
     n_bins := 10 |}.

(** [pd.DataFrame(features_list)] for a list of feature dictionaries: one
    row per dictionary, one column per key in order of first appearance, NaN
    where a row lacks the key. *)
Fixpoint lookup_feature (row : list (string * Q)) (key : string) : option Q :=
  match row with
  | [] => None
  | (k, v) :: tl => if String.eqb k key then Some v else lookup_feature tl key
  end.

Fixpoint add_keys (seen : list string) (keys : list string) : list string :=
  match keys with
  | [] => seen
  | k :: tl =>
      if existsb (String.eqb k) seen then add_keys seen tl
      else add_keys (seen ++ [k]) tl
  end.

Definition all_keys (rows : list (list (string * Q))) : list string :=
  fold_left (fun seen row => add_keys seen (map fst row)) rows [].

Definition DataFrame_of_records (rows : list (list (string * Q))) : DataFrame :=
  {| index := List.length rows;
     columns := map (fun key => (key, map (fun row => lookup_feature row key) rows))
                    (all_keys rows) |}.

(** [pd.DataFrame()] *)
Definition empty_DataFrame : DataFrame := {| index := 0; columns := [] |}.

Definition in_window (start_time end_time : Z) (p : Prediction) : bool :=
  (start_time <=? prediction_timestamp p)%Z
  && (prediction_timestamp p <=? end_time)%Z.

Definition _get_baseline_features (db : Database) : DataFrame :=
  let preds := firstn (Z.to_nat 10000) (predictions db) in
  match preds with
  | [] => generate_baseline_data 1000
  | _ => DataFrame_of_records (map features preds)
  end.

Definition _get_current_features (db : Database) (start_time end_time : Z)
  : DataFrame :=
  let preds := filter (in_window start_time end_time) (predictions db) in
  match preds with
  | [] => empty_DataFrame
  | _ => DataFrame_of_records (map features preds)
  end.

Definition _get_predictions (db : Database) (start_time end_time : Z)
  : list (option Q) :=
  map (fun p => Some (prediction_proba p))
      (filter (in_window start_time end_time) (predictions db)).

Definition no_metrics : list (string * pyfloat) :=
  [("accuracy", None); ("precision", None); ("recall", None);
   ("f1_score", None); ("auc_roc", None)]%string.

(** The rows of the join of [predictions] with [ground_truth] on
    [transaction_id], restricted to the window. *)
Definition labelled_rows (db : Database) (start_time end_time : Z)
  : list (Z * Q * Z) :=
  flat_map (fun p =>
    map (fun g => (prediction p, prediction_proba p, actual_label g))
        (filter (fun g => String.eqb (transaction_id p) (gt_transaction_id g))
                (ground_truth db)))
    (filter (in_window start_time end_time) (predictions db)).

Fixpoint unique (l : list Z) : list Z :=
  match l with
  | [] => []
  | x :: tl => if existsb (Z.eqb x) tl then unique tl else x :: unique tl
  end.

Definition _calculate_performance_metrics (db : Database)
  (start_time end_time : Z) : list (string * pyfloat) :=
  let results := labelled_rows db start_time end_time in
  match results with
  | [] => no_metrics
  | _ =>
      let y_pred := map (fun r => fst (fst r)) results in
      let y_proba := map (fun r => snd (fst r)) results in
      let y_true := map (fun r => snd r) results in
      try_except
        (acc <- accuracy_score y_true y_pred ;;
         prec <- precision_score y_true y_pred ;;
         rec <- recall_score y_true y_pred ;;
         f1 <- f1_score y_true y_pred ;;
         auc <- (if Nat.ltb 1 (List.length (unique y_true))
                 then a <- roc_auc_score y_true y_proba ;; Ok (Some a)
                 else Ok None) ;;
         Ok [("accuracy", Some acc); ("precision", Some prec);
             ("recall", Some rec); ("f1_score", Some f1);
             ("auc_roc", auc)]%string)
        (fun _ => no_metrics)
  end.

Definition _get_recommendation (drift_report : FeatureDrift) : string :=
  match severity drift_report with
  | high =>
      ("Investigate " ++ feature_name drift_report ++ " data pipeline. "
       ++ "Consider retraining model.")%string
  | medium =>
      ("Monitor " ++ feature_name drift_report ++ " closely. Plan retraining.")%string
  | _ => "Continue monitoring."%string
  end.

(** The loop of [_generate_alerts]; [k] counts the readings of the clock
    taken so far, one for each alert appended. *)
Fixpoint alerts_from (k : nat) (feature_drift_reports : list FeatureDrift)
  : list Alert :=
  match feature_drift_reports with
  | [] => []
  | report :: rest =>
      match severity report with
      | high | medium =>
          {| alert_id := (py_hash (feature_name report) mod 10000)%Z;
             alert_type := "data_drift";
             alert_severity := severity report;
             message := (feature_name report, drift_score report, threshold report);
             triggered_at := utcnow k;
             recommendation := _get_recommendation report |}
          :: alerts_from (S k) rest
      | _ => alerts_from k rest
      end
  end.

Definition _generate_alerts (feature_drift_reports : list FeatureDrift)
  (prediction_drift : option PredictionDrift) : list Alert :=
  alerts_from 0 feature_drift_reports.

Definition _store_drift_report (report : Report) : M unit :=
  tryM (lift (persist_report report))
       (fun e => logger_error "Error storing drift report").

Definition _empty_report (start_time end_time : Z) : Report :=
  {| report_timestamp := utcnow 0;
     time_window := (start_time, end_time);
     total_predictions := 0;
     model_version := MODEL_VERSION settings;
     overall_status := {| health := unknown;
                          data_drift_detected := false;
                          concept_drift_detected := false;
                          performance_degraded := false |};
     feature_drift := [];
     prediction_drift := None;
     performance_metrics := [];
     alerts := [] |}.

(** Lines 84-101 of [get_drift_report]: the three quantities and the
    [if/elif/else] that picks the health. *)
Definition any_feature_drifted (feature_drift_reports : list FeatureDrift) : bool :=
  existsb (fun r => Status_eqb (status r) drifted) feature_drift_reports.

Definition prediction_drifted (prediction_drift : option PredictionDrift) : bool :=
  match prediction_drift with
  | Some p => Status_eqb (pd_status p) drifted
  | None => false
  end.

Definition high_severity_count (feature_drift_reports : list FeatureDrift) : nat :=
  List.length (filter (fun r => Severity_eqb (severity r) high) feature_drift_reports).

Definition overall_health (feature_drift_reports : list FeatureDrift)
  (prediction_drift : option PredictionDrift) : Health :=
  let data_drift_detected := any_feature_drifted feature_drift_reports in
  let concept_drift_detected := prediction_drifted prediction_drift in
  if Nat.leb 2 (high_severity_count feature_drift_reports) then critical
  else if data_drift_detected || concept_drift_detected then warning
  else healthy.

(** [get_drift_report]; [now] is the reading of [datetime.utcnow()] that
    becomes [end_time], in seconds; the alerts and the report's timestamp
    take the readings that follow.  The window's start is computed on
    unbounded integers: the statements that need it to be a [datetime] say
    so with [representable].  The series [baseline_predictions] of line 69
    is never read and is left out. *)
Definition get_drift_report (db : Database) (now : Z) (hours : option Z)
  : M Report :=
  let hours := match hours with
               | None => DRIFT_WINDOW_HOURS settings
               | Some h => h
               end in
  tryM
    (let end_time := now in
     let start_time := (end_time - hours * 3600)%Z in
     _ <~ call m_get_baseline_features ;;
     let baseline_df := _get_baseline_features db in
     _ <~ call m_get_current_features ;;
     let current_df := _get_current_features db start_time end_time in
     if Nat.eqb (index current_df) 0
     then
       _ <~ call m_empty_report ;;
       ret (_empty_report start_time end_time)
     else
       _ <~ call m_detect_feature_drift ;;
       feature_drift_reports <~
         lift (detect_feature_drift drift_detector baseline_df current_df None) ;;
       _ <~ call m_get_predictions ;;
       let current_predictions := _get_predictions db start_time end_time in
       prediction_drift <~
         (if Nat.ltb 0 (List.length current_predictions)
          then
            _ <~ call m_detect_prediction_drift ;;
            let baseline_pred_array :=
              repeat (Some 0.02%Q) (List.length current_predictions) in
            ret (Some (detect_prediction_drift drift_detector
                         baseline_pred_array current_predictions))
          else ret None) ;;
       _ <~ call m_calculate_performance_metrics ;;
       let metrics := _calculate_performance_metrics db start_time end_time in
       let data_drift := any_feature_drifted feature_drift_reports in
       let concept_drift := prediction_drifted prediction_drift in
       let overall := overall_health feature_drift_reports prediction_drift in
       _ <~ call m_generate_alerts ;;
       let alerts := _generate_alerts feature_drift_reports prediction_drift in
       let report :=
         {| report_timestamp := utcnow (List.length alerts);
            time_window := (start_time, end_time);
            total_predictions := index current_df;
            model_version := MODEL_VERSION settings;
            overall_status := {| health := overall;
                                 data_drift_detected := data_drift;
                                 concept_drift_detected := concept_drift;
                                 performance_degraded := false |};
            feature_drift := feature_drift_reports;
            prediction_drift := prediction_drift;
            performance_metrics := metrics;
            alerts := alerts |} in
       _ <~ call m_store_drift_report ;;
       _ <~ _store_drift_report report ;;
       ret report)
    (fun e =>
       _ <~ logger_error "Error generating drift report" ;;
       raise e).

(** [severity in ['high', 'medium']] *)
Definition alerting (s : Severity) : bool :=
  match s with
  | high | medium => true
  | _ => false
  end.

(** The instants a [datetime] can hold, in whole seconds since the epoch:
    from 0001-01-01 00:00:00 to 9999-12-31 23:59:59.  Subtracting a
    [timedelta] from a [datetime] raises [OverflowError] when the result
    leaves this range. *)
Definition datetime_min : Z := (-62135596800)%Z.
Definition datetime_max : Z := 253402300799%Z.

Definition representable (t : Z) : Prop :=
  (datetime_min <= t <= datetime_max)%Z.

(** [start_time] as a call of [get_drift_report] computes it. *)
Definition window_start (now : Z) (hours : option Z) : Z :=
  (now - match hours with
         | None => DRIFT_WINDOW_HOURS settings
         | Some h => h
         end * 3600)%Z.

End WithCollaborators.
End MonitoringService.

(** ** api/monitoring.py: the endpoint that serves the report *)

Module MonitoringApi.
Import MonitoringService.

(** What the endpoint hands to FastAPI: the body of a 200 answer, or the
    [HTTPException] it raises, with its status code and the exception named
    in its detail. *)
Inductive response (A : Type) : Type :=
| Returned (body : A)
| HTTPException (status_code : Z) (detail : string) (cause : exn).

Arguments Returned {A} body.
Arguments HTTPException {A} status_code detail cause.

Section WithCollaborators.
Context {scipy : SciPy} {collab : Collaborators}.
Variable settings : Settings.

(** [get_latest_drift_report]; [hours] is the query parameter, [None] when
    the request leaves it out, in which case FastAPI supplies the declared
    default 1. *)
Definition get_latest_drift_report (db : Database) (now : Z)
  (hours : option Z) : M (response Report) :=
  let hours := match hours with
               | None => 1%Z
               | Some h => h
               end in
  tryM
    (report <~ get_drift_report settings db now (Some hours) ;;
     ret (Returned report))
    (fun e => ret (HTTPException 500 "Failed to generate drift report: " e)).

End WithCollaborators.
End MonitoringApi.

(** ** worker.py *)

Module MonitoringWorker.

Inductive step : Type := calculate_metrics | check_drift | update_system_health.

(** The SQL statements the worker sends through [session.execute]. *)
Inductive sql : Type :=
| SelectPredictionCount
| SelectLabelCount
| SelectAccuracy
| InsertMetrics (pred_count label_count : option Q) (accuracy : option Q)
| SelectAvgProba
| InsertAlert (avg_proba : Q)
| InsertHealth (cpu_usage memory_usage : Q).

Inductive level : Type := INFO | WARNING | ERROR.

(** What the worker does to the outside, in order. *)
Inductive wevent : Type :=
| Enter (s : step)
| Exec (q : sql)
| Log (l : level) (msg : string)
| Commit
| Rollback
| Close.

(** [fetchone()]: no row, or the first column of the row, which may be
    NULL. *)
Definition row : Type := option (option Q).

(** The database session and [psutil].  Every call may raise, the rollback
    and the close of the session included, and what the database answers
    may depend on everything done before (a failed statement can make the
    following ones fail). *)
Class WorkerEnv : Type := {
  session_execute : list wevent -> sql -> result row;
  session_commit : list wevent -> result unit;
  session_rollback : list wevent -> result unit;
  session_close : list wevent -> result unit;
  import_psutil : result unit;
  cpu_percent : result Q;
  virtual_memory_percent : result Q
}.

(** State and exceptions: the state is the history of events. *)
Definition W (A : Type) : Type := list wevent -> list wevent * result A.

Definition retW {A : Type} (a : A) : W A := fun h => (h, Ok a).

Definition bindW {A B : Type} (m : W A) (k : A -> W B) : W B :=
  fun h =>
    match m h with
    | (h', Ok a) => k a h'
    | (h', Raise e) => (h', Raise e)
    end.

Notation "x <~~ m ;; k" := (bindW m (fun x => k))
  (at level 61, m at next level, right associativity).

Definition emit (e : wevent) : W unit := fun h => (h ++ [e], Ok tt).

Definition liftW {A : Type} (r : result A) : W A := fun h => (h, r).

(** [try: body  except Exception as e: handler(e)] *)
Definition tryW {A : Type} (body : W A) (handler : exn -> W A) : W A :=
  fun h =>
    match body h with
    | (h', Ok a) => (h', Ok a)
    | (h', Raise e) => handler e h'
    end.

(** [try: body  finally: cleanup]: the cleanup runs whatever the body did,
    and an exception of the cleanup replaces the outcome of the body. *)
Definition finallyW {A : Type} (body : W A) (cleanup : W unit) : W A :=
  fun h =>
    match body h with
    | (h', r) =>
        match cleanup h' with
        | (h'', Ok _) => (h'', r)
        | (h'', Raise e) => (h'', Raise e)
        end
    end.

Section WithEnv.
Context {env : WorkerEnv}.

Definition execute (q : sql) : W row :=
  fun h => (h ++ [Exec q], session_execute h q).

Definition commit : W unit :=
  fun h => (h ++ [Commit], session_commit h).

Definition rollback : W unit :=
  fun h => (h ++ [Rollback], session_rollback h).

Definition close : W unit :=
  fun h => (h ++ [Close], session_close h).

(** [result[0] if result else 0] *)
Definition first_or_zero (r : row) : option Q :=
  match r with
  | Some v => v
  | None => Some 0%Q
  end.

(** [labels_count > 0]; comparing [None] with a number raises. *)
Definition positive (v : option Q) : result bool :=
  match v with
  | Some q => Ok (negb (Qle_bool q 0))
  | None => Raise OtherError
  end.

(** A value is truthy when it is neither [None] nor zero. *)
Definition truthy (r : row) : option Q :=
  match r with
  | Some (Some v) => if Qeq_bool v 0 then None else Some v
  | _ => None
  end.

Definition _calculate_metrics : W unit :=
  _ <~~ emit (Enter calculate_metrics) ;;
  tryW
    (r <~~ execute SelectPredictionCount ;;
     let predictions_count := first_or_zero r in
     r <~~ execute SelectLabelCount ;;
     let labels_count := first_or_zero r in
     has_labels <~~ liftW (positive labels_count) ;;
     accuracy <~~
       (if has_labels : bool
        then r <~~ execute SelectAccuracy ;; retW (truthy r)
        else retW None) ;;
     _ <~~ execute (InsertMetrics predictions_count labels_count accuracy) ;;
     emit (Log INFO "Metrics calculated"))
    (fun e => emit (Log ERROR "Error calculating metrics")).

Definition _check_drift : W unit :=
  _ <~~ emit (Enter check_drift) ;;
  tryW
    (r <~~ execute SelectAvgProba ;;
     match truthy r with
     | Some avg_proba =>
         let baseline_fraud_rate := 0.02%Q in
         if negb (Qle_bool (Qabs (avg_proba - baseline_fraud_rate)) 0.03)
         then
           _ <~~ emit (Log WARNING "Prediction drift detected!") ;;
           _ <~~ execute (InsertAlert avg_proba) ;;
           retW tt
         else emit (Log INFO "No significant drift detected.")
     | None => retW tt
     end)
    (fun e => emit (Log ERROR "Error checking drift")).

Definition _update_system_health : W unit :=
  _ <~~ emit (Enter update_system_health) ;;
  _ <~~ liftW import_psutil ;;
  tryW
    (cpu_usage <~~ liftW cpu_percent ;;
     memory_usage <~~ liftW virtual_memory_percent ;;
     _ <~~ execute (InsertHealth cpu_usage memory_usage) ;;
     emit (Log INFO "System health"))
    (fun e => emit (Log ERROR "Error updating system health")).

Definition run_monitoring_cycle : W unit :=
  _ <~~ emit (Log INFO "Starting monitoring cycle...") ;;
  finallyW
    (tryW
       (_ <~~ _calculate_metrics ;;
        _ <~~ _check_drift ;;
        _ <~~ _update_system_health ;;
        _ <~~ commit ;;
        emit (Log INFO "Monitoring cycle completed"))
       (fun e =>
          _ <~~ emit (Log ERROR "Error in monitoring cycle") ;;
          rollback))
    close.

(** One pass of the [while True] loop of [start]: the scheduled job is due
    or not.  A run is followed for the passes given and is still running
    after them, unless an exception has left [start].  The user's
    [KeyboardInterrupt], which is no [Exception], is not modelled. *)
Inductive tick : Type := Due | NotDue.

Inductive progress : Type := StillRunning.

Fixpoint main_loop (ticks : list tick) : W progress :=
  match ticks with
  | [] => retW StillRunning
  | Due :: rest =>
      _ <~~ tryW run_monitoring_cycle
                 (fun e => emit (Log ERROR "Error in main loop")) ;;
      main_loop rest
  | NotDue :: rest => main_loop rest
  end.

(** [start]: one cycle at once, outside any [try], then the loop. *)
Definition start (ticks : list tick) : W progress :=
  _ <~~ run_monitoring_cycle ;;
  _ <~~ emit (Log INFO "Worker started. Running monitoring cycles...") ;;
  main_loop ticks.

End WithEnv.

(** Cycles that reached the [session.close()] of their [finally] clause,
    and scheduled runs among the ticks. *)
Definition completed_cycles (h : list wevent) : nat :=
  List.length (filter (fun e => match e with Close => true | _ => false end) h).

Definition due_count (ticks : list tick) : nat :=
  List.length (filter (fun t => match t with Due => true | _ => false end) ticks).

(** The events that act on the session as a whole. *)
Definition is_session_event (e : wevent) : bool :=
  match e with
  | Commit | Rollback | Close => true
  | _ => false
  end.

Definition session_events (h : list wevent) : list wevent :=
  filter is_session_event h.

(** The statements sent, in order. *)
Fixpoint statements (h : list wevent) : list sql :=
  match h with
  | [] => []
  | Exec q :: rest => q :: statements rest
  | _ :: rest => statements rest
  end.

End MonitoringWorker.

(** * Concrete inputs used to exercise the statements below *)

Module Examples.

(** A SciPy stand-in whose KS test always reports a significant
    difference (p-value 0.01, below the default 0.05). *)
Definition scipy_significant : SciPy :=
  {| ks_2samp := fun _ _ => Ok (0.5%R, 0.01%R) |}.

(** A SciPy stand-in whose KS test fails on samples shorter than two. *)
Definition scipy_partial : SciPy :=
  {| ks_2samp := fun b c =>
       if Nat.ltb (List.length b) 2 then Raise ValueError
       else Ok (0.5%R, 0.5%R) |}.

Definition amounts : list (option Q) := [Some 10%Q; Some 20%Q; None; Some 30%Q].

Definition hours : list (option Q) := [Some 9%Q; Some 14%Q; Some 14%Q; Some 23%Q].

Definition frame : DataFrame :=
  {| index := 4; columns := [("amount"%string, amounts); ("hour_of_day"%string, hours)] |}.

(** Collaborators as the source has them: the store step is [pass]. *)
Definition collaborators : Collaborators :=
  {| utcnow := fun k => (7200 + Z.of_nat k)%Z;
     generate_baseline_data := fun _ => frame;
     accuracy_score := fun _ _ => Ok 0%R;
     precision_score := fun _ _ => Ok 0%R;
     recall_score := fun _ _ => Ok 0%R;
     f1_score := fun _ _ => Ok 0%R;
     roc_auc_score := fun _ _ => Raise ValueError;
     py_hash := fun s => Z.of_nat (String.length s);
     persist_report := fun _ => Ok tt |}.

(** A store whose persist operation always throws. *)
Definition failing_store : Collaborators :=
  with_persist collaborators (fun _ => Raise DBError).

Definition no_predictions : Database :=
  {| predictions := []; ground_truth := [] |}.

Definition two_predictions : Database :=
  {| predictions :=
       [ {| transaction_id := "t1";
            features := [("amount"%string, 10%Q); ("hour_of_day"%string, 9%Q)];
            prediction := 0;
            prediction_proba := 0.1%Q;
            prediction_timestamp := 1000 |};
         {| transaction_id := "t2";
            features := [("amount"%string, 250%Q); ("hour_of_day"%string, 23%Q)];
            prediction := 1;
            prediction_proba := 0.9%Q;
            prediction_timestamp := 1500 |} ];
     ground_truth :=
       [ {| gt_transaction_id := "t1"; actual_label := 1 |};
         {| gt_transaction_id := "t2"; actual_label := 1 |} ] |}.

Definition some_stats : Stats :=
  {| stat_mean := Some 1%R; stat_std := Some 0%R; stat_min := Some 1%R;
     stat_max := Some 1%R; stat_median := Some 1%R |}.

(** A feature result with the given score under the given threshold, as the
    detector fills the fields that depend on them. *)
Definition feature_result (name : string) (score thr : R) : FeatureDrift :=
  {| feature_name := name;
     drift_score := score;
     drift_method := "PSI";
     threshold := thr;
     status := if Detector.Rgeb score thr then drifted else stable;
     severity := Detector.severity_of score;
     ks_statistic := 0%R;
     ks_p_value := 1%R;
     baseline_stats := some_stats;
     current_stats := some_stats;
     distribution_shift := {| mean_change_pct := Some 0%R;
                              std_change_pct := Some 0%R |} |}.

(** The frame [pd.DataFrame] builds from the features of [two_predictions]. *)
Definition two_predictions_frame : DataFrame :=
  {| index := 2;
     columns := [("amount"%string, [Some 10%Q; Some 250%Q]);
                 ("hour_of_day"%string, [Some 9%Q; Some 23%Q])] |}.

(** A worker environment in which the database is unreachable and [psutil]
    fails: every statement, the commit and the CPU reading raise. *)
Definition broken_env : MonitoringWorker.WorkerEnv :=
  {| MonitoringWorker.session_execute := fun _ _ => Raise DBError;
     MonitoringWorker.session_commit := fun _ => Raise DBError;
     MonitoringWorker.session_rollback := fun _ => Ok tt;
     MonitoringWorker.session_close := fun _ => Ok tt;
     MonitoringWorker.import_psutil := Ok tt;
     MonitoringWorker.cpu_percent := Raise OtherError;
     MonitoringWorker.virtual_memory_percent := Ok 40%Q |}.

(** A worker environment without [psutil] in which only the first
    statement of a cycle fails. *)
Definition flaky_env : MonitoringWorker.WorkerEnv :=
  {| MonitoringWorker.session_execute := fun _ q =>
       match q with
       | MonitoringWorker.SelectPredictionCount => Raise DBError
       | MonitoringWorker.SelectAvgProba => Ok (Some (Some 0.5%Q))
       | _ => Ok None
       end;
     MonitoringWorker.session_commit := fun _ => Ok tt;
     MonitoringWorker.session_rollback := fun _ => Ok tt;
     MonitoringWorker.session_close := fun _ => Ok tt;
     MonitoringWorker.import_psutil := Raise ImportError;
     MonitoringWorker.cpu_percent := Ok 10%Q;
     MonitoringWorker.virtual_memory_percent := Ok 40%Q |}.

(** A history of twenty predictions: eighteen before the window (seventeen
    with amount 0, one with amount 1) and two inside it (one of each); the
    hour is always 12. *)
Definition amount_row (id : string) (amount : Q) (ts : Z) : Prediction :=
  {| transaction_id := id;
     features := [("amount"%string, amount); ("hour_of_day"%string, 12%Q)];
     prediction := 0;
     prediction_proba := 0.02%Q;
     prediction_timestamp := ts |}.

Definition skewed_history : Database :=
  {| predictions :=
       map (fun i => amount_row (String (Ascii.ascii_of_nat (65 + i)) "") 0 0)
           (seq 0 17) ++
       [amount_row "R" 1 0; amount_row "S" 0 5000; amount_row "T" 1 5000];
     ground_truth := [] |}.

(** Settings with [PSI_THRESHOLD=1.0] in the environment. *)
Definition lenient_settings : Settings :=
  {| MODEL_VERSION := "xgb_v1.0.0"%string;
     DRIFT_WINDOW_HOURS := 1;
     PSI_THRESHOLD := 1;
     KS_THRESHOLD := 0.05 |}.

Definition history_amounts : list (option Q) :=
  repeat (Some 0%Q) 17 ++ [Some 1%Q; Some 0%Q; Some 1%Q].

Definition history_frame : DataFrame :=
  {| index := 20;
     columns := [("amount"%string, history_amounts);
                 ("hour_of_day"%string, repeat (Some 12%Q) 20)] |}.

Definition window_frame : DataFrame :=
  {| index := 2;
     columns := [("amount"%string, [Some 0%Q; Some 1%Q]);
                 ("hour_of_day"%string, [Some 12%Q; Some 12%Q])] |}.

(** A frame whose only column has the mean -1e-10. *)
Definition offset_frame : DataFrame :=
  {| index := 1; columns := [("balance"%string, [Some (-(1e-10))%Q])] |}.

(** A frame with a column and no rows. *)
Definition no_rows_frame : DataFrame :=
  {| index := 0; columns := [("amount"%string, [])] |}.

(** A SciPy stand-in whose KS test always fails. *)
Definition scipy_failing : SciPy :=
  {| ks_2samp := fun _ _ => Raise ValueError |}.

(** A store holding one prediction whose only feature is -1e-10. *)
Definition offset_history : Database :=
  {| predictions :=
       [ {| transaction_id := "t1";
            features := [("balance"%string, (-(1e-10))%Q)];
            prediction := 0;
            prediction_proba := 0.1%Q;
            prediction_timestamp := 1000 |} ];
     ground_truth := [] |}.

(** A worker environment whose database answers every count with 5 and the
    accuracy query with 0: every labelled prediction was wrong. *)
Definition wrong_model_env : MonitoringWorker.WorkerEnv :=
  {| MonitoringWorker.session_execute := fun _ q =>
       match q with
       | MonitoringWorker.SelectAccuracy => Ok (Some (Some 0%Q))
       | _ => Ok (Some (Some 5%Q))
       end;
     MonitoringWorker.session_commit := fun _ => Ok tt;
     MonitoringWorker.session_rollback := fun _ => Ok tt;
     MonitoringWorker.session_close := fun _ => Ok tt;
     MonitoringWorker.import_psutil := Ok tt;
     MonitoringWorker.cpu_percent := Ok 10%Q;
     MonitoringWorker.virtual_memory_percent := Ok 40%Q |}.

(** A worker environment whose connection to the database is lost: every
    statement, the commit and the rollback raise. *)
Definition lost_connection_env : MonitoringWorker.WorkerEnv :=
  {| MonitoringWorker.session_execute := fun _ _ => Raise DBError;
     MonitoringWorker.session_commit := fun _ => Raise DBError;
     MonitoringWorker.session_rollback := fun _ => Raise DBError;
     MonitoringWorker.session_close := fun _ => Ok tt;
     MonitoringWorker.import_psutil := Ok tt;
     MonitoringWorker.cpu_percent := Ok 10%Q;
     MonitoringWorker.virtual_memory_percent := Ok 40%Q |}.


End Examples.

(** * Properties of the drift detector *)

Module DetectorFacts.
Import Numpy NanStats Detector.

Local Open Scope R_scope.

Lemma Rgeb_true (a b : R) : Rgeb a b = true <-> b <= a.
Proof.
  unfold Rgeb. destruct (Rle_dec b a); split; intros; auto; discriminate.
Qed.

Lemma Rgeb_false (a b : R) : Rgeb a b = false <-> a < b.
Proof.
  unfold Rgeb. destruct (Rle_dec b a); split; intros; auto; try discriminate; lra.
Qed.

Lemma Rltb_true (a b : R) : Rltb a b = true <-> a < b.
Proof.
  unfold Rltb. destruct (Rlt_dec a b); split; intros; auto; discriminate.
Qed.

(** The severity is a step function of the score. *)
Lemma severity_of_bands (x : R) :
  (severity_of x = none <-> x < 0.1) /\
  (severity_of x = low <-> 0.1 <= x < 0.25) /\
  (severity_of x = medium <-> 0.25 <= x < 0.5) /\
  (severity_of x = high <-> 0.5 <= x).
Proof.
  unfold severity_of.
  destruct (Rgeb x 0.5) eqn:H5;
    [apply Rgeb_true in H5 | apply Rgeb_false in H5];
    (destruct (Rgeb x 0.25) eqn:H25;
      [apply Rgeb_true in H25 | apply Rgeb_false in H25]);
    (destruct (Rgeb x 0.1) eqn:H1;
      [apply Rgeb_true in H1 | apply Rgeb_false in H1]);
    repeat split; intros; try discriminate; try lra.
Qed.

Lemma severity_of_monotone (x y : R) :
  x <= y -> (Severity_rank (severity_of x) <= Severity_rank (severity_of y))%nat.
Proof.
  intros Hxy.
  destruct (severity_of_bands x) as (Hn & Hl & Hm & Hh).
  destruct (severity_of_bands y) as (Hn' & Hl' & Hm' & Hh').
  destruct (severity_of x) eqn:Ex; destruct (severity_of y) eqn:Ey;
    simpl; try lia; exfalso;
    repeat match goal with
           | H : ?s = ?s <-> _ |- _ => pose proof (proj1 H eq_refl); clear H
           | H : _ <-> _ |- _ => clear H
           end; lra.
Qed.

Section WithSciPy.
Context {scipy : SciPy}.

(** What one loop iteration puts in the report. *)
Lemma feature_report_inv (self : DriftDetector) (f : string)
  (bv cv : list (option Q)) (r : FeatureDrift) :
  feature_report self f bv cv = Ok r ->
  feature_name r = f /\
  drift_score r = calculate_psi self bv cv None /\
  threshold r = psi_threshold self /\
  status r = (if Rgeb (drift_score r) (psi_threshold self) then drifted else stable) /\
  severity r = severity_of (drift_score r) /\
  (ks_statistic r, ks_p_value r) = ks_test self bv cv.
Proof.
  unfold feature_report.
  destruct (ks_test self bv cv) as [s p].
  destruct (column_stats bv) as [bs|]; simpl; [|discriminate].
  destruct (column_stats cv) as [cs|]; simpl; [|discriminate].
  destruct (change_percent (stat_mean cs) (stat_mean bs)); simpl; [|discriminate].
  destruct (change_percent (stat_std cs) (stat_std bs)); simpl; [|discriminate].
  intros H. inversion H; subst; clear H. simpl. repeat split; reflexivity.
Qed.

(** A property of every loop iteration holds of every returned report. *)
Lemma detect_loop_Forall (P : FeatureDrift -> Prop) (self : DriftDetector)
  (bdf cdf : DataFrame) :
  (forall f bv cv r,
      lookup_column (columns bdf) f = Some bv ->
      lookup_column (columns cdf) f = Some cv ->
      feature_report self f bv cv = Ok r -> P r) ->
  forall names reports,
    detect_loop self bdf cdf names = Ok reports -> Forall P reports.
Proof.
  intros HP names. induction names as [|f rest IH]; simpl; intros reports H.
  - inversion H. constructor.
  - destruct (lookup_column (columns bdf) f) as [bv|] eqn:Eb; [|auto].
    destruct (lookup_column (columns cdf) f) as [cv|] eqn:Ec; [|auto].
    destruct (feature_report self f bv cv) as [r|] eqn:Er; simpl in H; [|discriminate].
    destruct (detect_loop self bdf cdf rest) as [rs|]; simpl in H; [|discriminate].
    inversion H; subst. constructor; eauto.
Qed.

Lemma detect_feature_drift_Forall (P : FeatureDrift -> Prop)
  (self : DriftDetector) (bdf cdf : DataFrame) (names : option (list string))
  (reports : list FeatureDrift) :
  (forall f bv cv r,
      lookup_column (columns bdf) f = Some bv ->
      lookup_column (columns cdf) f = Some cv ->
      feature_report self f bv cv = Ok r -> P r) ->
  detect_feature_drift self bdf cdf names = Ok reports -> Forall P reports.
Proof.
  intros HP H. unfold detect_feature_drift in H.
  eapply detect_loop_Forall; eauto.
Qed.

End WithSciPy.

(** ** The PSI sum *)

Lemma psi_sum_diag (l : list Q) : psi_sum l l = 0.
Proof.
  unfold psi_sum. induction l as [|x l IH]; simpl; [reflexivity|].
  rewrite IH. unfold Rminus. rewrite Rplus_opp_r. ring.
Qed.

Lemma psi_term_nonneg (b c : Q) :
  0 < Q2R b -> 0 < Q2R c -> 0 <= psi_term (b, c).
Proof.
  intros Hb Hc. unfold psi_term.
  set (x := Q2R b) in *. set (y := Q2R c) in *.
  assert (Hq : 0 < y / x) by (apply Rdiv_lt_0_compat; assumption).
  destruct (Rtotal_order y x) as [Hlt | [Heq | Hgt]].
  - assert (y / x < 1).
    { apply (Rmult_lt_reg_r x); [assumption|].
      unfold Rdiv. rewrite Rmult_assoc, Rinv_l by lra. lra. }
    assert (ln (y / x) < 0).
    { rewrite <- ln_1. apply ln_increasing; assumption. }
    nra.
  - rewrite Heq. unfold Rminus. rewrite Rplus_opp_r. lra.
  - assert (1 < y / x).
    { apply (Rmult_lt_reg_r x); [assumption|].
      unfold Rdiv. rewrite Rmult_assoc, Rinv_l by lra. lra. }
    assert (0 < ln (y / x)).
    { rewrite <- ln_1. apply ln_increasing; lra. }
    nra.
Qed.

Lemma epsilon_pos : 0 < Q2R epsilon.
Proof. unfold epsilon, Q2R. simpl. lra. Qed.

Lemma percents_pos (counts : list nat) (len : nat) :
  Forall (fun p => 0 < Q2R p) (percents counts len).
Proof.
  unfold percents. apply Forall_forall. intros p Hp.
  apply in_map_iff in Hp. destruct Hp as (c & <- & _).
  rewrite Q2R_plus.
  assert (0 <= Q2R (inject_Z (Z.of_nat c) / inject_Z (Z.of_nat len))).
  { replace 0 with (Q2R 0) by (unfold Q2R; simpl; lra).
    apply Qle_Rle.
    destruct len as [|len].
    - unfold Qdiv, Qinv, inject_Z; simpl. rewrite Qmult_0_r. apply Qle_refl.
    - apply Qle_shift_div_l.
      + unfold Qlt, inject_Z; simpl. lia.
      + rewrite Qmult_0_l. unfold Qle, inject_Z; simpl. lia. }
  pose proof epsilon_pos. lra.
Qed.

Lemma psi_sum_nonneg (bp cp : list Q) :
  Forall (fun p => 0 < Q2R p) bp -> Forall (fun p => 0 < Q2R p) cp ->
  0 <= psi_sum bp cp.
Proof.
  unfold psi_sum. intros Hb. revert cp.
  induction Hb as [|b bp Hb0 Hb IH]; intros cp Hc; simpl; [lra|].
  destruct Hc as [|c cp Hc0 Hc]; simpl; [lra|].
  pose proof (psi_term_nonneg Hb0 Hc0). specialize (IH cp Hc).
  change (0 <= psi_term (b, c) +
               fold_right Rplus 0 (map psi_term (combine bp cp))). lra.
Qed.

(** Whatever the [try] block returns is a sum over positive proportions,
    or the early [0.0]. *)
Lemma psi_try_nonneg (baseline current : list Q) (n : Z) (v : R) :
  psi_try baseline current n = Ok v -> 0 <= v.
Proof.
  unfold psi_try.
  destruct (amin baseline); simpl; [|discriminate].
  destruct (amin current); simpl; [|discriminate].
  destruct (amax baseline); simpl; [|discriminate].
  destruct (amax current); simpl; [|discriminate].
  match goal with |- context [Qeq_bool ?x ?y] => destruct (Qeq_bool x y) end.
  - intros H; inversion H; lra.
  - match goal with |- context [linspace ?a ?b ?c] => destruct (linspace a b c) end;
      simpl; [|discriminate].
    match goal with |- context [set_first ?a ?b] => destruct (set_first a b) end;
      simpl; [|discriminate].
    match goal with |- context [set_last ?a ?b] => destruct (set_last a b) end;
      simpl; [|discriminate].
    intros H; inversion H. apply psi_sum_nonneg; apply percents_pos.
Qed.

Lemma psi_try_diag (x : list Q) (n : Z) (v : R) :
  psi_try x x n = Ok v -> v = 0.
Proof.
  unfold psi_try.
  destruct (amin x); simpl; [|discriminate].
  destruct (amax x); simpl; [|discriminate].
  match goal with |- context [Qeq_bool ?x ?y] => destruct (Qeq_bool x y) end.
  - intros H; inversion H; reflexivity.
  - match goal with |- context [linspace ?a ?b ?c] => destruct (linspace a b c) end;
      simpl; [|discriminate].
    match goal with |- context [set_first ?a ?b] => destruct (set_first a b) end;
      simpl; [|discriminate].
    match goal with |- context [set_last ?a ?b] => destruct (set_last a b) end;
      simpl; [|discriminate].
    intros H; inversion H. apply psi_sum_diag.
Qed.

Lemma calculate_psi_nonneg (self : DriftDetector)
  (baseline current : list (option Q)) (n : option Z) :
  0 <= calculate_psi self baseline current n.
Proof.
  unfold calculate_psi.
  match goal with |- context [if ?c then _ else _] => destruct c end; [lra|].
  unfold try_except.
  match goal with |- context [psi_try ?a ?b ?c] =>
    destruct (psi_try a b c) eqn:E end; [|lra].
  eapply psi_try_nonneg; eassumption.
Qed.

Lemma calculate_psi_diag (self : DriftDetector) (x : list (option Q))
  (n : option Z) :
  calculate_psi self x x n = 0.
Proof.
  unfold calculate_psi.
  match goal with |- context [if ?c then _ else _] => destruct c end; [reflexivity|].
  unfold try_except.
  match goal with |- context [psi_try ?a ?b ?c] =>
    destruct (psi_try a b c) eqn:E end; [|reflexivity].
  eapply psi_try_diag; eassumption.
Qed.

(** ** When the loop body returns *)

Lemma column_stats_ok (values : list (option Q)) :
  values <> [] -> exists s, column_stats values = Ok s /\
                            stat_mean s = nanmean values /\
                            stat_std s = nanstd values.
Proof.
  intros H. unfold column_stats, nanmin, nanmax.
  destruct values; [congruence|]. simpl. eexists; repeat split.
Qed.

Lemma nanstd_nonneg (values : list (option Q)) (s : R) :
  nanstd values = Some s -> 0 <= s.
Proof.
  unfold nanstd, on_clean. destruct (dropna values); [discriminate|].
  intros H; inversion H. apply sqrt_pos.
Qed.

Lemma feature_report_ok {scipy : SciPy} (self : DriftDetector) (f : string)
  (bv cv : list (option Q)) :
  bv <> [] -> cv <> [] ->
  (forall m, nanmean bv = Some m -> m + Q2R epsilon <> 0) ->
  exists r, feature_report self f bv cv = Ok r.
Proof.
  intros Hb Hc Hm. unfold feature_report.
  destruct (ks_test self bv cv) as [s p].
  destruct (column_stats_ok Hb) as (bs & -> & Ebm & Ebs).
  destruct (column_stats_ok Hc) as (cs & -> & Ecm & Ecs). simpl.
  assert (E1 : exists x, change_percent (stat_mean cs) (stat_mean bs) = Ok x).
  { unfold change_percent. rewrite Ebm.
    destruct (nanmean bv) as [m|] eqn:Em; [|eauto].
    destruct (Req_dec_T (m + Q2R epsilon) 0) as [E|E].
    - exfalso. eapply Hm; eauto.
    - destruct (stat_mean cs); eauto. }
  assert (E2 : exists x, change_percent (stat_std cs) (stat_std bs) = Ok x).
  { unfold change_percent. rewrite Ebs.
    destruct (nanstd bv) as [m|] eqn:Em; [|eauto].
    destruct (Req_dec_T (m + Q2R epsilon) 0) as [E|E].
    - exfalso. pose proof (nanstd_nonneg _ Em). pose proof epsilon_pos. lra.
    - destruct (stat_std cs); eauto. }
  destruct E1 as (x1 & ->). destruct E2 as (x2 & ->). simpl. eauto.
Qed.

(** The KS test plays no part in whether an iteration returns, nor in the
    score and status it reports. *)
Lemma feature_report_any_scipy (s1 s2 : SciPy) (self : DriftDetector)
  (f : string) (bv cv : list (option Q)) (r1 : FeatureDrift) :
  @feature_report s1 self f bv cv = Ok r1 ->
  exists r2, @feature_report s2 self f bv cv = Ok r2 /\
             status r2 = status r1 /\ drift_score r2 = drift_score r1.
Proof.
  unfold feature_report.
  destruct (@ks_test s1 self bv cv) as [a1 p1].
  destruct (@ks_test s2 self bv cv) as [a2 p2].
  destruct (column_stats bv) as [bs|]; simpl; [|discriminate].
  destruct (column_stats cv) as [cs|]; simpl; [|discriminate].
  destruct (change_percent (stat_mean cs) (stat_mean bs)); simpl; [|discriminate].
  destruct (change_percent (stat_std cs) (stat_std bs)); simpl; [|discriminate].
  intros H; inversion H; subst; clear H. eexists; repeat split.
Qed.

Lemma detect_loop_any_scipy (s1 s2 : SciPy) (self : DriftDetector)
  (bdf cdf : DataFrame) (names : list string) :
  forall reports,
    @detect_loop s1 self bdf cdf names = Ok reports ->
    exists reports',
      @detect_loop s2 self bdf cdf names = Ok reports' /\
      map status reports' = map status reports /\
      map drift_score reports' = map drift_score reports.
Proof.
  induction names as [|f rest IH]; simpl; intros reports H.
  - inversion H. exists []. auto.
  - destruct (lookup_column (columns bdf) f) as [bv|]; [|auto].
    destruct (lookup_column (columns cdf) f) as [cv|]; [|auto].
    destruct (@feature_report s1 self f bv cv) as [r|] eqn:Er; simpl in H; [|discriminate].
    destruct (@detect_loop s1 self bdf cdf rest) as [rs|]; simpl in H; [|discriminate].
    inversion H; subst; clear H.
    destruct (@feature_report_any_scipy s1 s2 _ _ _ _ _ Er) as (r2 & -> & Es & Ed).
    destruct (IH rs eq_refl) as (rs' & -> & Es' & Ed'). simpl.
    eexists; split; [reflexivity|]. simpl. rewrite Es, Es', Ed, Ed'. auto.
Qed.

(** The features reported are the requested ones found on both sides. *)
Lemma detect_loop_names {scipy : SciPy} (self : DriftDetector)
  (bdf cdf : DataFrame) (names : list string) :
  forall reports,
    detect_loop self bdf cdf names = Ok reports ->
    map feature_name reports =
    filter (fun f => has_column bdf f && has_column cdf f) names.
Proof.
  unfold has_column.
  induction names as [|f rest IH]; simpl; intros reports H.
  - inversion H. reflexivity.
  - destruct (lookup_column (columns bdf) f) as [bv|]; [|simpl; auto].
    destruct (lookup_column (columns cdf) f) as [cv|];
      [|simpl; auto].
    destruct (feature_report self f bv cv) as [r|] eqn:Er; simpl in H; [|discriminate].
    destruct (detect_loop self bdf cdf rest) as [rs|]; simpl in H; [|discriminate].
    inversion H; subst; clear H. simpl.
    apply feature_report_inv in Er. destruct Er as (-> & _).
    f_equal. auto.
Qed.

Lemma detect_loop_ok {scipy : SciPy} (self : DriftDetector)
  (bdf cdf : DataFrame) :
  (forall f bv, lookup_column (columns bdf) f = Some bv ->
                bv <> [] /\ forall m, nanmean bv = Some m -> m + Q2R epsilon <> 0) ->
  (forall f cv, lookup_column (columns cdf) f = Some cv -> cv <> []) ->
  forall names, exists reports, detect_loop self bdf cdf names = Ok reports.
Proof.
  intros Hb Hc names. induction names as [|f rest IH]; simpl; [eauto|].
  destruct (lookup_column (columns bdf) f) as [bv|] eqn:Eb; [|auto].
  destruct (lookup_column (columns cdf) f) as [cv|] eqn:Ec; [|auto].
  destruct (Hb _ _ Eb) as [Hne Hm].
  destruct (feature_report_ok self f Hne (Hc _ _ Ec) Hm) as (r & ->).
  destruct IH as (rs & ->). simpl. eauto.
Qed.

Lemma dropna_Some (l : list Q) : dropna (map Some l) = l.
Proof. induction l; simpl; congruence. Qed.

(** All elements numerically equal: the fold of [min] or [max] is that
    value. *)
Lemma fold_Qmin_const (v : Q) (l : list Q) :
  forall a, (a == v)%Q -> (forall y, In y l -> (y == v)%Q) ->
            (fold_left Qmin l a == v)%Q.
Proof.
  induction l as [|y l IH]; simpl; intros a Ha Hl; [assumption|].
  apply IH; [|auto].
  destruct (Q.min_spec a y) as [[_ ->] | [_ ->]]; auto.
Qed.

Lemma fold_Qmax_const (v : Q) (l : list Q) :
  forall a, (a == v)%Q -> (forall y, In y l -> (y == v)%Q) ->
            (fold_left Qmax l a == v)%Q.
Proof.
  induction l as [|y l IH]; simpl; intros a Ha Hl; [assumption|].
  apply IH; [|auto].
  destruct (Q.max_spec a y) as [[_ ->] | [_ ->]]; auto.
Qed.

Lemma psi_try_constant (baseline current : list Q) (n : Z) (v : Q) :
  (forall y, In y baseline -> (y == v)%Q) ->
  (forall y, In y current -> (y == v)%Q) ->
  psi_try baseline current n = Ok 0 \/
  exists e, psi_try baseline current n = Raise e.
Proof.
  intros Hb Hc. unfold psi_try.
  destruct baseline as [|b0 bl]; simpl; [right; eauto|].
  destruct current as [|c0 cl]; simpl; [right; eauto|].
  assert (Eb : (fold_left Qmin bl b0 == v)%Q)
    by (apply fold_Qmin_const; intros; apply Hb; simpl; auto).
  assert (Ec : (fold_left Qmin cl c0 == v)%Q)
    by (apply fold_Qmin_const; intros; apply Hc; simpl; auto).
  assert (Eb' : (fold_left Qmax bl b0 == v)%Q)
    by (apply fold_Qmax_const; intros; apply Hb; simpl; auto).
  assert (Ec' : (fold_left Qmax cl c0 == v)%Q)
    by (apply fold_Qmax_const; intros; apply Hc; simpl; auto).
  match goal with |- context [Qeq_bool ?x ?y] =>
    assert (E : Qeq_bool x y = true) end.
  { apply Qeq_bool_iff. rewrite Eb, Ec, Eb', Ec'.
    rewrite Q.min_id, Q.max_id. reflexivity. }
  rewrite E. left; reflexivity.
Qed.

Lemma Q2R_pos (q : Q) : (0 < q)%Q -> 0 < Q2R q.
Proof.
  intros H. replace 0 with (Q2R 0) by (unfold Q2R; simpl; lra).
  apply Qlt_Rlt. assumption.
Qed.

Lemma example_frame_columns (f : string) (v : list (option Q)) :
  lookup_column (columns Examples.frame) f = Some v ->
  v <> [] /\ forall m, nanmean v = Some m -> m + Q2R epsilon <> 0.
Proof.
  unfold Examples.frame. cbn [columns lookup_column].
  destruct (String.eqb "amount" f);
    [|destruct (String.eqb "hour_of_day" f); [|intros; discriminate]];
    intros H; inversion H; subst; clear H;
    (split; [discriminate|]);
    intros m Hm; unfold nanmean, on_clean in Hm; simpl in Hm;
    inversion Hm; subst; clear Hm;
    rewrite <- Q2R_plus;
    match goal with |- Q2R ?q <> 0 =>
      assert (0 < Q2R q) by (apply Q2R_pos; reflexivity); lra
    end.
Qed.

(** The detector on the example frame against itself returns one report
    per column. *)
Lemma example_run (scipy : SciPy) (self : DriftDetector) :
  exists reports,
    detect_feature_drift self Examples.frame Examples.frame None = Ok reports /\
    map feature_name reports = ["amount"; "hour_of_day"]%string.
Proof.
  unfold detect_feature_drift.
  destruct (@detect_loop_ok scipy self Examples.frame Examples.frame
              example_frame_columns
              (fun f cv H => proj1 (example_frame_columns f H))
              (column_names Examples.frame)) as (reports & E).
  exists reports. split; [assumption|].
  rewrite (detect_loop_names _ _ _ _ E). reflexivity.
Qed.

Lemma same_frame_scores_zero {scipy : SciPy} (self : DriftDetector)
  (df : DataFrame) (feature_names : option (list string))
  (reports : list FeatureDrift) :
  detect_feature_drift self df df feature_names = Ok reports ->
  Forall (fun r => drift_score r = 0) reports.
Proof.
  intros H. eapply detect_feature_drift_Forall; [|exact H].
  intros f bv cv r Hb Hc Hr. rewrite Hb in Hc. inversion Hc; subst.
  apply feature_report_inv in Hr. destruct Hr as (_ & -> & _).
  apply calculate_psi_diag.
Qed.

(** ** Status and severity of a feature report *)

(** C3.  In every report [detect_feature_drift] returns, the status is
    [drifted] exactly when the PSI score has reached [psi_threshold]; the
    KS outcome is only carried along: with any other KS test the run
    returns reports with the same scores and the same statuses. *)
Theorem status_drifted_iff_psi_reaches_threshold
  (scipy : SciPy) (self : DriftDetector) (baseline_df current_df : DataFrame)
  (feature_names : option (list string)) (reports : list FeatureDrift) :
  detect_feature_drift self baseline_df current_df feature_names = Ok reports ->
  (forall r, In r reports ->
     (status r = drifted <-> psi_threshold self <= drift_score r) /\
     (status r = stable <-> drift_score r < psi_threshold self)) /\
  (forall scipy' : SciPy,
     exists reports',
       @detect_feature_drift scipy' self baseline_df current_df feature_names
       = Ok reports' /\
       map status reports' = map status reports /\
       map drift_score reports' = map drift_score reports).
Proof.
  intros H. split.
  - assert (HF : Forall (fun r =>
        (status r = drifted <-> psi_threshold self <= drift_score r) /\
        (status r = stable <-> drift_score r < psi_threshold self)) reports).
    { eapply detect_feature_drift_Forall; [|exact H].
      intros f bv cv r _ _ Hr.
      apply feature_report_inv in Hr.
      destruct Hr as (_ & _ & _ & Hs & _). rewrite Hs.
      destruct (Rgeb (drift_score r) (psi_threshold self)) eqn:E;
        [apply Rgeb_true in E | apply Rgeb_false in E];
        repeat split; intros; try discriminate; try lra. }
    intros r Hr. exact (proj1 (Forall_forall _ _) HF r Hr).
  - intros scipy'. unfold detect_feature_drift in *.
    exact (@detect_loop_any_scipy scipy scipy' _ _ _ _ _ H).
Qed.

Lemma status_drifted_iff_psi_reaches_threshold_witness :
  exists reports,
    @detect_feature_drift Examples.scipy_significant default_detector
      Examples.frame Examples.frame None = Ok reports /\
    reports <> [] /\
    forall r, In r reports ->
      ks_p_value r < ks_threshold default_detector /\
      drift_score r < psi_threshold default_detector /\
      status r = stable.
Proof.
  destruct (example_run Examples.scipy_significant default_detector)
    as (reports & E & Hn).
  exists reports. split; [exact E|]. split.
  - intros ->. discriminate Hn.
  - intros r Hr. split.
    + assert (HF : Forall (fun r => ks_p_value r < ks_threshold default_detector)
                          reports).
      { eapply detect_feature_drift_Forall; [|exact E].
        intros f bv cv r0 Hb Hc Hr0.
        apply feature_report_inv in Hr0.
        destruct Hr0 as (_ & _ & _ & _ & _ & Hks).
        assert (Hp : ks_p_value r0 = snd (ks_test default_detector bv cv))
          by (rewrite <- Hks; reflexivity).
        rewrite Hp. clear Hp Hks.
        unfold Examples.frame in Hb, Hc. cbn [columns lookup_column] in Hb, Hc.
        destruct (String.eqb "amount" f);
          [|destruct (String.eqb "hour_of_day" f); [|discriminate]];
          inversion Hb; inversion Hc; subst; unfold ks_test; simpl; lra. }
      exact (proj1 (Forall_forall _ _) HF r Hr).
    + pose proof (proj1 (Forall_forall _ _) (same_frame_scores_zero _ _ _ E) r Hr)
        as Hz.
      assert (Hlt : drift_score r < psi_threshold default_detector)
        by (rewrite Hz; simpl; lra).
      split; [exact Hlt|].
      exact (proj2 (proj2 (proj1 (status_drifted_iff_psi_reaches_threshold
                                    _ _ _ _ _ E) r Hr)) Hlt).
Defined.

(** C4.  In every report [detect_feature_drift] returns, the severity is
    read off the PSI score by the fixed bands (below 0.10 none, from 0.10
    low, from 0.25 medium, from 0.5 high), so a larger score never has a
    lower severity. *)
Theorem severity_follows_psi_bands
  (scipy : SciPy) (self : DriftDetector) (baseline_df current_df : DataFrame)
  (feature_names : option (list string)) (reports : list FeatureDrift) :
  detect_feature_drift self baseline_df current_df feature_names = Ok reports ->
  (forall r, In r reports ->
     (severity r = none <-> drift_score r < 0.1) /\
     (severity r = low <-> 0.1 <= drift_score r < 0.25) /\
     (severity r = medium <-> 0.25 <= drift_score r < 0.5) /\
     (severity r = high <-> 0.5 <= drift_score r)) /\
  (forall r1 r2, In r1 reports -> In r2 reports ->
     drift_score r1 <= drift_score r2 ->
     (Severity_rank (severity r1) <= Severity_rank (severity r2))%nat).
Proof.
  intros H.
  assert (HF : Forall (fun r => severity r = severity_of (drift_score r)) reports).
  { eapply detect_feature_drift_Forall; [|exact H].
    intros f bv cv r _ _ Hr. apply feature_report_inv in Hr. tauto. }
  pose proof (proj1 (Forall_forall _ _) HF) as Hs.
  split.
  - intros r Hr. rewrite (Hs r Hr). apply severity_of_bands.
  - intros r1 r2 H1 H2 Hle. rewrite (Hs r1 H1), (Hs r2 H2).
    apply severity_of_monotone. assumption.
Qed.

Lemma severity_follows_psi_bands_witness :
  exists reports,
    @detect_feature_drift Examples.scipy_partial default_detector
      Examples.frame Examples.frame None = Ok reports /\
    List.length reports = 2%nat /\
    forall r, In r reports -> (severity r = none <-> drift_score r < 0.1).
Proof.
  destruct (example_run Examples.scipy_partial default_detector)
    as (reports & E & Hn).
  exists reports. split; [exact E|]. split.
  - rewrite <- (length_map feature_name), Hn. reflexivity.
  - intros r Hr.
    exact (proj1 (proj1 (severity_follows_psi_bands _ _ _ _ _ E) r Hr)).
Defined.

(** ** The PSI primitive and the KS wrapper *)

Lemma calculate_psi_all_equal (self : DriftDetector)
  (baseline current : list (option Q)) (n : option Z) :
  (forall x y, In x (dropna baseline ++ dropna current) ->
               In y (dropna baseline ++ dropna current) -> (x == y)%Q) ->
  calculate_psi self baseline current n = 0.
Proof.
  intros Hall. unfold calculate_psi.
  match goal with |- context [if ?c then _ else _] => destruct c end;
    [reflexivity|].
  destruct (dropna baseline) as [|v bl] eqn:Eb.
  - unfold psi_try. simpl. reflexivity.
  - destruct (@psi_try_constant (v :: bl) (dropna current)
                (match n with Some k => k | None => n_bins self end) v)
      as [-> | (e & ->)]; try reflexivity.
    + intros y Hy. apply Hall; apply in_or_app; [left; exact Hy | left; left; reflexivity].
    + intros y Hy. apply Hall; apply in_or_app; [right; exact Hy | left; left; reflexivity].
Qed.

(** C5.  [calculate_psi] works on the inputs with their missing values
    dropped; it returns 0.0 when either cleaned sample is empty, and 0.0
    when all remaining values of both samples are equal. *)
Theorem calculate_psi_neutral_cases
  (self : DriftDetector) (baseline current : list (option Q)) (n : option Z) :
  calculate_psi self baseline current n
  = calculate_psi self (map Some (dropna baseline)) (map Some (dropna current)) n /\
  (dropna baseline = [] \/ dropna current = [] ->
   calculate_psi self baseline current n = 0) /\
  ((forall x y, In x (dropna baseline ++ dropna current) ->
                In y (dropna baseline ++ dropna current) -> (x == y)%Q) ->
   calculate_psi self baseline current n = 0).
Proof.
  split; [|split].
  - unfold calculate_psi. rewrite !dropna_Some. reflexivity.
  - intros [E | E]; unfold calculate_psi; rewrite E; simpl;
      [reflexivity | rewrite orb_true_r; reflexivity].
  - apply calculate_psi_all_equal.
Qed.

Lemma calculate_psi_neutral_cases_witness :
  calculate_psi default_detector [None; None] [Some 1%Q; Some 4%Q] None = 0 /\
  calculate_psi default_detector [Some 3%Q; None; Some (6 # 2)%Q] [Some 3%Q]
    (Some 5%Z) = 0.
Proof.
  split.
  - apply (proj1 (proj2 (calculate_psi_neutral_cases default_detector
                           [None; None] [Some 1%Q; Some 4%Q] None))).
    left. reflexivity.
  - apply (proj2 (proj2 (calculate_psi_neutral_cases default_detector
                           [Some 3%Q; None; Some (6 # 2)%Q] [Some 3%Q]
                           (Some 5%Z)))).
    simpl. intros x y Hx Hy.
    repeat match goal with
           | H : _ \/ _ |- _ => destruct H
           | H : False |- _ => destruct H
           end; subst; reflexivity.
Defined.

Lemma same_frame_reports_quiet {scipy : SciPy} (self : DriftDetector)
  (df : DataFrame) (feature_names : option (list string))
  (reports : list FeatureDrift) :
  0 < psi_threshold self ->
  detect_feature_drift self df df feature_names = Ok reports ->
  forall r, In r reports ->
    drift_score r = 0 /\ status r = stable /\ severity r = none.
Proof.
  intros Hthr H r Hr.
  pose proof (proj1 (Forall_forall _ _) (same_frame_scores_zero _ _ _ H) r Hr)
    as Hz.
  assert (HF : Forall (fun r =>
      status r = (if Rgeb (drift_score r) (psi_threshold self)
                  then drifted else stable) /\
      severity r = severity_of (drift_score r)) reports).
  { eapply detect_feature_drift_Forall; [|exact H].
    intros f bv cv r0 _ _ Hr0. apply feature_report_inv in Hr0. tauto. }
  destruct (proj1 (Forall_forall _ _) HF r Hr) as [Hs Hv].
  split; [exact Hz|]. rewrite Hs, Hv, Hz. split.
  - destruct (Rgeb 0 (psi_threshold self)) eqn:E; [|reflexivity].
    apply Rgeb_true in E. lra.
  - apply severity_of_bands. lra.
Qed.





(** C7.  The PSI score is never negative; the KS statistic and p-value
    returned by [ks_test] lie in [0,1], given that SciPy's [ks_2samp]
    keeps to that range when it returns. *)
Theorem psi_and_ks_ranges :
  (forall (self : DriftDetector) (baseline current : list (option Q))
          (n : option Z),
      0 <= calculate_psi self baseline current n) /\
  (forall (scipy : SciPy),
      (forall b c s p, ks_2samp b c = Ok (s, p) ->
                       0 <= s <= 1 /\ 0 <= p <= 1) ->
      forall (self : DriftDetector) (baseline current : list (option Q)),
        0 <= fst (ks_test self baseline current) <= 1 /\
        0 <= snd (ks_test self baseline current) <= 1).
Proof.
  split; [exact calculate_psi_nonneg|].
  intros scipy Hks self baseline current. unfold ks_test.
  match goal with |- context [if ?c then _ else _] => destruct c end;
    [simpl; lra|].
  unfold try_except.
  destruct (ks_2samp (dropna baseline) (dropna current)) as [[s p]|] eqn:E;
    [|simpl; lra].
  simpl. eapply Hks; eassumption.
Qed.

Lemma psi_and_ks_ranges_witness :
  0 <= calculate_psi default_detector Examples.amounts Examples.hours None /\
  0 <= fst (@ks_test Examples.scipy_partial default_detector
              Examples.amounts Examples.hours) <= 1 /\
  0 <= snd (@ks_test Examples.scipy_partial default_detector
              [Some 1%Q] Examples.hours) <= 1.
Proof.
  assert (Hks : forall b c s p,
             @ks_2samp Examples.scipy_partial b c = Ok (s, p) ->
             0 <= s <= 1 /\ 0 <= p <= 1).
  { intros b c s p. simpl. destruct (Nat.ltb (List.length b) 2);
      [discriminate|]. intros H; inversion H; subst. lra. }
  split; [|split].
  - apply (proj1 psi_and_ks_ranges).
  - apply (proj2 psi_and_ks_ranges Examples.scipy_partial Hks).
  - apply (proj2 psi_and_ks_ranges Examples.scipy_partial Hks).
Defined.

Lemma Rltb_false (a b : R) : Rltb a b = false <-> b <= a.
Proof.
  unfold Rltb. destruct (Rlt_dec a b); split; intros; auto; try discriminate; lra.
Qed.

(** ** A score between the highest band and a raised threshold *)

Lemma ln_between (z a b : R) : exp a < z -> z < exp b -> a < ln z < b.
Proof.
  intros Ha Hb. pose proof (exp_pos a) as Hp.
  split.
  - rewrite <- (ln_exp a). apply ln_increasing; lra.
  - rewrite <- (ln_exp b). apply ln_increasing; lra.
Qed.

Lemma ln_quotient (x y : R) : 0 < x -> 0 < y -> ln (x / y) = ln x - ln y.
Proof.
  intros Hx Hy. unfold Rdiv.
  rewrite ln_mult; [|assumption|apply Rinv_0_lt_compat; assumption].
  rewrite ln_Rinv by assumption. ring.
Qed.

Lemma exp_double (x : R) : exp (2 * x) = exp x * exp x.
Proof. replace (2 * x) with (x + x) by ring. apply exp_plus. Qed.

Lemma exp_3_2_lt_6 : exp (3 / 2) < 6.
Proof.
  pose proof exp_le_3 as H1.
  pose proof (exp_pos (1 / 2)) as Hp.
  assert (H2 : exp (1 / 2) * exp (1 / 2) = exp 1).
  { rewrite <- exp_double. f_equal. lra. }
  assert (H3 : exp (1 / 2) <= 1.8) by nra.
  replace (3 / 2) with (1 + 1 / 2) by lra. rewrite exp_plus.
  pose proof (exp_pos 1). nra.
Qed.

Lemma exp_5_2_gt_9 : 9 < exp (5 / 2).
Proof.
  assert (H1 : 37 / 32 < exp (5 / 32)).
  { pose proof (exp_ineq1 (5 / 32)). lra. }
  assert (H2 : exp (5 / 16) = exp (5 / 32) * exp (5 / 32))
    by (rewrite <- exp_double; f_equal; lra).
  assert (H4 : exp (5 / 8) = exp (5 / 16) * exp (5 / 16))
    by (rewrite <- exp_double; f_equal; lra).
  assert (H8 : exp (5 / 4) = exp (5 / 8) * exp (5 / 8))
    by (rewrite <- exp_double; f_equal; lra).
  assert (H16 : exp (5 / 2) = exp (5 / 4) * exp (5 / 4))
    by (rewrite <- exp_double; f_equal; lra).
  assert (B2 : 1.33 < exp (5 / 16)) by nra.
  assert (B4 : 1.76 < exp (5 / 8)) by nra.
  assert (B8 : 3.09 < exp (5 / 4)) by nra.
  nra.
Qed.

Lemma skewed_psi_bounds (d : DriftDetector) :
  n_bins d = 10%Z ->
  0.5 <= calculate_psi d Examples.history_amounts [Some 0%Q; Some 1%Q] None < 1.
Proof.
  intros Hn. unfold calculate_psi. rewrite Hn.
  change (Nat.eqb (Datatypes.length (dropna Examples.history_amounts)) 0
          || Nat.eqb (Datatypes.length (dropna [Some 0%Q; Some 1%Q])) 0) with false.
  cbv beta iota.
  eassert (E : psi_try (dropna Examples.history_amounts) (dropna [Some 0%Q; Some 1%Q]) 10
               = Ok (psi_sum _ _)).
  { cbv - [psi_sum]. reflexivity. }
  rewrite E. unfold try_except, psi_sum.
  cbn [combine map fold_right psi_term].
  repeat match goal with
         | |- context [Q2R (?n # ?m)] =>
             let v := fresh "v" in
             let Hv := fresh "Hv" in
             remember (Q2R (n # m)) as v eqn:Hv;
             unfold Q2R in Hv; simpl in Hv
         end.
  assert (Hl : 3 / 2 < ln (0.9000000001 / 0.1000000001) < 5 / 2).
  { apply ln_between.
    - pose proof exp_3_2_lt_6. lra.
    - pose proof exp_5_2_gt_9. lra. }
  rewrite ln_quotient in Hl by lra.
  rewrite !ln_quotient by lra.
  repeat match goal with
         | |- context [(?a - ?b) * (ln ?a - ln ?b)] =>
             first [ replace (a - b) with 0 by lra
                   | replace (a - b) with (-0.4) by lra
                   | replace (a - b) with 0.4 by lra ]
         end.
  repeat match goal with
         | H : ?v = _ * / _ |- context [ln ?v] =>
             first [ replace v with 0.9000000001 by lra
                   | replace v with 0.1000000001 by lra
                   | replace v with 0.5000000001 by lra
                   | replace v with 0.0000000001 by lra ]
         end.
  lra.
Qed.

End DetectorFacts.

(** * Properties of the monitoring service *)

Module ServiceFacts.
Import Detector MonitoringService.

Lemma any_feature_drifted_spec (frs : list FeatureDrift) :
  any_feature_drifted frs = true <-> exists r, In r frs /\ status r = drifted.
Proof.
  unfold any_feature_drifted. rewrite existsb_exists.
  split; intros (r & Hin & H); exists r; split; auto;
    destruct (status r); simpl in *; congruence.
Qed.

Lemma prediction_drifted_spec (pd : option PredictionDrift) :
  prediction_drifted pd = true <-> exists p, pd = Some p /\ pd_status p = drifted.
Proof.
  unfold prediction_drifted. destruct pd as [p|].
  - split.
    + intros H. exists p. split; [reflexivity|].
      destruct (pd_status p); simpl in *; congruence.
    + intros (p' & E & H). inversion E; subst. rewrite H. reflexivity.
  - split; [discriminate|]. intros (p & E & _). discriminate.
Qed.

Lemma overall_health_not_unknown (frs : list FeatureDrift)
  (pd : option PredictionDrift) : overall_health frs pd <> unknown.
Proof.
  unfold overall_health.
  destruct (Nat.leb 2 (high_severity_count frs)); [discriminate|].
  destruct (any_feature_drifted frs || prediction_drifted pd); discriminate.
Qed.

(** The three branches of the health rule. *)
Lemma overall_health_rule (frs : list FeatureDrift) (pd : option PredictionDrift) :
  (overall_health frs pd = critical <-> (2 <= high_severity_count frs)%nat) /\
  (overall_health frs pd = warning <->
     (high_severity_count frs < 2)%nat /\
     (any_feature_drifted frs = true \/ prediction_drifted pd = true)) /\
  (overall_health frs pd = healthy <->
     (high_severity_count frs < 2)%nat /\
     any_feature_drifted frs = false /\ prediction_drifted pd = false).
Proof.
  unfold overall_health.
  destruct (Nat.leb 2 (high_severity_count frs)) eqn:E;
    [apply Nat.leb_le in E | apply Nat.leb_gt in E];
    destruct (any_feature_drifted frs); destruct (prediction_drifted pd);
    simpl; repeat split; intros; try discriminate; try lia; auto;
    repeat match goal with
           | H : _ /\ _ |- _ => destruct H
           | H : _ \/ _ |- _ => destruct H
           end; try discriminate; try lia.
Qed.

Section WithCollaborators.
Context {scipy : SciPy} {collab : Collaborators}.
Variable settings : Settings.

Lemma _store_drift_report_returns (report : Report) :
  outcome (_store_drift_report report) = Ok tt.
Proof.
  unfold _store_drift_report, tryM, lift, logger_error, outcome.
  destruct (persist_report report) as [[]|]; reflexivity.
Qed.

(** ** The two ways [get_drift_report] returns *)

Lemma get_drift_report_empty (db : Database) (now : Z) (hours : option Z) :
  index (_get_current_features db (window_start settings now hours) now) = 0%nat ->
  get_drift_report settings db now hours
  = ([Called m_get_baseline_features; Called m_get_current_features;
      Called m_empty_report],
     Ok (_empty_report settings (window_start settings now hours) now)).
Proof.
  intros H. unfold get_drift_report, window_start in *.
  unfold tryM, bindM, call, ret. simpl. rewrite H. simpl. reflexivity.
Qed.

Lemma get_drift_report_full (db : Database) (now : Z) (hours : option Z) :
  let start_time := window_start settings now hours in
  let baseline_df := _get_baseline_features db in
  let current_df := _get_current_features db start_time now in
  let current_predictions := _get_predictions db start_time now in
  let prediction_drift :=
    if Nat.ltb 0 (List.length current_predictions)
    then Some (detect_prediction_drift (drift_detector settings)
                 (repeat (Some 0.02%Q) (List.length current_predictions))
                 current_predictions)
    else None in
  index current_df <> 0%nat ->
  outcome (get_drift_report settings db now hours)
  = match detect_feature_drift (drift_detector settings) baseline_df current_df None with
    | Raise e => Raise e
    | Ok feature_drift_reports =>
        Ok {| report_timestamp :=
                utcnow (List.length
                          (_generate_alerts feature_drift_reports prediction_drift));
              time_window := (start_time, now);
              total_predictions := index current_df;
              model_version := MODEL_VERSION settings;
              overall_status :=
                {| health := overall_health feature_drift_reports prediction_drift;
                   data_drift_detected := any_feature_drifted feature_drift_reports;
                   concept_drift_detected := prediction_drifted prediction_drift;
                   performance_degraded := false |};
              feature_drift := feature_drift_reports;
              prediction_drift := prediction_drift;
              performance_metrics :=
                _calculate_performance_metrics db start_time now;
              alerts := _generate_alerts feature_drift_reports prediction_drift |}
    end.
Proof.
  intros start_time baseline_df current_df current_predictions prediction_drift H.
  subst start_time baseline_df current_df current_predictions prediction_drift.
  unfold get_drift_report, window_start in *.
  apply Nat.eqb_neq in H.
  unfold tryM, bindM, call, ret, lift, raise, logger_error, outcome. simpl.
  rewrite H. simpl.
  match goal with |- context [detect_feature_drift ?d ?b ?c ?n] =>
    destruct (detect_feature_drift d b c n) as [frs|e] end; simpl; [|reflexivity].
  match goal with |- context [Nat.ltb 0 ?n] => destruct (Nat.ltb 0 n) end; simpl.
  - match goal with |- context [_store_drift_report ?r] =>
      pose proof (_store_drift_report_returns r) as Hs;
      destruct (_store_drift_report r) as [t [[]|]] end;
      unfold outcome in Hs; simpl in Hs; [reflexivity | discriminate].
  - match goal with |- context [_store_drift_report ?r] =>
      pose proof (_store_drift_report_returns r) as Hs;
      destruct (_store_drift_report r) as [t [[]|]] end;
      unfold outcome in Hs; simpl in Hs; [reflexivity | discriminate].
Qed.

End WithCollaborators.

(** ** The empty report *)

(** C2.  When the current feature set of the window is empty,
    [get_drift_report] returns the empty report ([total_predictions] 0,
    health [unknown] with the three flags false, no feature results, no
    alerts, no prediction drift); the detector is not called, and
    [unknown] is not [healthy]. *)
Theorem empty_window_gives_unknown_report
  (scipy : SciPy) (collab : Collaborators) (settings : Settings)
  (db : Database) (now : Z) (hours : option Z) :
  index (_get_current_features db (window_start settings now hours) now) = 0%nat ->
  exists report,
    outcome (get_drift_report settings db now hours) = Ok report /\
    total_predictions report = 0%nat /\
    overall_status report
    = {| health := unknown; data_drift_detected := false;
         concept_drift_detected := false; performance_degraded := false |} /\
    feature_drift report = [] /\
    alerts report = [] /\
    prediction_drift report = None /\
    health (overall_status report) <> healthy /\
    ~ In (Called m_detect_feature_drift)
         (trace (get_drift_report settings db now hours)) /\
    ~ In (Called m_detect_prediction_drift)
         (trace (get_drift_report settings db now hours)).
Proof.
  intros H. rewrite (get_drift_report_empty settings db now hours H).
  eexists. split; [reflexivity|]. simpl.
  repeat split; try discriminate;
    intros [E | [E | [E | []]]]; discriminate.
Qed.

Lemma empty_window_gives_unknown_report_witness :
  exists report,
    outcome (@get_drift_report Examples.scipy_significant Examples.collaborators
               default_settings Examples.no_predictions 2000 None) = Ok report /\
    total_predictions report = 0%nat /\
    health (overall_status report) = unknown.
Proof.
  destruct (@empty_window_gives_unknown_report Examples.scipy_significant
              Examples.collaborators default_settings Examples.no_predictions
              2000 None eq_refl)
    as (report & E & Ht & Hs & _).
  exists report. split; [exact E|]. split; [exact Ht|].
  rewrite Hs. reflexivity.
Defined.

(** C10.  No report [get_drift_report] returns has [performance_degraded]
    set. *)
Theorem performance_degraded_is_never_set
  (scipy : SciPy) (collab : Collaborators) (settings : Settings)
  (db : Database) (now : Z) (hours : option Z) (report : Report) :
  outcome (get_drift_report settings db now hours) = Ok report ->
  performance_degraded (overall_status report) = false.
Proof.
  destruct (Nat.eq_dec
              (index (_get_current_features db (window_start settings now hours) now)) 0)
    as [E | E].
  - rewrite (get_drift_report_empty settings db now hours E). unfold outcome. simpl.
    intros H; inversion H; reflexivity.
  - rewrite (get_drift_report_full settings db now hours E).
    match goal with |- context [detect_feature_drift ?d ?b ?c ?n] =>
      destruct (detect_feature_drift d b c n) end; [|discriminate].
    intros H; inversion H; reflexivity.
Qed.

(** ** A failing store *)

(** C8.  Whatever the store operation inside [_store_drift_report] does,
    throwing included, [get_drift_report] returns what it returns with the
    source's [pass]: the computed report; [_store_drift_report] itself never
    raises and logs the failure. *)
Theorem persist_failure_is_contained
  (scipy : SciPy) (collab : Collaborators) (settings : Settings)
  (db : Database) (now : Z) (hours : option Z)
  (persist : Report -> result unit) :
  outcome (@get_drift_report scipy (with_persist collab persist)
             settings db now hours)
  = outcome (@get_drift_report scipy (with_persist collab (fun _ => Ok tt))
               settings db now hours) /\
  (forall report,
      outcome (@_store_drift_report (with_persist collab persist) report) = Ok tt) /\
  (forall report e,
      persist report = Raise e ->
      trace (@_store_drift_report (with_persist collab persist) report)
      = [LogError "Error storing drift report"]).
Proof.
  split; [|split].
  - destruct (Nat.eq_dec
                (index (_get_current_features db (window_start settings now hours) now)) 0)
      as [E | E].
    + rewrite !(get_drift_report_empty settings db now hours E). reflexivity.
    + rewrite !(get_drift_report_full settings db now hours E). reflexivity.
  - intros report. apply _store_drift_report_returns.
  - intros report e H.
    unfold _store_drift_report, tryM, lift, logger_error, trace. simpl.
    rewrite H. reflexivity.
Qed.

(** ** A whole cycle on two stored predictions *)

Lemma two_predictions_columns (f : string) (v : list (option Q)) :
  lookup_column (columns Examples.two_predictions_frame) f = Some v ->
  v <> [] /\ forall m, NanStats.nanmean v = Some m -> (m + Q2R epsilon <> 0)%R.
Proof.
  unfold Examples.two_predictions_frame. cbn [columns lookup_column].
  destruct (String.eqb "amount" f);
    [|destruct (String.eqb "hour_of_day" f); [|intros; discriminate]];
    intros H; inversion H; subst; clear H;
    (split; [discriminate|]);
    intros m Hm; unfold NanStats.nanmean, NanStats.on_clean in Hm; simpl in Hm;
    inversion Hm; subst; clear Hm;
    rewrite <- Q2R_plus;
    match goal with |- Q2R ?q <> 0%R =>
      assert (0 < Q2R q)%R by (apply DetectorFacts.Q2R_pos; reflexivity); lra
    end.
Qed.

Lemma two_predictions_cycle (scipy : SciPy) (collab : Collaborators) :
  exists report,
    outcome (get_drift_report default_settings Examples.two_predictions 2000 None)
    = Ok report /\
    total_predictions report = 2%nat /\
    map feature_name (feature_drift report) = ["amount"; "hour_of_day"]%string /\
    (forall r, In r (feature_drift report) ->
               status r = stable /\ severity r = none) /\
    prediction_drift report
    = Some (detect_prediction_drift (drift_detector default_settings)
              [Some 0.02%Q; Some 0.02%Q] [Some 0.1%Q; Some 0.9%Q]) /\
    health (overall_status report)
    = overall_health (feature_drift report) (prediction_drift report).
Proof.
  assert (Hidx : index (_get_current_features Examples.two_predictions
                          (window_start default_settings 2000 None) 2000) <> 0%nat)
    by (vm_compute; discriminate).
  rewrite (get_drift_report_full default_settings Examples.two_predictions
             2000 None Hidx).
  change (_get_baseline_features Examples.two_predictions)
    with Examples.two_predictions_frame.
  change (_get_current_features Examples.two_predictions
            (window_start default_settings 2000 None) 2000)
    with Examples.two_predictions_frame.
  destruct (@DetectorFacts.detect_loop_ok scipy (drift_detector default_settings)
              Examples.two_predictions_frame Examples.two_predictions_frame
              two_predictions_columns
              (fun f cv H => proj1 (two_predictions_columns f H))
              (column_names Examples.two_predictions_frame)) as (reports & E).
  unfold detect_feature_drift. rewrite E.
  eexists. split; [reflexivity|]. cbn [total_predictions feature_drift
    prediction_drift overall_status health index Examples.two_predictions_frame].
  split; [reflexivity|]. split.
  { rewrite (DetectorFacts.detect_loop_names _ _ _ _ E). reflexivity. }
  split.
  { intros r Hr.
    assert (Hthr : (0 < psi_threshold (drift_detector default_settings))%R)
      by (simpl; lra).
    exact (proj2 (@DetectorFacts.same_frame_reports_quiet scipy
                    (drift_detector default_settings)
                    Examples.two_predictions_frame None reports Hthr E r Hr)). }
  split; reflexivity.
Qed.

Lemma performance_degraded_is_never_set_witness :
  exists report,
    outcome (@get_drift_report Examples.scipy_significant Examples.collaborators
               default_settings Examples.two_predictions 2000 None) = Ok report /\
    total_predictions report = 2%nat /\
    performance_degraded (overall_status report) = false.
Proof.
  destruct (two_predictions_cycle Examples.scipy_significant Examples.collaborators)
    as (report & E & Ht & _).
  exists report. split; [exact E|]. split; [exact Ht|].
  exact (performance_degraded_is_never_set _ _ _ _ _ _ E).
Defined.

(** With a store that always throws, the cycle on two predictions returns
    the report it returns with the source's [pass], and the failure is
    logged. *)
Lemma persist_failure_is_contained_witness :
  exists report,
    outcome (@get_drift_report Examples.scipy_significant Examples.failing_store
               default_settings Examples.two_predictions 2000 None) = Ok report /\
    outcome (@get_drift_report Examples.scipy_significant Examples.collaborators
               default_settings Examples.two_predictions 2000 None) = Ok report /\
    total_predictions report = 2%nat /\
    trace (@_store_drift_report Examples.failing_store report)
    = [LogError "Error storing drift report"].
Proof.
  destruct (two_predictions_cycle Examples.scipy_significant Examples.failing_store)
    as (report & E & Ht & _).
  destruct (persist_failure_is_contained Examples.scipy_significant
              Examples.collaborators default_settings Examples.two_predictions
              2000 None (fun _ => Raise DBError)) as (Hsame & _ & Hlog).
  exists report. split; [exact E|]. split; [|split; [exact Ht|]].
  - change (outcome (@get_drift_report Examples.scipy_significant
                       (with_persist Examples.collaborators (fun _ => Ok tt))
                       default_settings Examples.two_predictions 2000 None)
            = Ok report).
    rewrite <- Hsame. exact E.
  - exact (Hlog report DBError eq_refl).
Defined.

(** ** The health rule *)

Lemma feature_result_severity (name : string) (score thr : R) :
  severity (Examples.feature_result name score thr) = severity_of score.
Proof. reflexivity. Qed.

Lemma feature_result_status (name : string) (score thr : R) :
  status (Examples.feature_result name score thr)
  = if Rgeb score thr then drifted else stable.
Proof. reflexivity. Qed.

Lemma severity_of_high (x : R) : (0.5 <= x)%R -> severity_of x = high.
Proof. intros H. apply DetectorFacts.severity_of_bands. exact H. Qed.

Lemma severity_of_none (x : R) : (x < 0.1)%R -> severity_of x = none.
Proof. intros H. apply DetectorFacts.severity_of_bands. exact H. Qed.

(** C1, as the code has it.  The health is [critical] exactly when at
    least two feature results have severity [high]; below that it is
    [warning] exactly when some feature result or the prediction drift has
    status [drifted], and [healthy] otherwise.  Exactly two [high] results
    give [critical]; exactly one never gives [critical], and gives
    [warning] when a [high] result has status [drifted].  Every report of
    a non-empty window carries the health this rule gives for its feature
    results and prediction drift. *)
Theorem overall_health_decision :
  (forall (frs : list FeatureDrift) (pd : option PredictionDrift),
      (overall_health frs pd = critical <-> (2 <= high_severity_count frs)%nat) /\
      ((high_severity_count frs < 2)%nat ->
       (overall_health frs pd = warning <->
          (exists r, In r frs /\ status r = drifted) \/
          (exists p, pd = Some p /\ pd_status p = drifted))) /\
      (overall_health frs pd <> critical -> overall_health frs pd <> warning ->
       overall_health frs pd = healthy) /\
      (high_severity_count frs = 2%nat -> overall_health frs pd = critical) /\
      (high_severity_count frs = 1%nat ->
       overall_health frs pd <> critical /\
       ((exists r, In r frs /\ severity r = high /\ status r = drifted) ->
        overall_health frs pd = warning))) /\
  (forall (scipy : SciPy) (collab : Collaborators) (settings : Settings)
          (db : Database) (now : Z) (hours : option Z) (report : Report),
      outcome (get_drift_report settings db now hours) = Ok report ->
      total_predictions report <> 0%nat ->
      health (overall_status report)
      = overall_health (feature_drift report) (prediction_drift report)).
Proof.
  split.
  - intros frs pd.
    destruct (overall_health_rule frs pd) as (Hc & Hw & Hh).
    rewrite <- any_feature_drifted_spec, <- prediction_drifted_spec.
    split; [exact Hc|]. split; [|split; [|split]].
    + intros Hlt. rewrite Hw. tauto.
    + intros H1 H2.
      pose proof (overall_health_not_unknown frs pd).
      destruct (overall_health frs pd); congruence.
    + intros E. apply Hc. lia.
    + intros E. split.
      * intros H. apply Hc in H. lia.
      * intros (r & Hin & _ & Hs). apply Hw. split; [lia|].
        left. apply any_feature_drifted_spec. eauto.
  - intros scipy collab settings db now hours report.
    destruct (Nat.eq_dec
                (index (_get_current_features db (window_start settings now hours) now)) 0)
      as [E | E].
    + rewrite (get_drift_report_empty settings db now hours E). unfold outcome. simpl.
      intros H; inversion H; subst; simpl. congruence.
    + rewrite (get_drift_report_full settings db now hours E).
      match goal with |- context [detect_feature_drift ?d ?b ?c ?n] =>
        destruct (detect_feature_drift d b c n) end; [|discriminate].
      intros H; inversion H; subst; simpl. reflexivity.
Qed.

Lemma overall_health_decision_witness :
  overall_health [Examples.feature_result "amount" 0.7 0.25;
                  Examples.feature_result "hour_of_day" 0.05 0.25] None
  = warning /\
  exists report,
    outcome (@get_drift_report Examples.scipy_significant Examples.collaborators
               default_settings Examples.two_predictions 2000 None) = Ok report /\
    health (overall_status report)
    = overall_health (feature_drift report) (prediction_drift report).
Proof.
  split.
  - assert (E1 : severity_of 0.7 = high) by (apply severity_of_high; lra).
    assert (E2 : severity_of 0.05 = none) by (apply severity_of_none; lra).
    assert (E3 : Rgeb 0.7 0.25 = true) by (apply DetectorFacts.Rgeb_true; lra).
    apply (proj2 (proj2 (proj2 (proj2 (proj1 overall_health_decision _ None))))).
    + unfold high_severity_count. simpl. rewrite E1, E2. reflexivity.
    + eexists. split; [left; reflexivity|].
      rewrite feature_result_severity, feature_result_status, E1, E3.
      split; reflexivity.
  - destruct (two_predictions_cycle Examples.scipy_significant
                Examples.collaborators) as (report & E & Ht & _).
    exists report. split; [exact E|].
    apply (proj2 overall_health_decision _ _ _ _ _ _ _ E).
    rewrite Ht. discriminate.
Defined.

(** One [high] result whose status is [stable] (a score of 0.55 under a
    threshold of 0.6), the rest [none], and no prediction drift give
    [healthy], not [warning]. *)
Lemma high_but_stable_result_gives_healthy :
  let frs := [Examples.feature_result "amount" 0.55 0.6;
              Examples.feature_result "hour_of_day" 0 0.6] in
  high_severity_count frs = 1%nat /\
  (forall r, In r frs -> severity r = high \/ severity r = none \/ severity r = low) /\
  overall_health frs None = healthy /\
  overall_health frs None <> warning.
Proof.
  assert (E1 : severity_of 0.55 = high) by (apply severity_of_high; lra).
  assert (E2 : severity_of 0 = none) by (apply severity_of_none; lra).
  assert (E3 : Rgeb 0.55 0.6 = false) by (apply DetectorFacts.Rgeb_false; lra).
  assert (E4 : Rgeb 0 0.6 = false) by (apply DetectorFacts.Rgeb_false; lra).
  assert (Hh : overall_health [Examples.feature_result "amount" 0.55 0.6;
                               Examples.feature_result "hour_of_day" 0 0.6] None
               = healthy).
  { unfold overall_health, high_severity_count, any_feature_drifted. simpl.
    rewrite E1, E2, E3, E4. reflexivity. }
  simpl. split; [|split; [|split]].
  - unfold high_severity_count. simpl. rewrite E1, E2. reflexivity.
  - intros r [<- | [<- | []]]; rewrite feature_result_severity.
    + left. exact E1.
    + right. left. exact E2.
  - exact Hh.
  - rewrite Hh. discriminate.
Qed.

(** ** One high feature that is not drifted *)

Local Open Scope R_scope.

Lemma skewed_history_reports (scipy : SciPy) :
  exists r1 r2,
    detect_feature_drift (drift_detector Examples.lenient_settings)
      Examples.history_frame Examples.window_frame None = Ok [r1; r2] /\
    severity r1 = high /\ status r1 = stable /\
    severity r2 = none /\ status r2 = stable.
Proof.
  unfold detect_feature_drift.
  change (column_names Examples.history_frame) with ["amount"; "hour_of_day"]%string.
  cbn [detect_loop].
  change (lookup_column (columns Examples.history_frame) "amount")
    with (Some Examples.history_amounts).
  change (lookup_column (columns Examples.window_frame) "amount")
    with (Some [Some 0%Q; Some 1%Q]).
  change (lookup_column (columns Examples.history_frame) "hour_of_day")
    with (Some (repeat (Some 12%Q) 20)).
  change (lookup_column (columns Examples.window_frame) "hour_of_day")
    with (Some [Some 12%Q; Some 12%Q]).
  cbv beta iota.
  destruct (@DetectorFacts.feature_report_ok scipy (drift_detector Examples.lenient_settings) "amount"
              Examples.history_amounts [Some 0%Q; Some 1%Q]) as (r1 & E1).
  { discriminate. }
  { discriminate. }
  { intros m Hm. unfold NanStats.nanmean, NanStats.on_clean in Hm. simpl in Hm.
    inversion Hm; subst; clear Hm. rewrite <- Q2R_plus.
    match goal with |- Q2R ?q <> 0 =>
      assert (0 < Q2R q) by (apply DetectorFacts.Q2R_pos; reflexivity); lra end. }
  destruct (@DetectorFacts.feature_report_ok scipy (drift_detector Examples.lenient_settings) "hour_of_day"
              (repeat (Some 12%Q) 20) [Some 12%Q; Some 12%Q]) as (r2 & E2).
  { discriminate. }
  { discriminate. }
  { intros m Hm. unfold NanStats.nanmean, NanStats.on_clean in Hm. simpl in Hm.
    inversion Hm; subst; clear Hm. rewrite <- Q2R_plus.
    match goal with |- Q2R ?q <> 0 =>
      assert (0 < Q2R q) by (apply DetectorFacts.Q2R_pos; reflexivity); lra end. }
  rewrite E1, E2. cbn [bind]. exists r1, r2. split; [reflexivity|].
  apply DetectorFacts.feature_report_inv in E1. destruct E1 as (_ & Hd1 & _ & Hs1 & Hv1 & _).
  apply DetectorFacts.feature_report_inv in E2. destruct E2 as (_ & Hd2 & _ & Hs2 & Hv2 & _).
  pose proof (DetectorFacts.skewed_psi_bounds (drift_detector Examples.lenient_settings) eq_refl) as Hb.
  rewrite <- Hd1 in Hb.
  assert (Hz : drift_score r2 = 0).
  { rewrite Hd2.
    apply (@DetectorFacts.calculate_psi_all_equal (drift_detector Examples.lenient_settings)
             (repeat (Some 12%Q) 20) [Some 12%Q; Some 12%Q] None).
    simpl. intros x y Hx Hy.
    repeat match goal with
           | H : _ \/ _ |- _ => destruct H
           | H : False |- _ => destruct H
           end; subst; reflexivity. }
  rewrite Hs1, Hv1, Hs2, Hv2, Hz.
  change (psi_threshold (drift_detector Examples.lenient_settings)) with 1.
  repeat split.
  - apply DetectorFacts.severity_of_bands. lra.
  - destruct (Rgeb (drift_score r1) 1) eqn:G; [|reflexivity].
    apply DetectorFacts.Rgeb_true in G. lra.
  - apply DetectorFacts.severity_of_bands. lra.
  - destruct (Rgeb 0 1) eqn:G; [|reflexivity]. apply DetectorFacts.Rgeb_true in G. lra.
Qed.

(** C1 as stated fails on the service itself.  With [PSI_THRESHOLD=1.0]
    and the history of [Examples.skewed_history], the amount feature
    scores about 0.88: severity [high], status [stable].  The report has
    exactly one [high] feature, the other is [none], nothing is [drifted],
    and the health is [healthy], not [warning]. *)
Lemma one_high_feature_can_be_healthy :
  exists report,
    outcome (@get_drift_report Examples.scipy_partial Examples.collaborators
               Examples.lenient_settings Examples.skewed_history 6000 None) = Ok report /\
    high_severity_count (feature_drift report) = 1%nat /\
    (forall r, In r (feature_drift report) ->
               severity r = high \/ severity r = none \/ severity r = low) /\
    health (overall_status report) = healthy /\
    health (overall_status report) <> warning.
Proof.
  assert (Hidx : index (_get_current_features Examples.skewed_history
                          (window_start Examples.lenient_settings 6000 None) 6000) <> 0%nat)
    by (vm_compute; discriminate).
  rewrite (get_drift_report_full Examples.lenient_settings Examples.skewed_history 6000 None Hidx).
  change (_get_baseline_features Examples.skewed_history) with Examples.history_frame.
  change (_get_current_features Examples.skewed_history
            (window_start Examples.lenient_settings 6000 None) 6000) with Examples.window_frame.
  destruct (skewed_history_reports Examples.scipy_partial)
    as (r1 & r2 & -> & Hv1 & Hs1 & Hv2 & Hs2).
  eexists. split; [reflexivity|].
  cbn [feature_drift overall_status health].
  assert (Hc : high_severity_count [r1; r2] = 1%nat).
  { unfold high_severity_count. simpl. rewrite Hv1, Hv2. reflexivity. }
  assert (Hh : overall_health [r1; r2]
                 (if Nat.ltb 0 (List.length (_get_predictions Examples.skewed_history
                                   (window_start Examples.lenient_settings 6000 None) 6000))
                  then Some (@detect_prediction_drift Examples.scipy_partial
                               (drift_detector Examples.lenient_settings)
                               (repeat (Some 0.02%Q)
                                  (List.length (_get_predictions Examples.skewed_history
                                     (window_start Examples.lenient_settings 6000 None) 6000)))
                               (_get_predictions Examples.skewed_history
                                  (window_start Examples.lenient_settings 6000 None) 6000))
                  else None) = healthy).
  { change (_get_predictions Examples.skewed_history
              (window_start Examples.lenient_settings 6000 None) 6000)
      with [Some 0.02%Q; Some 0.02%Q].
    unfold overall_health. rewrite Hc.
    unfold any_feature_drifted, prediction_drifted. simpl.
    rewrite Hs1, Hs2. simpl.
    assert (G : Rltb 0.5 0.05 = false) by (apply DetectorFacts.Rltb_false; lra).
    rewrite G. reflexivity. }
  split; [exact Hc|]. split.
  - intros r [<- | [<- | []]]; auto.
  - rewrite Hh. split; [reflexivity | discriminate].
Qed.

End ServiceFacts.

(** * Properties of the monitoring worker *)

Module WorkerFacts.
Import MonitoringWorker.

Section WithEnv.
Context {env : WorkerEnv}.

(** Turns [(h ++ l1) ++ l2] into [h ++ l1 ++ l2] and closes a goal that
    asks for the events appended to [h]. *)
Ltac appended :=
  repeat rewrite <- app_assoc; simpl;
  repeat eexists; reflexivity.

Ltac step_cases :=
  repeat match goal with
         | |- context [session_execute ?h ?q] =>
             destruct (session_execute h q) as [[[?|]|]|]; simpl
         | |- context [if ?c then _ else _] => destruct c; simpl
         | |- context [match ?r with Ok _ => _ | Raise _ => _ end] =>
             destruct r; simpl
         end.

(** Step 1 returns normally whatever its statements do, after entering and
    sending its first statement. *)
Lemma _calculate_metrics_returns (h : list wevent) :
  exists l, _calculate_metrics h
            = (h ++ Enter calculate_metrics :: Exec SelectPredictionCount :: l,
               Ok tt).
Proof.
  unfold _calculate_metrics, bindW, tryW, emit, execute, liftW, retW,
    positive, first_or_zero, truthy. simpl.
  step_cases; appended.
Qed.

Lemma _check_drift_returns (h : list wevent) :
  exists l, _check_drift h
            = (h ++ Enter check_drift :: Exec SelectAvgProba :: l, Ok tt).
Proof.
  unfold _check_drift, bindW, tryW, emit, execute, liftW, retW, truthy. simpl.
  step_cases; appended.
Qed.

(** Step 3 can raise only through the import that precedes its [try]. *)
Lemma _update_system_health_enters (h : list wevent) :
  exists l r, _update_system_health h
              = (h ++ Enter update_system_health :: l, r) /\
              (import_psutil = Ok tt -> r = Ok tt).
Proof.
  unfold _update_system_health, bindW, tryW, emit, execute, liftW, retW. simpl.
  destruct import_psutil as [[]|e]; simpl.
  - destruct cpu_percent; simpl; [destruct virtual_memory_percent; simpl|];
      step_cases;
      repeat rewrite <- app_assoc; simpl;
      eexists; eexists; (split; [reflexivity | auto]).
  - exists [], (Raise e). split; [reflexivity | discriminate].
Qed.

(** One cycle: the three steps are entered in order whatever the earlier
    ones met, and the close of the session is attempted last.  An exception
    leaves the cycle only when the rollback or the close raised it. *)
Lemma run_monitoring_cycle_returns (h : list wevent) :
  exists l1 l2 l3 r,
    run_monitoring_cycle h
    = (h ++ Log INFO "Starting monitoring cycle..."
         :: Enter calculate_metrics :: Exec SelectPredictionCount :: l1
         ++ Enter check_drift :: Exec SelectAvgProba :: l2
         ++ Enter update_system_health :: l3 ++ [Close],
       r) /\
    (forall e, r = Raise e ->
       exists h', session_rollback h' = Raise e \/ session_close h' = Raise e).
Proof.
  unfold run_monitoring_cycle, finallyW.
  unfold bindW at 1. unfold emit at 1. cbn beta iota.
  set (h0 := h ++ [Log INFO "Starting monitoring cycle..."]).
  unfold tryW at 1. unfold bindW at 1.
  destruct (_calculate_metrics_returns h0) as (l1 & ->).
  unfold bindW at 1.
  match goal with |- context [_check_drift ?k] =>
    destruct (_check_drift_returns k) as (l2 & ->) end.
  unfold bindW at 1.
  match goal with |- context [_update_system_health ?k] =>
    destruct (_update_system_health_enters k) as (l3 & r3 & -> & _) end.
  exists l1, l2.
  destruct r3 as [[]|e3].
  - unfold bindW, commit, emit.
    match goal with |- context [session_commit ?k] =>
      destruct (session_commit k) as [[]|ec] end; cbn beta iota.
    + unfold close.
      match goal with |- context [session_close ?k] =>
        destruct (session_close k) as [[]|ef] eqn:Ef end; subst h0.
      * exists (l3 ++ [Commit; Log INFO "Monitoring cycle completed"]), (Ok tt).
        split; [repeat (rewrite <- app_assoc; simpl); reflexivity|].
        intros e H. discriminate.
      * exists (l3 ++ [Commit; Log INFO "Monitoring cycle completed"]), (Raise ef).
        split; [repeat (rewrite <- app_assoc; simpl); reflexivity|].
        intros e H. inversion H; subst. eexists. right. exact Ef.
    + unfold rollback.
      match goal with |- context [session_rollback ?k] =>
        destruct (session_rollback k) as [[]|er] eqn:Er end;
      unfold close;
      match goal with |- context [session_close ?k] =>
        destruct (session_close k) as [[]|ef] eqn:Ef end; subst h0.
      * exists (l3 ++ [Commit; Log ERROR "Error in monitoring cycle"; Rollback]),
          (Ok tt).
        split; [repeat (rewrite <- app_assoc; simpl); reflexivity|].
        intros e H. discriminate.
      * exists (l3 ++ [Commit; Log ERROR "Error in monitoring cycle"; Rollback]),
          (Raise ef).
        split; [repeat (rewrite <- app_assoc; simpl); reflexivity|].
        intros e H. inversion H; subst. eexists. right. exact Ef.
      * exists (l3 ++ [Commit; Log ERROR "Error in monitoring cycle"; Rollback]),
          (Raise er).
        split; [repeat (rewrite <- app_assoc; simpl); reflexivity|].
        intros e H. inversion H; subst. eexists. left. exact Er.
      * exists (l3 ++ [Commit; Log ERROR "Error in monitoring cycle"; Rollback]),
          (Raise ef).
        split; [repeat (rewrite <- app_assoc; simpl); reflexivity|].
        intros e H. inversion H; subst. eexists. right. exact Ef.
  - unfold bindW, emit. cbn beta iota. unfold rollback.
    match goal with |- context [session_rollback ?k] =>
      destruct (session_rollback k) as [[]|er] eqn:Er end;
    unfold close;
    match goal with |- context [session_close ?k] =>
      destruct (session_close k) as [[]|ef] eqn:Ef end; subst h0.
    + exists (l3 ++ [Log ERROR "Error in monitoring cycle"; Rollback]), (Ok tt).
      split; [repeat (rewrite <- app_assoc; simpl); reflexivity|].
      intros e H. discriminate.
    + exists (l3 ++ [Log ERROR "Error in monitoring cycle"; Rollback]), (Raise ef).
      split; [repeat (rewrite <- app_assoc; simpl); reflexivity|].
      intros e H. inversion H; subst. eexists. right. exact Ef.
    + exists (l3 ++ [Log ERROR "Error in monitoring cycle"; Rollback]), (Raise er).
      split; [repeat (rewrite <- app_assoc; simpl); reflexivity|].
      intros e H. inversion H; subst. eexists. left. exact Er.
    + exists (l3 ++ [Log ERROR "Error in monitoring cycle"; Rollback]), (Raise ef).
      split; [repeat (rewrite <- app_assoc; simpl); reflexivity|].
      intros e H. inversion H; subst. eexists. right. exact Ef.
Qed.

Lemma completed_cycles_app (h l : list wevent) :
  completed_cycles (h ++ l) = (completed_cycles h + completed_cycles l)%nat.
Proof.
  unfold completed_cycles. rewrite filter_app, length_app. reflexivity.
Qed.

Lemma run_monitoring_cycle_closes (h : list wevent) :
  exists h' r, run_monitoring_cycle h = (h', r) /\
               (completed_cycles h' >= completed_cycles h + 1)%nat.
Proof.
  destruct (run_monitoring_cycle_returns h) as (l1 & l2 & l3 & r & -> & _).
  eexists. exists r. split; [reflexivity|].
  rewrite completed_cycles_app.
  change (Log INFO "Starting monitoring cycle..."
            :: Enter calculate_metrics :: Exec SelectPredictionCount :: l1 ++
            Enter check_drift :: Exec SelectAvgProba :: l2 ++
            Enter update_system_health :: l3 ++ [Close])
    with ([Log INFO "Starting monitoring cycle...";
           Enter calculate_metrics; Exec SelectPredictionCount] ++ l1 ++
          [Enter check_drift; Exec SelectAvgProba] ++ l2 ++
          [Enter update_system_health] ++ l3 ++ [Close]).
  rewrite !completed_cycles_app.
  change (completed_cycles [Close]) with 1%nat. lia.
Qed.

(** The loop runs one cycle per due tick, whatever the cycles raise. *)
Lemma main_loop_runs_every_due_tick (ticks : list tick) :
  forall h, exists h',
    main_loop ticks h = (h', Ok StillRunning) /\
    (completed_cycles h' >= completed_cycles h + due_count ticks)%nat.
Proof.
  induction ticks as [|t rest IH]; intros h.
  - exists h. split; [reflexivity|]. unfold due_count. simpl. lia.
  - destruct t.
    + simpl. unfold bindW, tryW.
      destruct (run_monitoring_cycle_closes h) as (h1 & r & -> & Hc).
      destruct r as [[]|e].
      * destruct (IH h1) as (h2 & -> & Hc2).
        exists h2. split; [reflexivity|].
        unfold due_count in *. simpl. lia.
      * unfold emit.
        destruct (IH (h1 ++ [Log ERROR "Error in main loop"])) as (h2 & -> & Hc2).
        exists h2. split; [reflexivity|].
        rewrite completed_cycles_app in Hc2.
        change (completed_cycles [Log ERROR "Error in main loop"])
          with 0%nat in Hc2.
        unfold due_count in *. simpl. lia.
    + simpl. destruct (IH h) as (h2 & -> & Hc2).
      exists h2. split; [reflexivity|]. unfold due_count in *. simpl. lia.
Qed.

End WithEnv.

(** C9.  In one cycle each of the three steps is entered, in order,
    whatever the earlier steps met (the first statement of the metrics step
    and of the drift check are sent whether or not anything before them
    failed), and the close of the session is attempted last.  No exception
    of the statements, of [psutil] or of the commit leaves the cycle; an
    exception that leaves it was raised by [session.rollback()] or
    [session.close()], so a cycle whose rollback and close do not raise
    returns normally.  The loop of [start] goes on whatever a scheduled
    cycle raises: every due tick gets its cycle.  The first cycle of [start]
    is outside the loop: when it raises, [start] ends with its exception
    and never reaches the loop. *)
Theorem cycle_isolates_step_failures (env : WorkerEnv) :
  (forall h : list wevent,
      exists l1 l2 l3 r,
        run_monitoring_cycle h
        = (h ++ Log INFO "Starting monitoring cycle..."
             :: Enter calculate_metrics :: Exec SelectPredictionCount :: l1
             ++ Enter check_drift :: Exec SelectAvgProba :: l2
             ++ Enter update_system_health :: l3 ++ [Close],
           r) /\
        (forall e, r = Raise e ->
           exists h', session_rollback h' = Raise e \/
                      session_close h' = Raise e)) /\
  (forall h : list wevent,
      (forall h', session_rollback h' = Ok tt) ->
      (forall h', session_close h' = Ok tt) ->
      snd (run_monitoring_cycle h) = Ok tt) /\
  (forall (ticks : list tick) (h : list wevent),
      exists h',
        main_loop ticks h = (h', Ok StillRunning) /\
        (completed_cycles h' >= completed_cycles h + due_count ticks)%nat) /\
  (forall (ticks : list tick) (h : list wevent),
      match snd (run_monitoring_cycle h) with
      | Ok _ =>
          exists h',
            start ticks h = (h', Ok StillRunning) /\
            (completed_cycles h' >= completed_cycles h + 1 + due_count ticks)%nat
      | Raise e => start ticks h = (fst (run_monitoring_cycle h), Raise e)
      end).
Proof.
  split; [exact run_monitoring_cycle_returns|]. split; [|split].
  - intros h Hr Hc.
    destruct (run_monitoring_cycle_returns h) as (l1 & l2 & l3 & r & -> & Hesc).
    simpl. destruct r as [[]|e]; [reflexivity|].
    destruct (Hesc e eq_refl) as (h' & [H | H]);
      [rewrite Hr in H | rewrite Hc in H]; discriminate.
  - intros ticks h. apply main_loop_runs_every_due_tick.
  - intros ticks h. unfold start, bindW.
    destruct (run_monitoring_cycle_closes h) as (h1 & r & -> & Hc).
    simpl. destruct r as [[]|e]; [|reflexivity].
    unfold emit.
    destruct (main_loop_runs_every_due_tick ticks
                (h1 ++ [Log INFO "Worker started. Running monitoring cycles..."]))
      as (h2 & -> & Hc2).
    exists h2. split; [reflexivity|].
    rewrite completed_cycles_app in Hc2.
    change (completed_cycles
              [Log INFO "Worker started. Running monitoring cycles..."])
      with 0%nat in Hc2.
    lia.
Qed.

(** With a database that refuses every statement and the commit, but rolls
    back and closes, the first cycle returns and two scheduled cycles
    follow. *)
Lemma cycle_isolates_step_failures_witness :
  snd (@run_monitoring_cycle Examples.broken_env []) = Ok tt /\
  exists h',
    @start Examples.broken_env [Due; NotDue; Due] [] = (h', Ok StillRunning) /\
    (completed_cycles h' >= 3)%nat.
Proof.
  destruct (cycle_isolates_step_failures Examples.broken_env)
    as (_ & Hret & _ & Hstart).
  assert (E : snd (@run_monitoring_cycle Examples.broken_env []) = Ok tt)
    by (apply Hret; reflexivity).
  split; [exact E|].
  specialize (Hstart [Due; NotDue; Due] []). rewrite E in Hstart.
  exact Hstart.
Defined.

(** A cycle in which the first statement fails and [psutil] is missing:
    the drift check still runs and raises its alert, the import error is
    caught at the cycle boundary, and the session is rolled back and
    closed. *)
Lemma flaky_cycle_trace :
  @run_monitoring_cycle Examples.flaky_env []
  = ([Log INFO "Starting monitoring cycle...";
      Enter calculate_metrics; Exec SelectPredictionCount;
      Log ERROR "Error calculating metrics";
      Enter check_drift; Exec SelectAvgProba;
      Log WARNING "Prediction drift detected!"; Exec (InsertAlert 0.5%Q);
      Enter update_system_health;
      Log ERROR "Error in monitoring cycle"; Rollback; Close],
     Ok tt).
Proof. reflexivity. Qed.

(** When the connection to the database is lost, the commit fails and so
    does the rollback in the [except] clause: its exception leaves
    [run_monitoring_cycle] after the session is closed.  In [start] this
    happens in the first cycle, which no [try] surrounds, so [start] ends
    with the exception and no scheduled cycle ever runs. *)
Lemma failed_rollback_leaves_the_cycle :
  @run_monitoring_cycle Examples.lost_connection_env []
  = ([Log INFO "Starting monitoring cycle...";
      Enter calculate_metrics; Exec SelectPredictionCount;
      Log ERROR "Error calculating metrics";
      Enter check_drift; Exec SelectAvgProba;
      Log ERROR "Error checking drift";
      Enter update_system_health;
      Exec (InsertHealth 10%Q 40%Q);
      Log ERROR "Error updating system health";
      Commit; Log ERROR "Error in monitoring cycle"; Rollback; Close],
     Raise DBError) /\
  snd (@start Examples.lost_connection_env [Due; Due] []) = Raise DBError /\
  completed_cycles (fst (@start Examples.lost_connection_env [Due; Due] []))
  = 1%nat.
Proof. repeat split. Qed.

End WorkerFacts.

(** * Further properties of the drift detector *)

Module DetectorEdges.
Import Numpy NanStats Detector.

Local Open Scope R_scope.

(** X1.  The reports [detect_feature_drift] returns are, in order, those of
    the requested features (all baseline columns when none are named) that
    are columns of both frames; a feature missing on either side is skipped
    without an error. *)
Theorem reported_features_are_those_on_both_sides
  (scipy : SciPy) (self : DriftDetector) (baseline_df current_df : DataFrame)
  (feature_names : option (list string)) (reports : list FeatureDrift) :
  detect_feature_drift self baseline_df current_df feature_names = Ok reports ->
  map feature_name reports
  = filter (fun f => has_column baseline_df f && has_column current_df f)
           (match feature_names with
            | Some names => names
            | None => column_names baseline_df
            end).
Proof.
  intros H. unfold detect_feature_drift in H.
  exact (DetectorFacts.detect_loop_names _ _ _ _ H).
Qed.

Lemma reported_features_are_those_on_both_sides_witness :
  exists reports,
    @detect_feature_drift Examples.scipy_partial default_detector
      Examples.frame Examples.frame
      (Some ["hour_of_day"; "merchant_risk_score"; "amount"]%string) = Ok reports /\
    map feature_name reports = ["hour_of_day"; "amount"]%string.
Proof.
  destruct (@DetectorFacts.detect_loop_ok Examples.scipy_partial default_detector
              Examples.frame Examples.frame
              DetectorFacts.example_frame_columns
              (fun f cv H => proj1 (DetectorFacts.example_frame_columns f H))
              ["hour_of_day"; "merchant_risk_score"; "amount"]%string)
    as (reports & E).
  exists reports. split; [exact E|].
  rewrite (@reported_features_are_those_on_both_sides Examples.scipy_partial
             default_detector Examples.frame Examples.frame
             (Some ["hour_of_day"; "merchant_risk_score"; "amount"]%string)
             reports E).
  reflexivity.
Defined.



Lemma feature_report_zero_division {scipy : SciPy} (self : DriftDetector)
  (f : string) (bv cv : list (option Q)) (m : R) :
  bv <> [] -> cv <> [] -> nanmean bv = Some m -> m + Q2R epsilon = 0 ->
  feature_report self f bv cv = Raise ZeroDivisionError.
Proof.
  intros Hb Hc Hm Hz. unfold feature_report.
  destruct (ks_test self bv cv) as [s p].
  destruct (DetectorFacts.column_stats_ok Hb) as (bs & -> & Ebm & _).
  destruct (DetectorFacts.column_stats_ok Hc) as (cs & -> & _ & _). simpl.
  unfold change_percent at 1. rewrite Ebm, Hm.
  destruct (Req_dec_T (m + Q2R epsilon) 0) as [_|N]; [reflexivity | contradiction].
Qed.




Lemma ks_test_cleans_and_falls_back_aux (scipy : SciPy) (self : DriftDetector)
  (baseline current : list (option Q)) :
  (dropna baseline = [] \/ dropna current = [] ->
   ks_test self baseline current = (0, 1)) /\
  (forall e, ks_2samp (dropna baseline) (dropna current) = Raise e ->
             ks_test self baseline current = (0, 1)).
Proof.
  unfold ks_test. split.
  - intros [-> | ->]; simpl; [reflexivity|].
    rewrite orb_true_r. reflexivity.
  - intros e E. rewrite E. simpl.
    destruct (_ || _); reflexivity.
Qed.

(** X4.  [ks_test] looks only at the values that are not missing.  It
    answers (0.0, 1.0) when either sample has none left and when SciPy's
    test raises; otherwise it hands on SciPy's statistic and p-value for
    the cleaned samples. *)
Theorem ks_test_cleans_and_falls_back
  (scipy : SciPy) (self : DriftDetector) (baseline current : list (option Q)) :
  ks_test self baseline current
  = ks_test self (map Some (dropna baseline)) (map Some (dropna current)) /\
  (dropna baseline = [] \/ dropna current = [] ->
   ks_test self baseline current = (0, 1)) /\
  (forall e, ks_2samp (dropna baseline) (dropna current) = Raise e ->
             ks_test self baseline current = (0, 1)) /\
  (forall s p, dropna baseline <> [] -> dropna current <> [] ->
               ks_2samp (dropna baseline) (dropna current) = Ok (s, p) ->
               ks_test self baseline current = (s, p)).
Proof.
  unfold ks_test. rewrite !DetectorFacts.dropna_Some.
  split; [reflexivity|]. split; [|split].
  - intros [-> | ->]; simpl; [reflexivity|].
    rewrite orb_true_r. reflexivity.
  - intros e E. rewrite E. simpl.
    destruct (_ || _); reflexivity.
  - intros s p Nb Nc E. rewrite E. simpl.
    destruct (dropna baseline); [congruence|].
    destruct (dropna current); [congruence|]. reflexivity.
Qed.

Lemma ks_test_cleans_and_falls_back_witness :
  @ks_test Examples.scipy_failing default_detector Examples.amounts Examples.hours
  = (0, 1) /\
  @ks_test Examples.scipy_significant default_detector [None; None] Examples.hours
  = (0, 1) /\
  @ks_test Examples.scipy_significant default_detector Examples.amounts Examples.hours
  = (0.5, 0.01).
Proof.
  split; [|split].
  - exact (proj1 (proj2 (proj2 (@ks_test_cleans_and_falls_back
             Examples.scipy_failing default_detector
             Examples.amounts Examples.hours))) ValueError eq_refl).
  - exact (proj1 (proj2 (@ks_test_cleans_and_falls_back
             Examples.scipy_significant default_detector
             [None; None] Examples.hours)) (or_introl eq_refl)).
  - refine (proj2 (proj2 (proj2 (@ks_test_cleans_and_falls_back
             Examples.scipy_significant default_detector
             Examples.amounts Examples.hours))) 0.5 0.01 _ _ eq_refl);
      discriminate.
Defined.

(** X5.  The prediction drift verdict is [drifted] exactly when the KS
    p-value is below [ks_threshold], which is also the threshold the result
    reports.  When a sample has no value left or SciPy's test raises, the
    p-value is 1, so with a threshold of at most 1 the verdict is
    [stable]. *)
Theorem prediction_drift_follows_ks_p_value
  (scipy : SciPy) (self : DriftDetector)
  (baseline_predictions current_predictions : list (option Q)) :
  let r := detect_prediction_drift self baseline_predictions current_predictions in
  (pd_status r = drifted <-> pd_p_value r < ks_threshold self) /\
  pd_threshold r = ks_threshold self /\
  (pd_statistic r, pd_p_value r)
  = ks_test self baseline_predictions current_predictions /\
  (ks_threshold self <= 1 ->
   dropna baseline_predictions = [] \/ dropna current_predictions = [] \/
   (exists e, ks_2samp (dropna baseline_predictions)
                       (dropna current_predictions) = Raise e) ->
   pd_status r = stable /\ pd_statistic r = 0 /\ pd_p_value r = 1).
Proof.
  unfold detect_prediction_drift.
  destruct (ks_test self baseline_predictions current_predictions)
    as [s p] eqn:E. cbn [pd_status pd_p_value pd_threshold pd_statistic].
  split; [|split; [reflexivity|split; [reflexivity|]]].
  - destruct (Rltb p (ks_threshold self)) eqn:G.
    + apply DetectorFacts.Rltb_true in G. split; auto.
    + apply DetectorFacts.Rltb_false in G.
      split; [discriminate | intros; lra].
  - intros Hthr H.
    assert (Hk : ks_test self baseline_predictions current_predictions = (0, 1)).
    { destruct (ks_test_cleans_and_falls_back_aux scipy self
                  baseline_predictions current_predictions) as (Hem & Hr).
      destruct H as [H | [H | (e & H)]]; eauto. }
    rewrite Hk in E. inversion E; subst.
    assert (G : Rltb 1 (ks_threshold self) = false)
      by (apply DetectorFacts.Rltb_false; exact Hthr).
    rewrite G. auto.
Qed.

Lemma prediction_drift_follows_ks_p_value_witness :
  pd_status (@detect_prediction_drift Examples.scipy_failing default_detector
               [Some 0.02%Q; Some 0.02%Q] [Some 0.9%Q; Some 0.8%Q]) = stable /\
  pd_status (@detect_prediction_drift Examples.scipy_significant default_detector
               [Some 0.02%Q; Some 0.02%Q] [Some 0.9%Q; Some 0.8%Q]) = drifted.
Proof.
  split.
  - refine (proj1 (proj2 (proj2 (proj2
              (@prediction_drift_follows_ks_p_value Examples.scipy_failing
                 default_detector [Some 0.02%Q; Some 0.02%Q]
                 [Some 0.9%Q; Some 0.8%Q]))) _ _)).
    + simpl. lra.
    + right. right. exists ValueError. reflexivity.
  - apply (proj1 (@prediction_drift_follows_ks_p_value Examples.scipy_significant
                    default_detector [Some 0.02%Q; Some 0.02%Q]
                    [Some 0.9%Q; Some 0.8%Q])).
    unfold detect_prediction_drift, ks_test. simpl. lra.
Defined.

(** ** The recommendation text *)

Lemma names_with_severity_nil (sev : Severity) (reports : list FeatureDrift) :
  names_with_severity sev reports = [] <->
  forall r, In r reports -> severity r <> sev.
Proof.
  unfold names_with_severity. induction reports as [|r rs IH]; simpl.
  - split; [intros _ r [] | reflexivity].
  - destruct (Severity_eqb (severity r) sev) eqn:E; simpl.
    + split; [discriminate|]. intros H. exfalso.
      assert (Es : severity r = sev)
        by (destruct (severity r), sev; simpl in E; congruence).
      exact (H r (or_introl eq_refl) Es).
    + rewrite IH. split.
      * intros H r' [<- | Hin]; [|auto].
        intros Es. rewrite Es in E. destruct sev; simpl in E; discriminate.
      * intros H r' Hin. apply H. right. exact Hin.
Qed.

(** X6.  [generate_recommendation] picks its tier by the worst severity
    present: the text is the all-stable sentence exactly when no report is
    [high] or [medium]; it opens with URGENT exactly when some report is
    [high], whatever else is there; and with WARNING exactly when none is
    [high] and some is [medium]. *)
Theorem recommendation_tier_is_worst_severity
  (self : DriftDetector) (reports : list FeatureDrift) :
  (generate_recommendation self reports
   = "All features stable. Continue monitoring."%string <->
   forall r, In r reports -> severity r <> high /\ severity r <> medium) /\
  (String.prefix "URGENT: " (generate_recommendation self reports) = true <->
   exists r, In r reports /\ severity r = high) /\
  (String.prefix "WARNING: " (generate_recommendation self reports) = true <->
   (forall r, In r reports -> severity r <> high) /\
   exists r, In r reports /\ severity r = medium).
Proof.
  pose proof (names_with_severity_nil high reports) as Hh.
  pose proof (names_with_severity_nil medium reports) as Hm.
  assert (Eh : forall sev, names_with_severity sev reports <> [] ->
                           exists r, In r reports /\ severity r = sev).
  { intros sev N. unfold names_with_severity in N.
    destruct (filter (fun r => Severity_eqb (severity r) sev) reports)
      as [|r l] eqn:E; [contradiction N; reflexivity|].
    assert (Hin : In r (filter (fun r => Severity_eqb (severity r) sev) reports))
      by (rewrite E; left; reflexivity).
    apply filter_In in Hin. destruct Hin as [Hin Hs].
    exists r. split; [exact Hin|].
    destruct (severity r), sev; simpl in Hs; congruence. }
  unfold generate_recommendation.
  destruct (names_with_severity high reports) as [|h hs] eqn:EH.
  - assert (Nh : forall r, In r reports -> severity r <> high)
      by (apply Hh; reflexivity).
    destruct (names_with_severity medium reports) as [|m ms] eqn:EM.
    + assert (Nm : forall r, In r reports -> severity r <> medium)
        by (apply Hm; reflexivity).
      split; [|split].
      * split; [intros _ r Hr; split; auto | reflexivity].
      * simpl. split; [discriminate|].
        intros (r & Hr & Hs). exfalso. exact (Nh r Hr Hs).
      * simpl. split; [discriminate|].
        intros (_ & r & Hr & Hs). exfalso. exact (Nm r Hr Hs).
    + destruct (Eh medium) as (r & Hr & Hs); [rewrite EM; discriminate|].
      split; [|split].
      * simpl. split; [discriminate|].
        intros H. exfalso. exact (proj2 (H r Hr) Hs).
      * simpl. split; [discriminate|].
        intros (r' & Hr' & Hs'). exfalso. exact (Nh r' Hr' Hs').
      * simpl. split; [intros _; split; eauto | reflexivity].
  - destruct (Eh high) as (r & Hr & Hs); [rewrite EH; discriminate|].
    split; [|split].
    + simpl. split; [discriminate|].
      intros H. exfalso. exact (proj1 (H r Hr) Hs).
    + simpl. split; [eauto | reflexivity].
    + simpl. split; [discriminate|].
      intros (H & _). exfalso. exact (H r Hr Hs).
Qed.

Lemma recommendation_tier_is_worst_severity_witness :
  let reports := [Examples.feature_result "amount" 0.3 0.25;
                  Examples.feature_result "hour_of_day" 0.7 0.25;
                  Examples.feature_result "distance" 0.9 0.25] in
  String.prefix "URGENT: " (generate_recommendation default_detector reports)
  = true /\
  generate_recommendation default_detector reports
  = ("URGENT: Significant drift detected in 2 feature(s): hour_of_day, distance. "
     ++ "Model retraining strongly recommended. "
     ++ "Investigate data quality and feature engineering pipeline.")%string.
Proof.
  assert (E1 : severity_of 0.3 = medium)
    by (apply DetectorFacts.severity_of_bands; lra).
  assert (E2 : severity_of 0.7 = high)
    by (apply DetectorFacts.severity_of_bands; lra).
  assert (E3 : severity_of 0.9 = high)
    by (apply DetectorFacts.severity_of_bands; lra).
  cbv zeta. split.
  - apply (proj1 (proj2 (recommendation_tier_is_worst_severity default_detector _))).
    eexists. split; [right; left; reflexivity | exact E2].
  - unfold generate_recommendation, names_with_severity. simpl.
    rewrite E1, E2, E3. reflexivity.
Defined.

(** ** Too few bins *)

Lemma count_if_all (a : list Q) : count_if (fun _ => true) a = List.length a.
Proof.
  unfold count_if. induction a as [|x a IH]; simpl; [reflexivity|].
  rewrite IH. reflexivity.
Qed.

Lemma whole_sample_share (z : Z) :
  z <> 0%Z ->
  Q2R (inject_Z z / inject_Z z + epsilon) = Q2R (1 + epsilon).
Proof.
  intros N. apply Qeq_eqR.
  assert (H : ~ (inject_Z z == 0)%Q) by (unfold Qeq; simpl; lia).
  field. exact H.
Qed.

Lemma psi_try_too_few_bins (baseline current : list Q) (n : Z) (v : R) :
  (n <= 1)%Z -> psi_try baseline current n = Ok v -> v = 0.
Proof.
  intros Hn E. unfold psi_try, bind in E.
  destruct baseline as [|b0 bs]; [discriminate|].
  destruct current as [|c0 cs]; [discriminate|].
  cbn [amin amax] in E.
  match type of E with context [Qeq_bool ?a ?b] =>
    destruct (Qeq_bool a b); [inversion E; reflexivity|]
  end.
  unfold linspace in E.
  destruct (n + 1 <? 0)%Z eqn:Eneg; [discriminate|].
  apply Z.ltb_ge in Eneg.
  assert (Hc : n = (-1)%Z \/ n = 0%Z \/ n = 1%Z) by lia.
  destruct Hc as [-> | [-> | ->]].
  - discriminate.
  - cbn [Z.add Z.to_nat Pos.to_nat Pos.iter_op seq map set_first set_last
         set_last_aux histogram percents] in E.
    inversion E. reflexivity.
  - change (Z.to_nat (1 + 1)) with 2%nat in E.
    cbn [seq map set_first set_last set_last_aux histogram percents
         edge_le_val val_le_edge andb] in E.
    rewrite !count_if_all in E. inversion E; subst v; clear E.
    unfold psi_sum. cbn [combine map fold_right psi_term].
    rewrite !whole_sample_share by discriminate. lra.
Qed.

(** X21.  With at most one bin, whether through [n_bins] of the detector or
    through the argument, [calculate_psi] is 0 for every pair of samples:
    a single bin holds everything on both sides, and with none the bin
    edges cannot be built, which the function answers with 0.0. *)
Theorem too_few_bins_hide_every_shift
  (self : DriftDetector) (baseline current : list (option Q))
  (n_bins_arg : option Z) :
  (match n_bins_arg with
   | None => n_bins self
   | Some n => n
   end <= 1)%Z ->
  calculate_psi self baseline current n_bins_arg = 0.
Proof.
  intros Hn. unfold calculate_psi.
  match goal with |- context [if ?c then _ else _] => destruct c end;
    [reflexivity|].
  unfold try_except.
  match goal with |- context [psi_try ?a ?b ?c] =>
    destruct (psi_try a b c) as [v|] eqn:E end; [|reflexivity].
  exact (psi_try_too_few_bins _ _ Hn E).
Qed.

Lemma too_few_bins_hide_every_shift_witness :
  calculate_psi default_detector
    [Some 0%Q; Some 0%Q; Some 0%Q] [Some 1%Q; Some 100%Q] (Some 1%Z) = 0.
Proof.
  apply too_few_bins_hide_every_shift. simpl. lia.
Defined.

End DetectorEdges.

(** * Further properties of the monitoring service *)

Module ServiceEdges.
Import Detector MonitoringService.

Lemma alerting_spec (s : Severity) :
  alerting s = true <-> s = high \/ s = medium.
Proof.
  destruct s; simpl; split; intros H; try discriminate; auto;
    destruct H; discriminate.
Qed.

Section WithCollaborators.
Context {scipy : SciPy} {collab : Collaborators}.

Lemma alerts_from_features (reports : list FeatureDrift) (k : nat) :
  map (fun a => (fst (fst (message a)), alert_severity a))
      (alerts_from k reports)
  = map (fun r => (feature_name r, severity r))
        (filter (fun r => alerting (severity r)) reports).
Proof.
  revert k. induction reports as [|r rs IH]; intros k; [reflexivity|].
  simpl. destruct (severity r) eqn:E; simpl; rewrite ?E, IH; reflexivity.
Qed.

Lemma alerts_from_readings (reports : list FeatureDrift) (k : nat) :
  map triggered_at (alerts_from k reports)
  = map utcnow (seq k (List.length (alerts_from k reports))).
Proof.
  revert k. induction reports as [|r rs IH]; intros k; [reflexivity|].
  simpl. destruct (severity r); simpl; rewrite ?IH; reflexivity.
Qed.

Lemma alerts_from_each (reports : list FeatureDrift) (k : nat) (a : Alert) :
  In a (alerts_from k reports) ->
  (0 <= alert_id a < 10000)%Z /\
  alert_type a = "data_drift"%string /\
  alerting (alert_severity a) = true /\
  recommendation a <> "Continue monitoring."%string.
Proof.
  revert k. induction reports as [|r rs IH]; intros k; [intros []|].
  simpl. unfold _get_recommendation.
  destruct (severity r) eqn:E; try apply IH;
    (intros [<- | H]; [|exact (IH _ H)]); simpl;
    (split; [apply Z.mod_pos_bound; lia|]);
    (split; [reflexivity|]); rewrite ?E; (split; [reflexivity|]);
    simpl; discriminate.
Qed.

Lemma alerts_from_carry (reports : list FeatureDrift) (k : nat) (a : Alert) :
  In a (alerts_from k reports) ->
  exists r, In r reports /\
            message a = (feature_name r, drift_score r, threshold r) /\
            alert_severity a = severity r.
Proof.
  revert k. induction reports as [|r rs IH]; intros k; [intros []|].
  simpl.
  assert (Hrest : forall j, In a (alerts_from j rs) ->
            exists r0, (r = r0 \/ In r0 rs) /\
                       message a = (feature_name r0, drift_score r0, threshold r0) /\
                       alert_severity a = severity r0).
  { intros j H. destruct (IH j H) as (r0 & Hr0 & Hm).
    exists r0. split; [right|]; assumption. }
  destruct (severity r) eqn:E; try apply Hrest;
    (intros [<- | H]; [|exact (Hrest _ H)]);
    exists r; simpl; rewrite ?E; (split; [left; reflexivity|]);
    split; reflexivity.
Qed.

Lemma alerts_from_high_count (reports : list FeatureDrift) (k : nat) :
  List.length (filter (fun a => Severity_eqb (alert_severity a) high)
                      (alerts_from k reports))
  = high_severity_count reports.
Proof.
  unfold high_severity_count.
  revert k. induction reports as [|r rs IH]; intros k; [reflexivity|].
  simpl. destruct (severity r) eqn:E; simpl; rewrite ?E; simpl;
    rewrite IH; reflexivity.
Qed.

Lemma alerts_from_length (reports : list FeatureDrift) (k : nat) :
  (List.length (alerts_from k reports) <= List.length reports)%nat.
Proof.
  revert k. induction reports as [|r rs IH]; intros k; [apply Nat.le_refl|].
  simpl. pose proof (IH k). pose proof (IH (S k)).
  destruct (severity r); simpl; lia.
Qed.

Lemma alerts_from_none (reports : list FeatureDrift) (k : nat) :
  (forall r, In r reports -> alerting (severity r) = false) ->
  alerts_from k reports = [].
Proof.
  revert k. induction reports as [|r rs IH]; intros k H; [reflexivity|].
  simpl. pose proof (H r (or_introl eq_refl)) as Hr.
  destruct (severity r); simpl in Hr; try discriminate;
    apply IH; intros x Hx; apply H; right; exact Hx.
Qed.

End WithCollaborators.

(** X7.  [_generate_alerts] gives one alert per feature result of severity
    [medium] or [high], in the order of the results and with the feature's
    name and severity; results of severity [low] or [none] give none.
    Each alert is stamped with a reading of the clock of its own, taken in
    the order of the alerts; it has type data_drift, an id from 0 to 9999,
    and a recommendation that is not the fall-back sentence.  The
    prediction drift argument plays no part. *)
Theorem alerts_are_the_medium_and_high_features
  (collab : Collaborators) (reports : list FeatureDrift)
  (pd : option PredictionDrift) :
  map (fun a => (fst (fst (message a)), alert_severity a))
      (_generate_alerts reports pd)
  = map (fun r => (feature_name r, severity r))
        (filter (fun r => alerting (severity r)) reports) /\
  map triggered_at (_generate_alerts reports pd)
  = map utcnow (seq 0 (List.length (_generate_alerts reports pd))) /\
  (forall a, In a (_generate_alerts reports pd) ->
             (0 <= alert_id a < 10000)%Z /\
             alert_type a = "data_drift"%string /\
             alerting (alert_severity a) = true /\
             recommendation a <> "Continue monitoring."%string) /\
  _generate_alerts reports pd = _generate_alerts reports None.
Proof.
  unfold _generate_alerts.
  split; [apply alerts_from_features|].
  split; [apply alerts_from_readings|].
  split; [intros a; apply alerts_from_each | reflexivity].
Qed.

Section Reports.
Context {scipy : SciPy} {collab : Collaborators}.
Variable settings : Settings.

Lemma _get_current_features_index (db : Database) (s e : Z) :
  index (_get_current_features db s e)
  = List.length (filter (in_window s e) (predictions db)).
Proof.
  unfold _get_current_features.
  destruct (filter (in_window s e) (predictions db)); simpl;
    [reflexivity | rewrite length_map; reflexivity].
Qed.

Lemma _get_predictions_length (db : Database) (s e : Z) :
  List.length (_get_predictions db s e)
  = List.length (filter (in_window s e) (predictions db)).
Proof. unfold _get_predictions. apply length_map. Qed.

Lemma high_alerts_count (reports : list FeatureDrift)
  (pd : option PredictionDrift) :
  List.length (filter (fun a => Severity_eqb (alert_severity a) high)
                      (_generate_alerts reports pd))
  = high_severity_count reports.
Proof. apply alerts_from_high_count. Qed.

Lemma _generate_alerts_length (reports : list FeatureDrift)
  (pd : option PredictionDrift) :
  (List.length (_generate_alerts reports pd) <= List.length reports)%nat.
Proof. apply alerts_from_length. Qed.

(** Every report [get_drift_report] returns is the empty report of an empty
    window, or the report built from the detector's results for a window
    that holds predictions. *)
Lemma get_drift_report_cases (db : Database) (now : Z) (hours : option Z)
  (report : Report) :
  outcome (get_drift_report settings db now hours) = Ok report ->
  let start_time := window_start settings now hours in
  let rows := filter (in_window start_time now) (predictions db) in
  (rows = [] /\ report = _empty_report settings start_time now) \/
  (rows <> [] /\
   exists frs,
     detect_feature_drift (drift_detector settings) (_get_baseline_features db)
       (_get_current_features db start_time now) None = Ok frs /\
     let pd := Some (detect_prediction_drift (drift_detector settings)
                       (repeat (Some 0.02%Q) (List.length rows))
                       (_get_predictions db start_time now)) in
     report =
       {| report_timestamp := utcnow (List.length (_generate_alerts frs pd));
          time_window := (start_time, now);
          total_predictions := List.length rows;
          model_version := MODEL_VERSION settings;
          overall_status :=
            {| health := overall_health frs pd;
               data_drift_detected := any_feature_drifted frs;
               concept_drift_detected := prediction_drifted pd;
               performance_degraded := false |};
          feature_drift := frs;
          prediction_drift := pd;
          performance_metrics := _calculate_performance_metrics db start_time now;
          alerts := _generate_alerts frs pd |}).
Proof.
  intros H start_time rows.
  pose proof (_get_current_features_index db start_time now) as Ei.
  fold rows in Ei.
  destruct rows as [|p l] eqn:Er.
  - left. split; [reflexivity|].
    rewrite (ServiceFacts.get_drift_report_empty settings db now hours Ei) in H.
    unfold outcome in H. simpl in H. inversion H. reflexivity.
  - right. split; [discriminate|].
    assert (N : index (_get_current_features db start_time now) <> 0%nat)
      by (rewrite Ei; discriminate).
    rewrite (ServiceFacts.get_drift_report_full settings db now hours N) in H.
    fold start_time in H.
    destruct (detect_feature_drift (drift_detector settings)
                (_get_baseline_features db)
                (_get_current_features db start_time now) None) as [frs|e];
      [|discriminate].
    exists frs. split; [reflexivity|].
    rewrite _get_predictions_length in H. fold start_time in H.
    unfold rows in Er. rewrite Ei in H. rewrite Er in H. simpl in H.
    inversion H. reflexivity.
Qed.

End Reports.

(** X8.  The parts of a returned report agree with each other: the window
    ends at the reading of the clock that started the call, the alerts are
    those generated from the report's own feature results, the data and
    concept drift flags say that some feature result, respectively the
    prediction result, has status drifted, the health is critical exactly
    when at least two alerts have severity high, a healthy report has both
    flags false, and there are never more alerts than feature results. *)
Theorem report_parts_are_consistent
  (scipy : SciPy) (collab : Collaborators) (settings : Settings)
  (db : Database) (now : Z) (hours : option Z) (report : Report) :
  outcome (get_drift_report settings db now hours) = Ok report ->
  time_window report = (window_start settings now hours, now) /\
  model_version report = MODEL_VERSION settings /\
  alerts report
  = _generate_alerts (feature_drift report) (prediction_drift report) /\
  (data_drift_detected (overall_status report) = true <->
   exists r, In r (feature_drift report) /\ status r = drifted) /\
  (concept_drift_detected (overall_status report) = true <->
   exists p, prediction_drift report = Some p /\ pd_status p = drifted) /\
  (health (overall_status report) = critical <->
   (2 <= List.length (filter (fun a => Severity_eqb (alert_severity a) high)
                             (alerts report)))%nat) /\
  (health (overall_status report) = healthy ->
   data_drift_detected (overall_status report) = false /\
   concept_drift_detected (overall_status report) = false) /\
  (List.length (alerts report) <= List.length (feature_drift report))%nat.
Proof.
  intros H. apply get_drift_report_cases in H.
  destruct H as [[_ ->] | [_ (frs & _ & ->)]].
  - cbn. repeat split; try discriminate; try lia.
    + intros (r & [] & _).
    + intros (p & E & _). discriminate.
  - cbn [report_timestamp time_window model_version alerts overall_status
         feature_drift prediction_drift health data_drift_detected
         concept_drift_detected].
    repeat split; try reflexivity.
    + apply ServiceFacts.any_feature_drifted_spec.
    + apply ServiceFacts.any_feature_drifted_spec.
    + apply ServiceFacts.prediction_drifted_spec.
    + apply ServiceFacts.prediction_drifted_spec.
    + rewrite high_alerts_count. apply ServiceFacts.overall_health_rule.
    + rewrite high_alerts_count. apply ServiceFacts.overall_health_rule.
    + apply ServiceFacts.overall_health_rule in H. tauto.
    + apply ServiceFacts.overall_health_rule in H. tauto.
    + apply _generate_alerts_length.
Qed.

Lemma report_parts_are_consistent_witness :
  exists report,
    outcome (@get_drift_report Examples.scipy_partial Examples.collaborators
               default_settings Examples.two_predictions 2000 None) = Ok report /\
    total_predictions report = 2%nat /\
    alerts report
    = @_generate_alerts Examples.collaborators
        (feature_drift report) (prediction_drift report).
Proof.
  destruct (ServiceFacts.two_predictions_cycle Examples.scipy_partial
              Examples.collaborators) as (report & E & Ht & _).
  exists report. split; [exact E|]. split; [exact Ht|].
  exact (proj1 (proj2 (proj2
    (@report_parts_are_consistent Examples.scipy_partial Examples.collaborators
       default_settings Examples.two_predictions 2000 None report E)))).
Defined.

(** X9.  A failure of the detector is logged and handed on.  For a window
    whose two ends are instants a [datetime] can hold and which holds
    predictions: when [detect_feature_drift] raises on the baseline and
    current frames, [get_drift_report] raises the same exception, having
    fetched both frames and called the detector; it logs one error and has
    neither looked at the predictions, generated alerts nor called the
    store. *)
Theorem detector_failure_is_logged_and_reraised
  (scipy : SciPy) (collab : Collaborators) (settings : Settings)
  (db : Database) (now : Z) (hours : option Z) (e : exn) :
  let start_time := window_start settings now hours in
  representable now ->
  representable start_time ->
  filter (in_window start_time now) (predictions db) <> [] ->
  detect_feature_drift (drift_detector settings) (_get_baseline_features db)
    (_get_current_features db start_time now) None = Raise e ->
  get_drift_report settings db now hours
  = ([Called m_get_baseline_features; Called m_get_current_features;
      Called m_detect_feature_drift;
      LogError "Error generating drift report"], Raise e).
Proof.
  intros start_time _ _ Hr Hd.
  pose proof (_get_current_features_index db start_time now) as Ei.
  assert (N : Nat.eqb (index (_get_current_features db start_time now)) 0 = false).
  { apply Nat.eqb_neq. rewrite Ei. intros E0.
    apply length_zero_iff_nil in E0. contradiction. }
  unfold get_drift_report. unfold start_time, window_start in N, Hd.
  unfold tryM, bindM, call, ret, lift, raise, logger_error. simpl.
  rewrite N. simpl. rewrite Hd. reflexivity.
Qed.

Lemma offset_history_detector_fails (scipy : SciPy) (collab : Collaborators) :
  detect_feature_drift (drift_detector default_settings)
    (_get_baseline_features Examples.offset_history)
    Examples.offset_frame None
  = Raise ZeroDivisionError.
Proof.
  change (_get_baseline_features Examples.offset_history)
    with Examples.offset_frame.
  unfold detect_feature_drift, Examples.offset_frame, column_names.
  cbn [columns map fst detect_loop lookup_column String.eqb Ascii.eqb Bool.eqb].
  rewrite (@DetectorEdges.feature_report_zero_division scipy
             (drift_detector default_settings) "balance"
             [Some (-(1e-10))%Q] [Some (-(1e-10))%Q] (Q2R (-(1e-10))%Q)).
  - reflexivity.
  - discriminate.
  - discriminate.
  - unfold NanStats.nanmean, NanStats.on_clean. simpl.
    f_equal; try (apply Qeq_eqR; reflexivity).
  - rewrite <- Q2R_plus.
    replace 0%R with (Q2R 0) by (unfold Q2R; simpl; lra).
    apply Qeq_eqR. reflexivity.
Qed.

(** One stored prediction whose feature is -1e-10 makes the report fail
    with [ZeroDivisionError]. *)
Lemma detector_failure_is_logged_and_reraised_witness :
  @get_drift_report Examples.scipy_partial Examples.collaborators
    default_settings Examples.offset_history 1000 None
  = ([Called m_get_baseline_features; Called m_get_current_features;
      Called m_detect_feature_drift;
      LogError "Error generating drift report"],
     Raise ZeroDivisionError).
Proof.
  apply (@detector_failure_is_logged_and_reraised Examples.scipy_partial
           Examples.collaborators default_settings Examples.offset_history
           1000 None ZeroDivisionError).
  - unfold representable, datetime_min, datetime_max. lia.
  - unfold representable, datetime_min, datetime_max. vm_compute.
    split; discriminate.
  - vm_compute. discriminate.
  - exact (offset_history_detector_fails Examples.scipy_partial
             Examples.collaborators).
Defined.

Lemma _calculate_performance_metrics_keys (collab : Collaborators)
  (db : Database) (s e : Z) :
  map fst (_calculate_performance_metrics db s e)
  = ["accuracy"; "precision"; "recall"; "f1_score"; "auc_roc"]%string.
Proof.
  unfold _calculate_performance_metrics.
  destruct (labelled_rows db s e) as [|r l]; [reflexivity|].
  unfold try_except, bind.
  destruct (accuracy_score _ _); [|reflexivity].
  destruct (precision_score _ _); [|reflexivity].
  destruct (recall_score _ _); [|reflexivity].
  destruct (f1_score _ _); [|reflexivity].
  destruct (Nat.ltb _ _); [destruct (roc_auc_score _ _)|]; reflexivity.
Qed.

(** X10.  In a returned report [total_predictions] is the number of stored
    predictions stamped between the window's start and [now], both ends
    included.  The report has health unknown exactly when that number is 0,
    it has a prediction drift result exactly when the number is not 0, and
    its performance metrics have no key at all in the first case and the
    five metric keys in the second. *)
Theorem total_predictions_counts_the_window
  (scipy : SciPy) (collab : Collaborators) (settings : Settings)
  (db : Database) (now : Z) (hours : option Z) (report : Report) :
  outcome (get_drift_report settings db now hours) = Ok report ->
  let start_time := window_start settings now hours in
  total_predictions report
  = List.length (filter (fun p => (start_time <=? prediction_timestamp p)%Z
                                  && (prediction_timestamp p <=? now)%Z)
                        (predictions db)) /\
  (health (overall_status report) = unknown <-> total_predictions report = 0%nat) /\
  (prediction_drift report = None <-> total_predictions report = 0%nat) /\
  (total_predictions report = 0%nat -> performance_metrics report = []) /\
  (total_predictions report <> 0%nat ->
   map fst (performance_metrics report)
   = ["accuracy"; "precision"; "recall"; "f1_score"; "auc_roc"]%string).
Proof.
  intros H start_time. apply get_drift_report_cases in H.
  fold start_time in H.
  change (filter (fun p => (start_time <=? prediction_timestamp p)%Z
                           && (prediction_timestamp p <=? now)%Z)
                 (predictions db))
    with (filter (in_window start_time now) (predictions db)).
  destruct H as [[Er ->] | [Nr (frs & _ & ->)]].
  - rewrite Er. cbn. repeat split; try reflexivity; intros; congruence.
  - cbn [total_predictions overall_status health prediction_drift
         performance_metrics].
    assert (N : List.length (filter (in_window start_time now) (predictions db))
                <> 0%nat).
    { intros E0. apply length_zero_iff_nil in E0. contradiction. }
    split; [reflexivity|]. split; [|split; [|split]].
    + split; [|intros E0; contradiction].
      intros Hu. exfalso. exact (ServiceFacts.overall_health_not_unknown _ _ Hu).
    + split; [discriminate | intros E0; contradiction].
    + intros E0. contradiction.
    + intros _. apply _calculate_performance_metrics_keys.
Qed.

Lemma total_predictions_counts_the_window_witness :
  exists report,
    outcome (@get_drift_report Examples.scipy_partial Examples.collaborators
               default_settings Examples.two_predictions 2000 None) = Ok report /\
    total_predictions report = 2%nat /\
    prediction_drift report <> None /\
    health (overall_status report) <> unknown.
Proof.
  destruct (ServiceFacts.two_predictions_cycle Examples.scipy_partial
              Examples.collaborators) as (report & E & Ht & _).
  destruct (@total_predictions_counts_the_window Examples.scipy_partial
              Examples.collaborators default_settings Examples.two_predictions
              2000 None report E) as (_ & Hu & Hp & _).
  exists report. split; [exact E|]. split; [exact Ht|]. split.
  - intros Hn. apply Hp in Hn. rewrite Ht in Hn. discriminate.
  - intros Hn. apply Hu in Hn. rewrite Ht in Hn. discriminate.
Defined.

(** X11.  [_calculate_performance_metrics] is all or nothing.  Without a
    labelled prediction in the window every metric is [None]; a failure of
    any scikit-learn call, the AUC included, discards the metrics already
    computed and gives all [None] again; and when the four basic metrics
    are computed and the labels are of a single class, they are reported
    with [auc_roc] left [None] and [roc_auc_score] not consulted. *)
Theorem performance_metrics_are_all_or_nothing
  (collab : Collaborators) (db : Database) (start_time end_time : Z) :
  let rows := labelled_rows db start_time end_time in
  let y_pred := map (fun r => fst (fst r)) rows in
  let y_proba := map (fun r => snd (fst r)) rows in
  let y_true := map (fun r => snd r) rows in
  let metrics := _calculate_performance_metrics db start_time end_time in
  (rows = [] -> metrics = no_metrics) /\
  (forall e, accuracy_score y_true y_pred = Raise e \/
             precision_score y_true y_pred = Raise e \/
             recall_score y_true y_pred = Raise e \/
             f1_score y_true y_pred = Raise e \/
             ((1 < List.length (unique y_true))%nat /\
              roc_auc_score y_true y_proba = Raise e) ->
             metrics = no_metrics) /\
  (forall acc prec rec f1,
     rows <> [] ->
     accuracy_score y_true y_pred = Ok acc ->
     precision_score y_true y_pred = Ok prec ->
     recall_score y_true y_pred = Ok rec ->
     f1_score y_true y_pred = Ok f1 ->
     (List.length (unique y_true) <= 1)%nat ->
     metrics = [("accuracy", Some acc); ("precision", Some prec);
                ("recall", Some rec); ("f1_score", Some f1);
                ("auc_roc", None)]%string) /\
  (metrics = no_metrics \/
   exists acc prec rec f1 auc,
     metrics = [("accuracy", Some acc); ("precision", Some prec);
                ("recall", Some rec); ("f1_score", Some f1);
                ("auc_roc", auc)]%string /\
     (auc <> None <-> (1 < List.length (unique y_true))%nat)).
Proof.
  intros rows y_pred y_proba y_true metrics.
  subst metrics. unfold _calculate_performance_metrics. fold rows.
  destruct rows as [|r l] eqn:Er.
  - repeat split; try reflexivity; intros; try reflexivity; try congruence.
    left. reflexivity.
  - fold y_pred y_proba y_true. unfold try_except, bind.
    split; [discriminate|]. split; [|split].
    + intros e H.
      destruct (accuracy_score y_true y_pred); [|reflexivity].
      destruct (precision_score y_true y_pred); [|reflexivity].
      destruct (recall_score y_true y_pred); [|reflexivity].
      destruct (f1_score y_true y_pred); [|reflexivity].
      destruct H as [H | [H | [H | [H | [Hn H]]]]]; try discriminate.
      apply Nat.ltb_lt in Hn. rewrite Hn, H. reflexivity.
    + intros acc prec rec f1 _ -> -> -> -> Hn.
      apply Nat.ltb_ge in Hn. rewrite Hn. reflexivity.
    + destruct (accuracy_score y_true y_pred) as [acc|]; [|left; reflexivity].
      destruct (precision_score y_true y_pred) as [prec|]; [|left; reflexivity].
      destruct (recall_score y_true y_pred) as [rec|]; [|left; reflexivity].
      destruct (f1_score y_true y_pred) as [f1|]; [|left; reflexivity].
      destruct (Nat.ltb 1 (List.length (unique y_true))) eqn:Hn.
      * apply Nat.ltb_lt in Hn.
        destruct (roc_auc_score y_true y_proba) as [a|]; [|left; reflexivity].
        right. exists acc, prec, rec, f1, (Some a).
        split; [reflexivity|]. split; [intros _; exact Hn | discriminate].
      * apply Nat.ltb_ge in Hn.
        right. exists acc, prec, rec, f1, None.
        split; [reflexivity|]. split; [congruence | lia].
Qed.

(** Two labelled predictions of one class: the four basic metrics are
    reported and the AUC is not, although the AUC function would raise. *)
Lemma performance_metrics_are_all_or_nothing_witness :
  @_calculate_performance_metrics Examples.collaborators
    Examples.two_predictions 0 2000
  = [("accuracy", Some 0%R); ("precision", Some 0%R); ("recall", Some 0%R);
     ("f1_score", Some 0%R); ("auc_roc", None)]%string.
Proof.
  refine (proj1 (proj2 (proj2 (@performance_metrics_are_all_or_nothing
            Examples.collaborators Examples.two_predictions 0 2000)))
            0%R 0%R 0%R 0%R _ eq_refl eq_refl eq_refl eq_refl _).
  - vm_compute. discriminate.
  - vm_compute. lia.
Defined.

Lemma all_in_filter {A : Type} (f : A -> bool) (l : list A) :
  (forall x, In x l -> f x = true) -> filter f l = l.
Proof.
  induction l as [|a l IH]; intros H; simpl; [reflexivity|].
  rewrite (H a (or_introl eq_refl)). f_equal. apply IH.
  intros x Hx. apply H. right. exact Hx.
Qed.

Lemma no_alert_without_alerting_severity (collab : Collaborators)
  (reports : list FeatureDrift) (pd : option PredictionDrift) :
  (forall r, In r reports -> alerting (severity r) = false) ->
  _generate_alerts reports pd = [].
Proof. apply alerts_from_none. Qed.

(** X12.  While every stored prediction lies inside the window, and there
    are at most 10000 of them, the baseline frame is the current frame (rows
    read in stored order), so a returned report cannot show data drift:
    every feature result has score 0, status [stable] and severity [none],
    the data drift flag is false, there is no alert, and the health is not
    critical.  The threshold is taken positive, as the default 0.25 is. *)
Theorem history_inside_the_window_shows_no_data_drift
  (scipy : SciPy) (collab : Collaborators) (settings : Settings)
  (db : Database) (now : Z) (hours : option Z) (report : Report) :
  (0 < PSI_THRESHOLD settings)%R ->
  (Z.of_nat (List.length (predictions db)) <= 10000)%Z ->
  (forall p, In p (predictions db) ->
             (window_start settings now hours <= prediction_timestamp p <= now)%Z) ->
  outcome (get_drift_report settings db now hours) = Ok report ->
  (forall r, In r (feature_drift report) ->
             drift_score r = 0%R /\ status r = stable /\ severity r = none) /\
  data_drift_detected (overall_status report) = false /\
  alerts report = [] /\
  health (overall_status report) <> critical.
Proof.
  intros Hthr Hlen Hall H. apply get_drift_report_cases in H.
  destruct H as [[_ ->] | [Nr (frs & Hd & ->)]].
  - cbn. split; [intros r []|]. repeat split; discriminate.
  - cbn [feature_drift overall_status data_drift_detected alerts health].
    assert (Ef : filter (in_window (window_start settings now hours) now)
                        (predictions db) = predictions db).
    { apply all_in_filter. intros p Hp. unfold in_window.
      destruct (Hall p Hp) as [H1 H2].
      apply andb_true_intro. split; apply Z.leb_le; assumption. }
    assert (Eb : _get_baseline_features db
                 = _get_current_features db (window_start settings now hours) now).
    { unfold _get_baseline_features, _get_current_features.
      rewrite Ef, firstn_all2 by lia.
      rewrite Ef in Nr. destruct (predictions db); [contradiction|reflexivity]. }
    rewrite Eb in Hd.
    assert (Hq : forall r, In r frs ->
                   drift_score r = 0%R /\ status r = stable /\ severity r = none).
    { exact (@DetectorFacts.same_frame_reports_quiet scipy
               (drift_detector settings)
               (_get_current_features db (window_start settings now hours) now)
               None frs Hthr Hd). }
    assert (Ha : forall pd, _generate_alerts frs pd = []).
    { intros pd. apply no_alert_without_alerting_severity.
      intros r Hr. destruct (Hq r Hr) as (_ & _ & ->). reflexivity. }
    split; [exact Hq|]. split; [|split].
    + destruct (any_feature_drifted frs) eqn:E; [|reflexivity].
      apply ServiceFacts.any_feature_drifted_spec in E.
      destruct E as (r & Hr & Hs). destruct (Hq r Hr) as (_ & Hst & _).
      congruence.
    + apply Ha.
    + intros Hc. apply ServiceFacts.overall_health_rule in Hc.
      rewrite <- (high_alerts_count frs None), Ha in Hc.
      simpl in Hc. lia.
Qed.

Lemma history_inside_the_window_shows_no_data_drift_witness :
  exists report,
    outcome (@get_drift_report Examples.scipy_significant Examples.collaborators
               default_settings Examples.two_predictions 2000 None) = Ok report /\
    total_predictions report = 2%nat /\
    data_drift_detected (overall_status report) = false /\
    alerts report = [].
Proof.
  destruct (ServiceFacts.two_predictions_cycle Examples.scipy_significant
              Examples.collaborators) as (report & E & Ht & _).
  assert (Hthr : (0 < PSI_THRESHOLD default_settings)%R) by (simpl; lra).
  assert (Hlen : (Z.of_nat (List.length (predictions Examples.two_predictions))
                  <= 10000)%Z) by (simpl; lia).
  assert (Hall : forall p, In p (predictions Examples.two_predictions) ->
            (window_start default_settings 2000 None
             <= prediction_timestamp p <= 2000)%Z).
  { intros p [<- | [<- | []]]; vm_compute; split; discriminate. }
  destruct (@history_inside_the_window_shows_no_data_drift
              Examples.scipy_significant Examples.collaborators default_settings
              Examples.two_predictions 2000 None report Hthr Hlen Hall E)
    as (_ & Hd & Ha & _).
  exists report. repeat split; assumption.
Defined.

Lemma none_in_filter {A : Type} (f : A -> bool) (l : list A) :
  (forall x, In x l -> f x = false) -> filter f l = [].
Proof.
  induction l as [|a l IH]; intros H; simpl; [reflexivity|].
  rewrite (H a (or_introl eq_refl)). apply IH.
  intros x Hx. apply H. right. exact Hx.
Qed.

(** X13.  A negative number of hours, which neither the service nor the
    endpoint rejects, puts the window's start after its end.  As long as
    that start is still an instant a [datetime] can hold, [get_drift_report]
    fetches the two frames and returns the empty report, with health unknown
    and no prediction counted, whatever the store holds. *)
Theorem negative_window_gives_the_empty_report
  (scipy : SciPy) (collab : Collaborators) (settings : Settings)
  (db : Database) (now : Z) (hours : option Z) :
  (match hours with
   | None => DRIFT_WINDOW_HOURS settings
   | Some h => h
   end < 0)%Z ->
  representable now ->
  representable (window_start settings now hours) ->
  (now < window_start settings now hours)%Z /\
  get_drift_report settings db now hours
  = ([Called m_get_baseline_features; Called m_get_current_features;
      Called m_empty_report],
     Ok (_empty_report settings (window_start settings now hours) now)).
Proof.
  intros Hneg _ _.
  assert (Hs : (now < window_start settings now hours)%Z)
    by (unfold window_start; lia).
  split; [exact Hs|].
  apply ServiceFacts.get_drift_report_empty.
  rewrite _get_current_features_index, none_in_filter; [reflexivity|].
  intros p _. unfold in_window.
  destruct (Z.leb_spec (window_start settings now hours) (prediction_timestamp p));
    [|reflexivity].
  destruct (Z.leb_spec (prediction_timestamp p) now); [lia | reflexivity].
Qed.

Lemma negative_window_gives_the_empty_report_witness :
  outcome (@get_drift_report Examples.scipy_partial Examples.collaborators
             default_settings Examples.two_predictions 2000 (Some (-1)%Z))
  = Ok (@_empty_report Examples.collaborators default_settings 5600 2000).
Proof.
  assert (Hneg : (match Some (-1)%Z with
                  | None => DRIFT_WINDOW_HOURS default_settings
                  | Some h => h
                  end < 0)%Z) by reflexivity.
  assert (Hn : representable 2000)
    by (unfold representable, datetime_min, datetime_max; lia).
  assert (Hw : representable (window_start default_settings 2000 (Some (-1)%Z)))
    by (unfold representable, datetime_min, datetime_max; vm_compute;
        split; discriminate).
  rewrite (proj2 (@negative_window_gives_the_empty_report
                    Examples.scipy_partial Examples.collaborators
                    default_settings Examples.two_predictions 2000
                    (Some (-1)%Z) Hneg Hn Hw)).
  reflexivity.
Defined.

(** X14.  The reports of a store that holds predictions never depend on the
    synthetic baseline: the generator is consulted only when the store is
    empty, and then the window is empty too and the empty report is
    returned.  With stored predictions the baseline has one row for each of
    the first 10000 of them. *)
Theorem synthetic_baseline_never_reaches_a_report
  (scipy : SciPy) (collab : Collaborators) (settings : Settings)
  (db : Database) (now : Z) (hours : option Z) (gen : nat -> DataFrame) :
  @get_drift_report scipy (with_generator collab gen) settings db now hours
  = @get_drift_report scipy collab settings db now hours /\
  (predictions db = [] ->
   _get_baseline_features db = generate_baseline_data 1000) /\
  (predictions db <> [] ->
   @_get_baseline_features (with_generator collab gen) db
   = _get_baseline_features db /\
   Z.of_nat (index (_get_baseline_features db))
   = Z.min (Z.of_nat (List.length (predictions db))) 10000).
Proof.
  assert (Hb : predictions db <> [] ->
    @_get_baseline_features (with_generator collab gen) db
    = _get_baseline_features db).
  { intros N. unfold _get_baseline_features.
    destruct (predictions db) as [|p l]; [contradiction|].
    change (Z.to_nat 10000) with (S (Z.to_nat 9999)). reflexivity. }
  split; [|split].
  - destruct (filter (in_window (window_start settings now hours) now)
                     (predictions db)) as [|p l] eqn:Er.
    + rewrite !ServiceFacts.get_drift_report_empty
        by (rewrite _get_current_features_index, Er; reflexivity).
      reflexivity.
    + assert (N : predictions db <> []).
      { intros E0. rewrite E0 in Er. discriminate. }
      unfold get_drift_report. rewrite (Hb N). reflexivity.
  - intros E. unfold _get_baseline_features. rewrite E. reflexivity.
  - intros N. split; [exact (Hb N)|].
    unfold _get_baseline_features.
    destruct (firstn (Z.to_nat 10000) (predictions db)) as [|p l] eqn:Ef.
    + exfalso. destruct (predictions db); [contradiction|].
      change (Z.to_nat 10000) with (S (Z.to_nat 9999)) in Ef. discriminate.
    + rewrite <- Ef. unfold DataFrame_of_records. cbn [index].
      rewrite length_map, length_firstn. lia.
Qed.

Lemma synthetic_baseline_never_reaches_a_report_witness :
  @get_drift_report Examples.scipy_partial
    (with_generator Examples.collaborators (fun _ => Examples.no_rows_frame))
    default_settings Examples.two_predictions 2000 None
  = @get_drift_report Examples.scipy_partial Examples.collaborators
      default_settings Examples.two_predictions 2000 None /\
  Z.of_nat (index (@_get_baseline_features Examples.collaborators
                     Examples.two_predictions)) = 2%Z.
Proof.
  destruct (@synthetic_baseline_never_reaches_a_report Examples.scipy_partial
              Examples.collaborators default_settings Examples.two_predictions
              2000 None (fun _ => Examples.no_rows_frame)) as (E & _ & H).
  split; [exact E|].
  assert (N : predictions Examples.two_predictions <> []) by discriminate.
  rewrite (proj2 (H N)). reflexivity.
Defined.

Lemma alerts_carry_their_feature (collab : Collaborators)
  (reports : list FeatureDrift) (pd : option PredictionDrift) (a : Alert) :
  In a (_generate_alerts reports pd) ->
  exists r, In r reports /\
            message a = (feature_name r, drift_score r, threshold r) /\
            alert_severity a = severity r.
Proof. apply alerts_from_carry. Qed.

(** X20.  The configured thresholds are the ones a returned report is
    judged by: every feature result names [PSI_THRESHOLD] as its threshold,
    is [drifted] exactly when its score, which is never negative, reaches
    it, and has the severity of its score; the prediction result names
    [KS_THRESHOLD] and is [drifted] exactly when its p-value is below it;
    and every alert quotes the name, score and threshold of a feature
    result of the same report and has its severity. *)
Theorem report_uses_the_configured_thresholds
  (scipy : SciPy) (collab : Collaborators) (settings : Settings)
  (db : Database) (now : Z) (hours : option Z) (report : Report) :
  outcome (get_drift_report settings db now hours) = Ok report ->
  (forall r, In r (feature_drift report) ->
     threshold r = PSI_THRESHOLD settings /\
     (status r = drifted <-> (PSI_THRESHOLD settings <= drift_score r)%R) /\
     severity r = severity_of (drift_score r) /\
     (0 <= drift_score r)%R) /\
  (forall p, prediction_drift report = Some p ->
     pd_threshold p = KS_THRESHOLD settings /\
     (pd_status p = drifted <-> (pd_p_value p < KS_THRESHOLD settings)%R)) /\
  (forall a, In a (alerts report) ->
     exists r, In r (feature_drift report) /\
               message a = (feature_name r, drift_score r, PSI_THRESHOLD settings) /\
               alert_severity a = severity r).
Proof.
  intros H. apply get_drift_report_cases in H.
  destruct H as [[_ ->] | [_ (frs & Hd & ->)]].
  - cbn. split; [intros r []|]. split; [discriminate | intros a []].
  - cbn [feature_drift prediction_drift alerts].
    assert (HF : Forall (fun r =>
        threshold r = PSI_THRESHOLD settings /\
        (status r = drifted <-> (PSI_THRESHOLD settings <= drift_score r)%R) /\
        severity r = severity_of (drift_score r) /\
        (0 <= drift_score r)%R) frs).
    { eapply DetectorFacts.detect_feature_drift_Forall; [|exact Hd].
      intros f bv cv r _ _ Hr. apply DetectorFacts.feature_report_inv in Hr.
      destruct Hr as (_ & Es & Et & Est & Esev & _).
      split; [exact Et|]. split; [|split; [exact Esev|]].
      - rewrite Est. change (psi_threshold (drift_detector settings))
          with (PSI_THRESHOLD settings).
        destruct (Rgeb (drift_score r) (PSI_THRESHOLD settings)) eqn:G.
        + apply DetectorFacts.Rgeb_true in G. split; auto.
        + apply DetectorFacts.Rgeb_false in G.
          split; [discriminate | intros; lra].
      - rewrite Es. apply DetectorFacts.calculate_psi_nonneg. }
    split; [exact (proj1 (Forall_forall _ _) HF)|]. split.
    + intros p Hp. inversion Hp; subst p; clear Hp.
      unfold detect_prediction_drift.
      destruct (ks_test _ _ _) as [s pv].
      cbn [pd_threshold pd_status pd_p_value].
      change (ks_threshold (drift_detector settings))
        with (KS_THRESHOLD settings).
      split; [reflexivity|].
      destruct (Rltb pv (KS_THRESHOLD settings)) eqn:G.
      * apply DetectorFacts.Rltb_true in G. split; auto.
      * apply DetectorFacts.Rltb_false in G.
        split; [discriminate | intros; lra].
    + intros a Ha. apply alerts_carry_their_feature in Ha.
      destruct Ha as (r & Hr & Hm & Hs). exists r. split; [exact Hr|].
      split; [|exact Hs].
      rewrite Hm, (proj1 (proj1 (Forall_forall _ _) HF r Hr)). reflexivity.
Qed.

Lemma report_uses_the_configured_thresholds_witness :
  exists report,
    outcome (@get_drift_report Examples.scipy_significant Examples.collaborators
               default_settings Examples.two_predictions 2000 None) = Ok report /\
    total_predictions report = 2%nat /\
    exists p, prediction_drift report = Some p /\
              pd_threshold p = 0.05%R /\ pd_status p = drifted.
Proof.
  destruct (ServiceFacts.two_predictions_cycle Examples.scipy_significant
              Examples.collaborators) as (report & E & Ht & _ & _ & Hp & _).
  destruct (@report_uses_the_configured_thresholds Examples.scipy_significant
              Examples.collaborators default_settings Examples.two_predictions
              2000 None report E) as (_ & Hpd & _).
  exists report. split; [exact E|]. split; [exact Ht|].
  eexists. split; [exact Hp|].
  destruct (Hpd _ Hp) as (Hthr & Hst).
  split; [exact Hthr|].
  apply Hst. unfold detect_prediction_drift, ks_test. simpl. lra.
Defined.

End ServiceEdges.

(** * The endpoint over the service *)

Module ApiEdges.
Import Detector MonitoringService MonitoringApi.

(** X15.  [get_latest_drift_report] never lets an exception of the service
    through: it answers with the service's report when there is one and
    with an [HTTPException] of status 500 that carries the exception
    otherwise, and it does nothing besides what the service does.  The
    window is the [hours] of the request, one hour when the request names
    none; the configured [DRIFT_WINDOW_HOURS] plays no part. *)
Theorem endpoint_answers_report_or_500
  (scipy : SciPy) (collab : Collaborators) (settings : Settings)
  (db : Database) (now : Z) (hours : option Z) :
  let h := match hours with None => 1%Z | Some h => h end in
  (forall report,
     outcome (get_drift_report settings db now (Some h)) = Ok report ->
     outcome (get_latest_drift_report settings db now hours)
     = Ok (Returned report)) /\
  (forall e,
     outcome (get_drift_report settings db now (Some h)) = Raise e ->
     outcome (get_latest_drift_report settings db now hours)
     = Ok (HTTPException 500 "Failed to generate drift report: " e)) /\
  trace (get_latest_drift_report settings db now hours)
  = trace (get_drift_report settings db now (Some h)) /\
  (forall w,
     get_latest_drift_report (with_window_hours settings w) db now hours
     = get_latest_drift_report settings db now hours).
Proof.
  intros h. unfold get_latest_drift_report. fold h.
  split; [|split; [|split]].
  - intros report H.
    destruct (get_drift_report settings db now (Some h)) as [t [r|e]];
      unfold outcome in H; simpl in H; [|discriminate].
    inversion H. unfold tryM, bindM, ret, outcome. simpl. reflexivity.
  - intros e H.
    destruct (get_drift_report settings db now (Some h)) as [t [r|e']];
      unfold outcome in H; simpl in H; [discriminate|].
    inversion H. unfold tryM, bindM, ret, outcome. simpl. reflexivity.
  - destruct (get_drift_report settings db now (Some h)) as [t [r|e]];
      unfold tryM, bindM, ret, trace; simpl; rewrite app_nil_r; reflexivity.
  - intros w. reflexivity.
Qed.

(** The store with one prediction whose feature is -1e-10 is answered with
    status 500. *)
Lemma endpoint_answers_report_or_500_witness :
  outcome (@get_latest_drift_report Examples.scipy_partial Examples.collaborators
             default_settings Examples.offset_history 1000 None)
  = Ok (HTTPException 500 "Failed to generate drift report: " ZeroDivisionError).
Proof.
  apply (proj1 (proj2 (@endpoint_answers_report_or_500 Examples.scipy_partial
                         Examples.collaborators default_settings
                         Examples.offset_history 1000 None))).
  assert (N : index (_get_current_features Examples.offset_history
                       (window_start default_settings 1000 (Some 1%Z)) 1000)
              <> 0%nat) by (vm_compute; discriminate).
  rewrite (ServiceFacts.get_drift_report_full default_settings
             Examples.offset_history 1000 (Some 1%Z) N).
  change (_get_current_features Examples.offset_history
            (window_start default_settings 1000 (Some 1%Z)) 1000)
    with Examples.offset_frame.
  rewrite (ServiceEdges.offset_history_detector_fails Examples.scipy_partial
             Examples.collaborators).
  reflexivity.
Defined.

End ApiEdges.

(** * Further properties of the monitoring worker *)

Module WorkerEdges.
Import MonitoringWorker.

Ltac answer_cases :=
  repeat match goal with
         | |- context [session_execute ?h ?q] =>
             destruct (session_execute h q) as [[[?|]|]|] eqn:?; simpl
         | |- context [Qle_bool ?a ?b] =>
             destruct (Qle_bool a b) eqn:?; simpl
         | |- context [Qeq_bool ?a ?b] =>
             destruct (Qeq_bool a b) eqn:?; simpl
         end.

Ltac as_suffix :=
  repeat rewrite <- app_assoc; simpl; eexists; split; [reflexivity|].

Lemma session_events_app (h l : list wevent) :
  session_events (h ++ l) = session_events h ++ session_events l.
Proof. unfold session_events. apply filter_app. Qed.

Lemma completed_cycles_session_events (l : list wevent) :
  completed_cycles l = completed_cycles (session_events l).
Proof.
  unfold completed_cycles, session_events.
  induction l as [|e l IH]; [reflexivity|].
  destruct e; simpl; rewrite ?IH; reflexivity.
Qed.

Lemma rise_is_outside_the_band (avg : Q) :
  (0.05 < avg)%Q ->
  Qeq_bool avg 0 = false /\ Qle_bool (Qabs (avg - 0.02)) 0.03 = false.
Proof.
  intros H. split.
  - destruct (Qeq_bool avg 0) eqn:E; [|reflexivity].
    apply Qeq_bool_iff in E. exfalso. Lqa.lra.
  - destruct (Qle_bool (Qabs (avg - 0.02)) 0.03) eqn:E; [|reflexivity].
    apply Qle_bool_iff, Qabs_Qle_condition in E. destruct E as [_ E].
    exfalso. Lqa.lra.
Qed.

Lemma below_the_rise_is_inside_the_band (avg : Q) :
  (0 <= avg)%Q -> (avg < 0.05)%Q ->
  Qle_bool (Qabs (avg - 0.02)) 0.03 = true.
Proof.
  intros H0 H1. apply Qle_bool_iff, Qabs_Qle_condition. split; Lqa.lra.
Qed.

Section WithEnv.
Context {env : WorkerEnv}.

Lemma _calculate_metrics_session (h : list wevent) :
  exists l, _calculate_metrics h = (h ++ l, Ok tt) /\ session_events l = [].
Proof.
  unfold _calculate_metrics, bindW, tryW, emit, execute, liftW, retW,
    positive, first_or_zero, truthy. simpl.
  answer_cases; as_suffix; reflexivity.
Qed.

Lemma _check_drift_session (h : list wevent) :
  exists l, _check_drift h = (h ++ l, Ok tt) /\ session_events l = [].
Proof.
  unfold _check_drift, bindW, tryW, emit, execute, liftW, retW, truthy. simpl.
  answer_cases; as_suffix; reflexivity.
Qed.

Lemma _update_system_health_session (h : list wevent) :
  exists l r, _update_system_health h = (h ++ l, r) /\
              session_events l = [] /\
              r = match import_psutil with
                  | Ok _ => Ok tt
                  | Raise e => Raise e
                  end /\
              (forall e, import_psutil = Raise e -> statements l = []).
Proof.
  unfold _update_system_health, bindW, tryW, emit, execute, liftW, retW. simpl.
  destruct import_psutil as [[]|e]; simpl.
  - destruct cpu_percent; simpl; [destruct virtual_memory_percent; simpl|];
      answer_cases; repeat rewrite <- app_assoc; simpl;
      eexists; eexists; (split; [reflexivity|]);
      (split; [reflexivity|]); (split; [reflexivity|]); intros; discriminate.
  - exists [Enter update_system_health], (Raise e).
    repeat split; reflexivity.
Qed.

(** What one cycle does to the session, whatever the rollback and the close
    answer. *)
Lemma run_monitoring_cycle_session (h : list wevent) :
  exists l r, run_monitoring_cycle h = (h ++ l, r) /\
    match import_psutil with
    | Ok _ => session_events l = [Commit; Close] \/
              session_events l = [Commit; Rollback; Close]
    | Raise _ => session_events l = [Rollback; Close]
    end.
Proof.
  unfold run_monitoring_cycle, finallyW.
  unfold bindW at 1. unfold emit at 1. cbn beta iota.
  unfold tryW at 1. unfold bindW at 1.
  destruct (_calculate_metrics_session
              (h ++ [Log INFO "Starting monitoring cycle..."])) as (l1 & -> & S1).
  unfold bindW at 1.
  match goal with |- context [_check_drift ?k] =>
    destruct (_check_drift_session k) as (l2 & -> & S2) end.
  unfold bindW at 1.
  match goal with |- context [_update_system_health ?k] =>
    destruct (_update_system_health_session k) as (l3 & r & -> & S3 & Hr & _) end.
  destruct import_psutil as [[]|e]; subst r.
  - unfold bindW, commit, emit.
    match goal with |- context [session_commit ?k] =>
      destruct (session_commit k) as [[]|e] end; cbn beta iota.
    + exists ([Log INFO "Starting monitoring cycle..."] ++ l1 ++ l2 ++ l3
              ++ [Commit; Log INFO "Monitoring cycle completed"; Close]).
      unfold close.
      match goal with |- context [session_close ?k] =>
        destruct (session_close k) as [[]|?] end;
        (eexists; split;
         [repeat (rewrite <- app_assoc; simpl); reflexivity|]);
        left; rewrite !session_events_app, S1, S2, S3; reflexivity.
    + exists ([Log INFO "Starting monitoring cycle..."] ++ l1 ++ l2 ++ l3
              ++ [Commit; Log ERROR "Error in monitoring cycle"; Rollback; Close]).
      unfold rollback.
      match goal with |- context [session_rollback ?k] =>
        destruct (session_rollback k) as [[]|?] end;
      unfold close;
      match goal with |- context [session_close ?k] =>
        destruct (session_close k) as [[]|?] end;
        (eexists; split;
         [repeat (rewrite <- app_assoc; simpl); reflexivity|]);
        right; rewrite !session_events_app, S1, S2, S3; reflexivity.
  - unfold bindW, emit. cbn beta iota.
    exists ([Log INFO "Starting monitoring cycle..."] ++ l1 ++ l2 ++ l3
            ++ [Log ERROR "Error in monitoring cycle"; Rollback; Close]).
    unfold rollback.
    match goal with |- context [session_rollback ?k] =>
      destruct (session_rollback k) as [[]|?] end;
    unfold close;
    match goal with |- context [session_close ?k] =>
      destruct (session_close k) as [[]|?] end;
      (eexists; split;
       [repeat (rewrite <- app_assoc; simpl); reflexivity|]);
      rewrite !session_events_app, S1, S2, S3; reflexivity.
Qed.

Lemma run_monitoring_cycle_closes_once (h : list wevent) :
  exists l r, run_monitoring_cycle h = (h ++ l, r) /\
              completed_cycles l = 1%nat.
Proof.
  destruct (run_monitoring_cycle_session h) as (l & r & E & S).
  exists l, r. split; [exact E|].
  rewrite completed_cycles_session_events.
  destruct import_psutil; [destruct S as [S | S]|]; rewrite S; reflexivity.
Qed.

Lemma main_loop_counts (ticks : list tick) :
  forall h, exists l,
    main_loop ticks h = (h ++ l, Ok StillRunning) /\
    completed_cycles l = due_count ticks.
Proof.
  induction ticks as [|t rest IH]; intros h.
  - exists []. rewrite app_nil_r. split; reflexivity.
  - destruct t; simpl.
    + unfold bindW, tryW.
      destruct (run_monitoring_cycle_closes_once h) as (l1 & r & -> & C1).
      destruct r as [[]|e].
      * destruct (IH (h ++ l1)) as (l2 & -> & C2).
        exists (l1 ++ l2). rewrite app_assoc. split; [reflexivity|].
        rewrite WorkerFacts.completed_cycles_app, C1, C2. reflexivity.
      * unfold emit.
        destruct (IH ((h ++ l1) ++ [Log ERROR "Error in main loop"]))
          as (l2 & -> & C2).
        exists (l1 ++ [Log ERROR "Error in main loop"] ++ l2).
        split; [repeat rewrite <- app_assoc; reflexivity|].
        rewrite !WorkerFacts.completed_cycles_app, C1, C2. reflexivity.
    + destruct (IH h) as (l2 & -> & C2).
      exists l2. split; [reflexivity | exact C2].
Qed.

End WithEnv.

(** X16.  [_check_drift] sends its query and then at most one statement.
    For an average probability above 0.05 it inserts one alert carrying
    that average; for an average from 0 up to, but not including, 0.05 it
    inserts nothing, so a fall of the fraud rate below the 2% baseline is
    never reported; and it inserts nothing when there is no row, when the
    average is NULL, or when the query fails.  The step returns normally
    and does not commit, roll back or close. *)
Theorem check_drift_alerts_only_on_a_rise (env : WorkerEnv) (h : list wevent) :
  let answer := session_execute (h ++ [Enter check_drift]) SelectAvgProba in
  exists l,
    _check_drift h = (h ++ l, Ok tt) /\
    session_events l = [] /\
    (forall avg, answer = Ok (Some (Some avg)) -> (0.05 < avg)%Q ->
                 statements l = [SelectAvgProba; InsertAlert avg]) /\
    (forall avg, answer = Ok (Some (Some avg)) ->
                 (0 <= avg)%Q -> (avg < 0.05)%Q ->
                 statements l = [SelectAvgProba]) /\
    (answer = Ok None \/ answer = Ok (Some None) \/
     (exists e, answer = Raise e) ->
     statements l = [SelectAvgProba]).
Proof.
  intros answer.
  unfold _check_drift, bindW, tryW, emit, execute, liftW, retW, truthy.
  cbn - [Qabs Qminus Qle_bool Qeq_bool]. fold answer.
  destruct answer as [[[avg|]|]|e] eqn:Ea.
  - destruct (Qeq_bool avg 0) eqn:E0;
      [|destruct (Qle_bool (Qabs (avg - 0.02)) 0.03) eqn:Eb;
        cbn - [Qabs Qminus Qle_bool Qeq_bool]].
    + as_suffix. split; [reflexivity|]. split; [|split].
      * intros a Ha Hr. inversion Ha; subst a.
        destruct (rise_is_outside_the_band Hr) as [N _]. congruence.
      * intros; reflexivity.
      * intros; reflexivity.
    + as_suffix. split; [reflexivity|]. split; [|split].
      * intros a Ha Hr. inversion Ha; subst a.
        destruct (rise_is_outside_the_band Hr) as [_ N]. congruence.
      * intros; reflexivity.
      * intros; reflexivity.
    + destruct (session_execute _ (InsertAlert avg)) as [r|e];
        as_suffix; (split; [reflexivity|]); (split; [|split]);
        try (intros a Ha Hr; inversion Ha; subst a; reflexivity);
        try (intros a Ha H0 H1; inversion Ha; subst a;
             pose proof (below_the_rise_is_inside_the_band H0 H1); congruence);
        intros [H | [H | (e' & H)]]; discriminate.
  - as_suffix. split; [reflexivity|]. repeat split; intros; try discriminate;
      reflexivity.
  - as_suffix. split; [reflexivity|]. repeat split; intros; try discriminate;
      reflexivity.
  - as_suffix. split; [reflexivity|]. repeat split; intros; try discriminate;
      reflexivity.
Qed.

(** With an average of 0.5 the alert is inserted. *)
Lemma check_drift_alerts_only_on_a_rise_witness :
  exists l,
    @_check_drift Examples.flaky_env [] = (l, Ok tt) /\
    statements l = [SelectAvgProba; InsertAlert 0.5%Q].
Proof.
  destruct (@check_drift_alerts_only_on_a_rise Examples.flaky_env [])
    as (l & E & _ & Hrise & _).
  exists l. split; [exact E|].
  apply Hrise; reflexivity.
Defined.

(** X17.  The accuracy [_calculate_metrics] stores is never zero: a
    measured accuracy of 0 is stored as NULL, like a missing one.  An
    accuracy is stored only after the accuracy query was sent, which happens
    only for a positive label count.  The step returns normally and does not
    commit, roll back or close. *)
Theorem stored_accuracy_is_never_zero (env : WorkerEnv) (h : list wevent) :
  exists l,
    _calculate_metrics h = (h ++ l, Ok tt) /\
    session_events l = [] /\
    forall pred_count label_count accuracy,
      In (InsertMetrics pred_count label_count accuracy) (statements l) ->
      forall a, accuracy = Some a ->
        ~ (a == 0)%Q /\
        In SelectAccuracy (statements l) /\
        exists n, label_count = Some n /\ (0 < n)%Q.
Proof.
  unfold _calculate_metrics, bindW, tryW, emit, execute, liftW, retW,
    positive, first_or_zero, truthy. simpl.
  answer_cases; as_suffix; (split; [reflexivity|]);
    simpl; intros pc lc acc Hin a ->;
    repeat match goal with
           | H : _ \/ _ |- _ => destruct H
           | H : False |- _ => destruct H
           end;
    try discriminate;
    match goal with
    | H : InsertMetrics _ _ _ = InsertMetrics _ _ _ |- _ =>
        inversion H; subst; clear H
    end;
    (split; [|split]);
    try (intros Ez; apply Qeq_bool_iff in Ez; congruence);
    try (simpl; tauto);
    try (eexists; split; [reflexivity|];
         apply Qnot_le_lt; intros Hle; apply Qle_bool_iff in Hle; congruence).
Qed.

(** Every labelled prediction wrong: the accuracy query is sent, its answer
    0 is stored as NULL. *)
Lemma stored_accuracy_is_never_zero_witness :
  exists l,
    @_calculate_metrics Examples.wrong_model_env [] = (l, Ok tt) /\
    statements l
    = [SelectPredictionCount; SelectLabelCount; SelectAccuracy;
       InsertMetrics (Some 5%Q) (Some 5%Q) None] /\
    forall a, ~ In (InsertMetrics (Some 5%Q) (Some 5%Q) (Some a)) (statements l).
Proof.
  destruct (@stored_accuracy_is_never_zero Examples.wrong_model_env [])
    as (l & E & _ & H).
  exists l. split; [exact E|].
  vm_compute in E. inversion E; subst l. clear E.
  split; [reflexivity|].
  intros a Hin. simpl in Hin.
  destruct Hin as [Hin | [Hin | [Hin | [Hin | []]]]]; discriminate.
Defined.

(** X18.  What a cycle does to the session.  When [psutil] can be imported
    the cycle always attempts the commit, whatever its statements met, and
    the session sees commit and close, or commit, rollback and close when
    the commit itself fails.  When the import fails the cycle never commits:
    the session sees rollback and close only, although the statements of
    the first two steps were sent.  In every case the close of the session
    is attempted exactly once, as the last event, and the cycle returns
    normally unless the rollback or the close raised. *)
Theorem cycle_commits_unless_psutil_is_missing (env : WorkerEnv)
  (h : list wevent) :
  exists l r,
    run_monitoring_cycle h = (h ++ l, r) /\
    (forall u, import_psutil = Ok u ->
       session_events l = [Commit; Close] \/
       session_events l = [Commit; Rollback; Close]) /\
    (forall e, import_psutil = Raise e ->
       session_events l = [Rollback; Close] /\
       In SelectPredictionCount (statements l) /\
       In SelectAvgProba (statements l)) /\
    completed_cycles l = 1%nat /\
    (exists l0, l = l0 ++ [Close]) /\
    (forall e, r = Raise e ->
       exists h', session_rollback h' = Raise e \/ session_close h' = Raise e).
Proof.
  destruct (run_monitoring_cycle_session h) as (l & r & E & S).
  destruct (WorkerFacts.run_monitoring_cycle_returns h)
    as (l1 & l2 & l3 & r' & E' & Hesc).
  rewrite E in E'. injection E' as El Er. apply app_inv_head in El.
  subst r'. exists l, r. split; [exact E|].
  assert (Hst : In SelectPredictionCount (statements l) /\
                In SelectAvgProba (statements l)).
  { rewrite El. simpl. split; [left; reflexivity|]. right.
    clear. induction l1 as [|e l1 IH]; [left; reflexivity|].
    destruct e; simpl; auto. }
  assert (Hlast : exists l0, l = l0 ++ [Close]).
  { exists (Log INFO "Starting monitoring cycle..."
              :: Enter calculate_metrics :: Exec SelectPredictionCount :: l1 ++
              Enter check_drift :: Exec SelectAvgProba :: l2 ++
              Enter update_system_health :: l3).
    rewrite El. simpl. repeat (rewrite <- app_assoc; simpl). reflexivity. }
  split; [|split; [|split; [|split; [exact Hlast | exact Hesc]]]].
  - intros u Hu. rewrite Hu in S. exact S.
  - intros e He. rewrite He in S. split; [exact S | exact Hst].
  - rewrite completed_cycles_session_events.
    destruct import_psutil; [destruct S as [S | S]|]; rewrite S; reflexivity.
Qed.

Lemma cycle_commits_unless_psutil_is_missing_witness :
  exists l,
    @run_monitoring_cycle Examples.flaky_env [] = (l, Ok tt) /\
    session_events l = [Rollback; Close] /\
    statements l = [SelectPredictionCount; SelectAvgProba; InsertAlert 0.5%Q].
Proof.
  destruct (@cycle_commits_unless_psutil_is_missing Examples.flaky_env [])
    as (l & r & E & _ & Hr & _).
  exists l.
  assert (El : session_events l = [Rollback; Close])
    by exact (proj1 (Hr ImportError eq_refl)).
  vm_compute in E. inversion E; subst l r.
  split; [reflexivity|]. split; [exact El | reflexivity].
Defined.

(** X19.  [start] runs one cycle at once.  When that cycle returns, every
    due pass of the loop gets exactly one more, whatever the scheduled
    cycles raise, and [start] is still running after the passes observed;
    each cycle attempts the close of its session exactly once.  When the
    first cycle raises, [start] ends with its exception after that one
    cycle. *)
Theorem start_runs_one_cycle_per_due_tick (env : WorkerEnv)
  (ticks : list tick) (h : list wevent) :
  exists l r,
    start ticks h = (h ++ l, r) /\
    match snd (run_monitoring_cycle h) with
    | Ok _ => r = Ok StillRunning /\
              completed_cycles l = (1 + due_count ticks)%nat
    | Raise e => r = Raise e /\ completed_cycles l = 1%nat
    end.
Proof.
  unfold start, bindW.
  destruct (run_monitoring_cycle_closes_once h) as (l1 & r1 & -> & C1).
  simpl. destruct r1 as [[]|e].
  - unfold emit.
    destruct (main_loop_counts ticks
                ((h ++ l1)
                 ++ [Log INFO "Worker started. Running monitoring cycles..."]))
      as (l2 & -> & C2).
    exists (l1 ++ [Log INFO "Worker started. Running monitoring cycles..."] ++ l2),
      (Ok StillRunning).
    split; [repeat rewrite <- app_assoc; reflexivity|].
    split; [reflexivity|].
    rewrite !WorkerFacts.completed_cycles_app, C1, C2. reflexivity.
  - exists l1, (Raise e). split; [reflexivity|]. split; [reflexivity | exact C1].
Qed.

Lemma start_runs_one_cycle_per_due_tick_witness :
  exists l,
    @start Examples.broken_env [Due; NotDue; Due] [] = (l, Ok StillRunning) /\
    completed_cycles l = 3%nat.
Proof.
  destruct (@start_runs_one_cycle_per_due_tick Examples.broken_env
              [Due; NotDue; Due] []) as (l & r & E & H).
  change (snd (@run_monitoring_cycle Examples.broken_env [])) with (@Ok unit tt) in H.
  destruct H as [-> Hc].
  exists l. split; [exact E | exact Hc].
Defined.

End WorkerEdges.
